(* ===== verification/_CoqProject ===== *)
-Q . S2P
Prelude.v
JsNumber.v
NumberFormat.v
JsParse.v
RatioClassifier.v
Markup.v
Fetch.v
CompanyOverview.v
DividendComparison.v
FvifaCalculator.v
CalculatorInputs.v
StaticMarkup.v
PriceSeries.v
TableIndex.v
StockComparisonPage.v
HomePage.v
