(* ===== verification/Prelude.v ===== *)
(** * A verification development for cannytrading-web

    ** The program

    The repository renders static pages of a multilingual financial site
    with React server components.  Outside the markup, its behaviour is
    in the stock-comparison sections: a section fetches one JSON record
    per stock from the market-data API (sequentially: stock one, then
    stock two), renders a fixed "unavailable" section when either record
    is missing, and otherwise classifies the two stocks' metrics and
    fills sentence templates, followed by a comparison table.  Numbers
    reach the text through the JavaScript runtime's [toFixed] and
    [toLocaleString].  The table index groups and sorts a list of pages
    by their first letter; the comparison page composes the sections for
    two fixed symbols.  The FVIFA calculator is a client component: two
    text inputs in React state, each written by a number and a range
    control, validated on every render and turned into the future-value
    interest factor of an annuity.  The Chinese home page renders the
    price-series section (two histories fetched in turn, charted only
    when both are present) between static sections; the remaining
    components (logo, hero section, footer, article) are static markup.

    ** Files, in dependency order

    - [Prelude] (this file): the [js_scope] notation scope, boolean
      tests on [Q] with reflection lemmas and the [qcase] tactic, a
      substring test [contains] on strings with the [contains_tac]
      tactic, the reflexive-transitive closure [star] of a step
      relation, the [js] hint and rewrite databases.
    - [JsNumber]: JavaScript numbers, [Fin q | PosInf | NegInf | NaN],
      with a finite value kept as the exact rational it denotes, and the
      operators the sources use (division, comparisons, [Math.max/min]),
      following ECMAScript.  The source literals are given their exact
      binary64 values ([0.67] is 6034823500676465 / 2^53).
    - [NumberFormat]: [toFixed] (ECMAScript Number.prototype.toFixed,
      steps 6-12) and [toLocaleString_en] (ECMA-402 with the "en" locale:
      half-expand rounding, comma grouping), a decimal reader
      [parse_fixed], and the theorems that the printed text reads back to
      the value within half a unit of the last place and that the locale
      text is the fixed text with grouping commas.
    - [JsParse]: String.prototype.trim over the UTF-8 encodings of the
      ECMAScript whitespace code points, [parseFloat] (longest
      StrDecimalLiteral prefix, exact value), and [Math.pow]
      (Number::exponentiate, overflowing to an infinity at the binary64
      threshold; a non-integer power of a positive base is the
      abstract runtime operation [PowRuntime]).
    - [RatioClassifier]: the rule [ratio > upper], else [ratio < lower],
      else comparable, shared by [generateMarketCapComparisonCommentary]
      and [generateBetaComparisonCommentary], stated over the interface
      [RatioThresholds] with two instances: the source's bounds (1.5,
      0.67) and the design's bounds (1.5, 1/1.5).
    - [Markup]: the rendered [Section]/[H2]/[P]/[Table] tree.
    - [Fetch]: the effects of the fetch helpers as a state monad [io]
      over the log of requested URLs and of [console.error] calls, and
      the JSON body of a response ([response]: an array of records, an
      object, [null], or a failure).
    - [CompanyOverview]: src/app/en/stock-comparisons/[slug]/components/
      CompanyOverviewSection.tsx: [fetchCompanyProfileData], the three
      commentary generators, [CompanyOverviewSection] and its table.
    - [DividendComparison]: src/app/zh/stock-comparisons/[slug]/
      components/DividendComparisonSection.tsx: [fetchDividendData],
      [generateDividendYieldCommentary] with [getDividendYieldCategory],
      [DividendComparisonSection] and its table.
    - [FvifaCalculator]: src/app/en/calculators/[slug]/
      future-value-interest-factor-of-annuity-calculator/components/
      Calculator.tsx: the state ([calculator_state]) and the four
      [onChange] handlers ([handle], [run]), the validations, [fvifa] and
      the rendered cards ([Calculator]).
    - [CalculatorInputs]: the values a browser hands to the calculator's
      [onChange] handlers: HTML's valid floating-point numbers, the value
      sanitization of a number input, the steps of a range input with
      the [min], [max] and [step] the component passes, and the step
      relation [ui_step] of these events.
    - [PriceSeries]: src/app/zh/components/StockComparisonSection.tsx:
      [fetchPriceSeriesData] (reverse, then map to date and adjusted
      close) and [StockComparisonSection] with its null short-circuit.
    - [TableIndex]: src/app/en/tables/page.tsx, in MathComp (the only
      file that loads it; no file loads stdpp): the [reduce] grouping
      into an object kept as an insertion-ordered association list,
      [Object.keys] order, the two stable sorts (MathComp's [sort], the
      unique stable sort) over the interface [LocaleCompare] of
      [localeCompare], and the rendered sections ([TablesPage]).
    - [StaticMarkup]: React elements as trees of tags, props and
      children; [clsx]; CSS-module class names as the interface
      [CssModules]; the static components [Logo], [HeroSection] (English
      home page), [Footer] and [Article].
    - [StockComparisonPage]: src/app/en/stock-comparisons/[slug]/page.tsx,
      the page as an [io] computation that runs [CompanyOverviewSection]
      for AAPL and TSLA and returns its elements with the props it
      passes, and its route segment config ([revalidate], [dynamic]).
    - [HomePage]: src/app/zh/page.tsx, the Chinese home page: header,
      [main] with the hero, price-series and calculator sections, footer,
      the price-series section run as an [io] computation.

    ** The theorems

    The claims are numbered by importance, C1 first.
    - Sections (C1, C2, C15, C21): the exact result and effects of each
      section handler: both URLs requested in order, console errors for
      the failing responses, and the all-or-nothing rendering.
    - Classifier (C3-C5): for any threshold pair with
      [0 < lower <= 1 <= upper], swapped pairs get mirror categories iff
      [lower == 1 / upper]; the source's pair fails exactly on the ratios
      in [[2/3, 0.67)] and [(1/0.67, 1.5]]; the source's classifier
      refines the design's one except on [[2/3, 0.67)].
    - Commentaries (C6-C9, C22-C27, C36, C37): which sentence is chosen
      on every branch, exactly when (for market caps, each sentence iff
      its ratio condition), and what it states (the larger stock, the quoted
      figures, the gap callout at a relative gap strictly above 0.5, the
      stock named higher and the percentage), the totality of the
      dividend commentary, and the defects found: an unguarded zero
      market cap, negative betas misreported, order-dependent
      classification, and dividend yields printed unscaled.
    - Formatting (C29, C30): the market cap in billions and the yield
      cells read back to the value within 0.005.
    - Calculator (C10-C12, C17, C28, C33): exactly one card in
      every state; the errors are exactly the NaN or negative readings,
      and the blank message exactly the whitespace-only texts; the
      printed factor is the annuity sum [sum (1 + r)^k], [k < n], to
      four places (the closed form and the zero-rate branch both agree
      with it) while [Math.pow] stays below the overflow threshold, and
      "Infinity" once [Math.pow] overflows on a positive rate (50
      percent over 1800 periods); over the sliders' ranges the factor
      stays below [10^21] so the text is its decimal rounding; the two
      fields' events commute.
    - Calculator in the browser (C19, C20, C35): the states reachable by the
      events a browser delivers ([ui_step]) keep both inputs empty or
      valid floating-point numbers (an invariant by induction on the
      steps), so the "valid numeric" messages are never shown; moving
      the two sliders to any of their steps always shows the factor; a
      typed rate that overflows binary64 (such as "1e400") reads as
      Infinity, passes the validation, and the factor printed is NaN.
    - Price series (C15, C16): both histories requested in order with
      the chart only when both are present; a newest-first history
      reaches the chart oldest first.  The home page ([HomePage]) is
      modelled but no theorem is stated about it: its children outside
      the sources may fetch, and what they fetch is not modelled.
    - Table index (C13, C14, C18, C31, C32): the index is, per letter in
      localeCompare order, the stable sort of the pages with that
      letter; the [reduce] builds one array per letter under distinct
      keys, exactly the pages' letters, each holding the pages of its
      letter in input order; the headings are sorted, distinct and
      exactly the pages' letters; every page is linked exactly once;
      ties keep input order.
    - Page (C34): the route's slug reaches only the header: every slug
      renders, and fetches, the AAPL vs. TSLA comparison, and the page's
      overview section is [CompanyOverviewSection]'s for AAPL and TSLA.

    ** Modelling choices and bounds

    - Finite numbers are exact rationals: binary64 rounding of
      intermediate results and the sign of zero are not modelled; a
      decimal tie such as [1.005] rounds up here where binary64 may round
      down.  The theorems on formatting hold for magnitudes below
      [10^21], where [toFixed] prints fixed notation; above it prints
      Number::toString, which (with the IPO date formatting) is an
      abstract runtime operation ([NumberToString], [DateToLocale]); the
      theorems use only its laws (it respects [Qeq] and never prints the
      empty string).  The other runtime interfaces are [PowRuntime]
      (non-integer powers, used by no theorem), [LocaleCompare] (any
      consistent comparison, as ECMA-402 requires of [localeCompare]) and
      [CaseMapping] (upper-casing of a non-ASCII character).  The concrete
      runs fix instances of them: decimal printing to twenty places,
      byte-wise lexicographic comparison, and the identity.
    - [Array.prototype.sort] is stable, so on a consistent comparator
      its result is the unique stable sort; MathComp's [sort] is that
      sort and models it.
    - The sources have no loop and no recursion of their own (only
      [map], [filter], [reduce], [sort] and [forEach] over finite
      arrays), so no theorem is about their termination; the fuel of the
      runtime models is proved sufficient instead:
    - [digit_list] recurses with fuel [N.size n] (the bit length), which
      exceeds the number of decimal digits of [n]; [digit_list_spec]
      proves it enough for every [n].
    - [parseFloat] keeps the decimal value exact below the binary64
      overflow threshold [2^1024 - 2^970] and reads a value at or above
      it as an infinity ([round_binary64]); [Math.pow] gives an infinity
      of the result's sign when its exact result reaches that threshold
      ([to_number]).  The rounding to the nearest double of a value in
      range, and the overflow of the other arithmetic results, are not
      modelled.
      [trim] and [parseFloat] strip at most one code point per step and
      run with the length of the text as fuel, which [strip_all_stops]
      proves enough.
    - [InputCard.NumberInput] and [InputCard.RangeInput] are outside the
      sources; [CalculatorInputs] takes them to render
      [<input type="number">] and [<input type="range">] and follows the
      HTML standard for the values they deliver.  The rate slider's 5001
      steps and the periods slider's 50 are checked by evaluation
      ([vm_compute]) to read back as their values.
    - The server is a function from URL to JSON body; records of another
      shape than the declared type and bodies that parse to strings or
      numbers are not modelled.

    ** Not modelled (see PROJECT.json)

    The components the pages import from outside the sources: the
    Chinese [Header], [Footer], [HeroSection] and [CalculatorSection],
    the article components ([Section], [H2], [P], [Table]), Chart and
    Form, and [getSectionPages] (a database call); the pages keep them as
    elements with the props they pass.  Next.js's [Link] and [Image] are
    kept as elements; their rendering to HTML is the framework's. *)

From Stdlib Require Import String Ascii List Bool QArith Qround Lqa ZArith Lia.
Import ListNotations.

Declare Scope js_scope.
Delimit Scope js_scope with js.

Create HintDb js.
Create Rewrite HintDb js.

(** ** Boolean tests on rationals *)

Definition Qltb (x y : Q) : bool := negb (Qle_bool y x).

Lemma Qle_bool_reflect (x y : Q) : reflect (x <= y) (Qle_bool x y).
Proof.
  destruct (Qle_bool x y) eqn:E; constructor.
  - now apply Qle_bool_iff.
  - intros H. apply Qle_bool_iff in H. congruence.
Qed.

Lemma Qltb_reflect (x y : Q) : reflect (x < y) (Qltb x y).
Proof.
  unfold Qltb. destruct (Qle_bool_reflect y x); constructor; simpl.
  - now apply Qle_not_lt.
  - now apply Qnot_le_lt.
Qed.

Lemma Qeq_bool_reflect (x y : Q) : reflect (x == y) (Qeq_bool x y).
Proof.
  destruct (Qeq_bool x y) eqn:E; constructor.
  - now apply Qeq_bool_iff.
  - now apply Qeq_bool_neq.
Qed.

Lemma Qltb_iff (x y : Q) : Qltb x y = true <-> x < y.
Proof. destruct (Qltb_reflect x y); split; easy. Qed.

Lemma Qltb_false (x y : Q) : Qltb x y = false <-> y <= x.
Proof.
  destruct (Qltb_reflect x y); split; intros; try discriminate; try reflexivity.
  - exfalso. lra.
  - now apply Qnot_lt_le.
Qed.

#[global] Instance Qltb_Proper : Proper (Qeq ==> Qeq ==> eq) Qltb.
Proof. intros x x' Hx y y' Hy. unfold Qltb. now rewrite Hx, Hy. Qed.

(** [qcase] splits on the first boolean test on rationals in the goal and
    turns it into the proposition it decides. *)
Ltac qcase :=
  match goal with
  | |- context [Qltb ?x ?y] => destruct (Qltb_reflect x y)
  | |- context [Qle_bool ?x ?y] => destruct (Qle_bool_reflect x y)
  | |- context [Qeq_bool ?x ?y] => destruct (Qeq_bool_reflect x y)
  end.

(** ** A substring test on strings

    The properties of the commentary generators say which names and
    figures a generated sentence mentions; [contains needle hay] is the
    test [hay.includes(needle)]. *)

Local Open Scope string_scope.

Fixpoint starts_with (p s : string) : bool :=
  match p, s with
  | EmptyString, _ => true
  | String c p', String d s' => Ascii.eqb c d && starts_with p' s'
  | String _ _, EmptyString => false
  end.

Fixpoint contains (needle hay : string) : bool :=
  starts_with needle hay ||
  match hay with
  | EmptyString => false
  | String _ rest => contains needle rest
  end.

Lemma starts_with_append (s t : string) : starts_with s (s ++ t) = true.
Proof.
  induction s as [|c s IH]; simpl; [reflexivity|].
  now rewrite Ascii.eqb_refl, IH.
Qed.

Lemma contains_here (s t : string) : contains s (s ++ t) = true.
Proof.
  assert (H := starts_with_append s t).
  destruct (s ++ t); cbn [contains]; now rewrite H.
Qed.

Lemma contains_append_r (s a b : string) :
  contains s b = true -> contains s (a ++ b) = true.
Proof.
  intros H. induction a as [|c a IH]; simpl; [exact H|].
  rewrite IH. apply orb_true_r.
Qed.

Lemma starts_with_append_l (s a b : string) :
  starts_with s a = true -> starts_with s (a ++ b) = true.
Proof.
  revert a. induction s as [|d s IH]; intros a H; [reflexivity|].
  destruct a as [|c a]; [discriminate|]. simpl in *.
  apply andb_true_iff in H as [H1 H2]. now rewrite H1, IH.
Qed.

Lemma contains_append_l (s a b : string) :
  contains s a = true -> contains s (a ++ b) = true.
Proof.
  induction a as [|c a IH]; simpl; intros H.
  - destruct s; [destruct b; reflexivity | discriminate].
  - apply orb_true_iff in H as [H|H].
    + apply orb_true_iff. left. exact (starts_with_append_l s (String c a) b H).
    + rewrite (IH H). apply orb_true_r.
Qed.

Lemma contains_middle (s a b : string) : contains s (a ++ s ++ b) = true.
Proof. apply contains_append_r, contains_here. Qed.

Lemma string_append_assoc (a b c : string) : (a ++ b) ++ c = a ++ (b ++ c).
Proof. induction a as [|x a IH]; simpl; [reflexivity | now rewrite IH]. Qed.

Lemma string_append_empty_r (a : string) : a ++ "" = a.
Proof. induction a as [|x a IH]; simpl; [reflexivity | now rewrite IH]. Qed.

Lemma string_length_append (a b : string) :
  String.length (a ++ b) = (String.length a + String.length b)%nat.
Proof. induction a as [|x a IH]; simpl; [reflexivity | now rewrite IH]. Qed.

#[export] Hint Rewrite string_append_assoc string_append_empty_r : js.
#[export] Hint Resolve contains_here contains_middle contains_append_l contains_append_r : js.

Lemma contains_of_starts_with (s t : string) :
  starts_with s t = true -> contains s t = true.
Proof. destruct t; cbn [contains]; intros ->; reflexivity. Qed.

Lemma starts_with_app_cancel (x s t : string) :
  starts_with (x ++ s) (x ++ t) = starts_with s t.
Proof.
  induction x as [|c x IH]; simpl; [reflexivity|]. now rewrite Ascii.eqb_refl, IH.
Qed.

(** [contains_tac] proves [contains s t = true] when [s] occurs in the
    concatenation [t] at a boundary of its pieces: it walks [t] piece by
    piece and, at each position, tries to match the pieces of [s]. *)
Ltac starts_tac :=
  autorewrite with js;
  repeat rewrite starts_with_app_cancel;
  first
    [ apply starts_with_append
    | reflexivity
    | cbn [starts_with append Ascii.eqb Bool.eqb andb];
      rewrite ?starts_with_append; reflexivity ].

Ltac contains_tac :=
  autorewrite with js;
  repeat first
    [ apply contains_of_starts_with; solve [starts_tac]
    | apply contains_append_r ].

(** ** Pairs of optional results

    The section components fetch two records and go on only when both
    are present ([if (!a || !b) return ...]). *)

Definition both {A B : Type} (a : option A) (b : option B) : option (A * B) :=
  match a, b with
  | Some x, Some y => Some (x, y)
  | _, _ => None
  end.

Lemma both_None {A B : Type} (a : option A) (b : option B) :
  both a b = None <-> a = None \/ b = None.
Proof. destruct a, b; simpl; intuition congruence. Qed.

Lemma both_Some {A B : Type} (a : option A) (b : option B) x y :
  both a b = Some (x, y) <-> a = Some x /\ b = Some y.
Proof. destruct a, b; simpl; intuition congruence. Qed.

Lemma append_nonempty_r (a b : string) : b <> EmptyString -> a ++ b <> EmptyString.
Proof. destruct a; simpl; [exact (fun H => H) | discriminate]. Qed.

(** ** Sequences of transitions

    The reflexive transitive closure of a step relation, for the
    reachable states of the client components. *)

Section Sequences.

Context {A : Type} (R : A -> A -> Prop).

Inductive star : A -> A -> Prop :=
| star_refl a : star a a
| star_step a b c : R a b -> star b c -> star a c.

Lemma star_one (a b : A) : R a b -> star a b.
Proof. intros H. eapply star_step; [exact H | apply star_refl]. Qed.

Lemma star_trans (a b c : A) : star a b -> star b c -> star a c.
Proof. induction 1 as [|x y z Hxy _ IH]; intros H; [exact H | eapply star_step; eauto]. Qed.

End Sequences.

#[export] Hint Resolve star_refl star_one : js.
