(* ===== verification/JsNumber.v ===== *)
(** * JavaScript numbers

    The values of the JavaScript [Number] type that the sources compute
    with: a finite value is kept as the exact rational it denotes, beside
    the two infinities and NaN.  The operations are those of the
    ECMAScript specification (Number::add, ::multiply, ::divide,
    ::lessThan, the relational operators, [===], [Math.max], [Math.min])
    on these values, with the result of an operation on finite values
    kept exact: binary64 rounding of intermediate results, and the sign
    of zero, are not modelled.  Literals of the sources are given their
    exact binary64 value ([0.67] is not 67/100). *)

From Stdlib Require Import QArith Qround Lqa Bool Morphisms RelationClasses.
From S2P Require Import Prelude.

Inductive number : Type :=
| Fin (q : Q)
| PosInf
| NegInf
| NaN.

(** ** Equivalence of numbers

    Two finite numbers are the same JavaScript value when the rationals
    are equal as rationals ([Qeq]); [1#2] and [2#4] are one value. *)

Definition num_eq (x y : number) : Prop :=
  match x, y with
  | Fin a, Fin b => a == b
  | PosInf, PosInf | NegInf, NegInf | NaN, NaN => True
  | _, _ => False
  end.

#[export] Instance num_eq_Equivalence : Equivalence num_eq.
Proof.
  split.
  - intros []; simpl; auto; reflexivity.
  - intros [] []; simpl; auto; now symmetry.
  - intros [] [] []; simpl; try contradiction; auto; intros; eapply Qeq_trans; eauto.
Qed.

#[export] Instance Fin_Proper : Proper (Qeq ==> num_eq) Fin.
Proof. intros a b H. exact H. Qed.

Definition is_finite (x : number) : bool :=
  match x with Fin _ => true | _ => false end.

(** [Number.isNaN] *)
Definition isNaN (x : number) : bool :=
  match x with NaN => true | _ => false end.

(** ** Relational operators

    [num_lt x y] is [x < y]: Number::lessThan, whose [undefined] result
    (an operand is NaN) the operator turns into [false].  [x > y] is
    [y < x]; [x <= y] is false on NaN and otherwise [!(y < x)]. *)

Definition num_lt (x y : number) : bool :=
  match x, y with
  | Fin a, Fin b => Qltb a b
  | Fin _, PosInf => true
  | Fin _, NegInf => false
  | NegInf, Fin _ | NegInf, PosInf => true
  | NegInf, NegInf => false
  | PosInf, _ => false
  | NaN, _ | _, NaN => false
  end.

Definition num_gt (x y : number) : bool := num_lt y x.

Definition num_le (x y : number) : bool :=
  negb (isNaN x) && negb (isNaN y) && negb (num_lt y x).

Definition num_ge (x y : number) : bool := num_le y x.

(** [x === y] on numbers: NaN is not equal to itself. *)
Definition num_eqb (x y : number) : bool :=
  match x, y with
  | Fin a, Fin b => Qeq_bool a b
  | PosInf, PosInf | NegInf, NegInf => true
  | _, _ => false
  end.

(** ** Arithmetic *)

Definition num_neg (x : number) : number :=
  match x with
  | Fin a => Fin (- a)
  | PosInf => NegInf
  | NegInf => PosInf
  | NaN => NaN
  end.

Definition num_add (x y : number) : number :=
  match x, y with
  | Fin a, Fin b => Fin (a + b)
  | NaN, _ | _, NaN => NaN
  | PosInf, NegInf | NegInf, PosInf => NaN
  | PosInf, _ | _, PosInf => PosInf
  | NegInf, _ | _, NegInf => NegInf
  end.

Definition num_sub (x y : number) : number := num_add x (num_neg y).

(** The infinity of the sign of a nonzero rational, NaN for zero
    (an infinity times zero). *)
Definition inf_of_sign (a : Q) : number :=
  if Qltb 0 a then PosInf else if Qltb a 0 then NegInf else NaN.

Definition num_mul (x y : number) : number :=
  match x, y with
  | Fin a, Fin b => Fin (a * b)
  | NaN, _ | _, NaN => NaN
  | PosInf, Fin b | Fin b, PosInf => inf_of_sign b
  | NegInf, Fin b | Fin b, NegInf => num_neg (inf_of_sign b)
  | PosInf, PosInf | NegInf, NegInf => PosInf
  | PosInf, NegInf | NegInf, PosInf => NegInf
  end.

(** Number::divide.  A zero divisor is +0 (the model has no -0): a
    nonzero finite dividend gives the infinity of its sign, a zero
    dividend NaN. *)
Definition num_div (x y : number) : number :=
  match x, y with
  | Fin a, Fin b => if Qeq_bool b 0 then inf_of_sign a else Fin (a / b)
  | NaN, _ | _, NaN => NaN
  | Fin _, PosInf | Fin _, NegInf => Fin 0
  | PosInf, Fin b => if Qltb b 0 then NegInf else PosInf
  | NegInf, Fin b => if Qltb b 0 then PosInf else NegInf
  | _, _ => NaN
  end.

(** [Math.max(x, y)] and [Math.min(x, y)]: NaN if either is NaN. *)
Definition math_max (x y : number) : number :=
  if isNaN x || isNaN y then NaN else if num_lt x y then y else x.

Definition math_min (x y : number) : number :=
  if isNaN x || isNaN y then NaN else if num_lt y x then y else x.

Notation "x + y" := (num_add x y) : js_scope.
Notation "x - y" := (num_sub x y) : js_scope.
Notation "x * y" := (num_mul x y) : js_scope.
Notation "x / y" := (num_div x y) : js_scope.
Notation "x < y" := (num_lt x y) : js_scope.
Notation "x > y" := (num_gt x y) : js_scope.
Notation "x <= y" := (num_le x y) : js_scope.
Notation "x >= y" := (num_ge x y) : js_scope.
Notation "x === y" := (num_eqb x y) (at level 70, no associativity) : js_scope.

(** ** Literals of the sources, at their exact binary64 values *)

(** [1.5], [0.5], [100] and [1000000000] are exact in binary64. *)
Definition lit_1_5 : number := Fin (3 # 2).
Definition lit_0_5 : number := Fin (1 # 2).
Definition lit_100 : number := Fin 100.
Definition lit_1e9 : number := Fin 1000000000.
(** [0.67] is stored as 6034823500676465 / 2^53, slightly above 67/100. *)
Definition q_0_67 : Q := 6034823500676465 # 9007199254740992.
Definition lit_0_67 : number := Fin q_0_67.

(** ** Lemmas *)

Lemma num_div_Fin (a b : Q) :
  ~ b == 0 -> num_div (Fin a) (Fin b) = Fin (a / b).
Proof.
  intros Hb. simpl. destruct (Qeq_bool_reflect b 0); [contradiction | reflexivity].
Qed.

Lemma num_div_zero_pos (a b : Q) :
  b == 0 -> 0 < a -> num_div (Fin a) (Fin b) = PosInf.
Proof.
  intros Hb Ha. simpl. destruct (Qeq_bool_reflect b 0); [|contradiction].
  unfold inf_of_sign. now destruct (Qltb_reflect 0 a).
Qed.

Lemma num_div_zero_zero (a b : Q) :
  b == 0 -> a == 0 -> num_div (Fin a) (Fin b) = NaN.
Proof.
  intros Hb Ha. simpl. destruct (Qeq_bool_reflect b 0); [|contradiction].
  unfold inf_of_sign.
  destruct (Qltb_reflect 0 a); [lra|]. destruct (Qltb_reflect a 0); [lra|reflexivity].
Qed.

Lemma num_lt_Fin (a b : Q) : num_lt (Fin a) (Fin b) = true <-> a < b.
Proof. apply Qltb_iff. Qed.

Lemma num_lt_NaN_l (x : number) : num_lt NaN x = false.
Proof. reflexivity. Qed.

Lemma num_lt_NaN_r (x : number) : num_lt x NaN = false.
Proof. destruct x; reflexivity. Qed.

Lemma num_lt_PosInf_l (x : number) : num_lt PosInf x = false.
Proof. destruct x; reflexivity. Qed.

Lemma num_lt_irrefl (x : number) : num_lt x x = false.
Proof.
  destruct x; try reflexivity. simpl. apply Qltb_false, Qle_refl.
Qed.

#[export] Hint Rewrite num_lt_NaN_l num_lt_NaN_r num_lt_PosInf_l num_lt_irrefl : js.

#[export] Instance num_lt_Proper : Proper (num_eq ==> num_eq ==> eq) num_lt.
Proof.
  intros [a| | |] [a'| | |] Ha [b| | |] [b'| | |] Hb; simpl in *;
    try contradiction; try reflexivity.
  now rewrite Ha, Hb.
Qed.

#[export] Instance isNaN_Proper : Proper (num_eq ==> eq) isNaN.
Proof. intros [a| | |] [b| | |] E; simpl in *; try contradiction; reflexivity. Qed.

#[export] Instance num_gt_Proper : Proper (num_eq ==> num_eq ==> eq) num_gt.
Proof. intros x x' Hx y y' Hy. unfold num_gt. now rewrite Hx, Hy. Qed.

#[export] Instance num_le_Proper : Proper (num_eq ==> num_eq ==> eq) num_le.
Proof. intros x x' Hx y y' Hy. unfold num_le. now rewrite Hx, Hy. Qed.

#[export] Instance num_ge_Proper : Proper (num_eq ==> num_eq ==> eq) num_ge.
Proof. intros x x' Hx y y' Hy. unfold num_ge. now rewrite Hx, Hy. Qed.

#[export] Instance num_div_Proper : Proper (num_eq ==> num_eq ==> num_eq) num_div.
Proof.
  intros [a| | |] [a'| | |] Ha [b| | |] [b'| | |] Hb; simpl in *;
    try contradiction; try reflexivity.
  - rewrite Hb. destruct (Qeq_bool b' 0).
    + unfold inf_of_sign.
      assert (E1 : Qltb 0 a = Qltb 0 a') by now rewrite Ha.
      assert (E2 : Qltb a 0 = Qltb a' 0) by now rewrite Ha.
      rewrite E1, E2. destruct (Qltb 0 a'), (Qltb a' 0); exact I.
    + simpl. now rewrite Ha, Hb.
  - now rewrite Hb.
  - now rewrite Hb.
Qed.

Lemma math_max_Fin (a b : Q) :
  math_max (Fin a) (Fin b) = Fin (if Qltb a b then b else a).
Proof. unfold math_max. simpl. now destruct (Qltb a b). Qed.

Lemma math_min_Fin (a b : Q) :
  math_min (Fin a) (Fin b) = Fin (if Qltb b a then b else a).
Proof. unfold math_min. simpl. now destruct (Qltb b a). Qed.
