(* ===== verification/NumberFormat.v ===== *)
(** * Number formatting of the JavaScript runtime

    The sources print numbers with [Number.prototype.toFixed(f)]
    (betas, yields, ratios, the FVIFA result) and with
    [Number.prototype.toLocaleString("en", {minimumFractionDigits,
    maximumFractionDigits})] (market capitalisations in billions and,
    with the defaults 0 and 3, share prices).  This file models both on
    the numbers of [JsNumber]:
    - [toFixed] follows ECMAScript's Number.prototype.toFixed, steps 6 to
      12, with the integer [n] of step 11 computed as
      [floor(x * 10^f + 1/2)] (the nearest integer, the larger on a tie);
    - [toLocaleString_en] rounds in the same way (Intl's default
      "halfExpand" rounding, half away from zero on the magnitude), drops
      trailing fraction zeros down to the minimum, and groups the integer
      digits by three with commas, as the "en" locale does.
    Number::toString, which toFixed uses for magnitudes of at least
    10^21 and the sources use to print a bare number, yields the shortest
    decimal that rounds to the binary64 value; the model does not keep
    binary64 values, so it is an operation of the runtime interface
    [NumberToString], and no theorem depends on what it returns.

    The theorems: the printed text parses back ([parse_fixed]) to the
    value rounded to [f] places, within half a unit of the last place of
    the value; and removing the commas from the [toLocaleString_en]
    text with equal minimum and maximum gives the [toFixed] text. *)

From Stdlib Require Import String Ascii List QArith Qround Qabs Lqa ZArith NArith Lia Setoid Morphisms.
From S2P Require Import Prelude JsNumber.
Import ListNotations.
Local Open Scope string_scope.

(** Number::toString on a finite value, supplied by the runtime; it
    depends on the value only. *)
Class NumberToString := {
  number_to_string : Q -> string;
  number_to_string_Proper : Proper (Qeq ==> eq) number_to_string;
  number_to_string_nonempty : forall q, number_to_string q <> ""
}.

(** ** Digits *)

Definition digit_char (d : N) : ascii := ascii_of_N (48 + d).

Definition char_digit (c : ascii) : option N :=
  let n := N_of_ascii c in
  if (48 <=? n)%N && (n <=? 57)%N then Some (n - 48)%N else None.

(** The decimal digits of [n], most significant first; [fuel] bounds the
    number of divisions by ten, and [N.size n] (the bit length of [n])
    is always enough. *)
Fixpoint digit_list_fuel (fuel : nat) (n : N) : list N :=
  match fuel with
  | O => [n]
  | S fuel =>
      if (n <? 10)%N then [n] else digit_list_fuel fuel (n / 10) ++ [(n mod 10)%N]
  end.

Definition digit_list (n : N) : list N := digit_list_fuel (N.to_nat (N.size n)) n.

(** The decimal digits of a natural number, without leading zeros
    (["0"] for zero). *)
Definition digits (n : N) : string :=
  string_of_list_ascii (map digit_char (digit_list n)).

Fixpoint zeros (k : nat) : string :=
  match k with
  | O => ""
  | S k => String "0" (zeros k)
  end.

(** Left-pad with zeros to width [w] (step 11.c of toFixed). *)
Definition zero_pad (w : nat) (s : string) : string :=
  zeros (w - String.length s) ++ s.

Definition pow10 (f : nat) : Z := 10 ^ Z.of_nat f.

(** The integer [n] for which [n / 10^f - x] is as close to zero as
    possible, the larger one on a tie. *)
Definition round_scaled (f : nat) (x : Q) : Z :=
  Qfloor (x * inject_Z (pow10 f) + (1 # 2)).

(** The text of [n / 10^f] with exactly [f] fraction digits (step 11.c-d:
    the digits of [n], padded to [f + 1] digits and split before the
    last [f]). *)
Definition fixed_digits (f : nat) (n : Z) : string :=
  digits (Z.to_N (n / pow10 f)) ++
  match f with
  | O => ""
  | S _ => "." ++ zero_pad f (digits (Z.to_N (n mod pow10 f)))
  end.

Definition toFixed `{NumberToString} (f : nat) (x : number) : string :=
  match x with
  | NaN => "NaN"
  | PosInf => "Infinity"
  | NegInf => "-Infinity"
  | Fin q =>
      (if Qltb q 0 then "-" else "") ++
      (if Qle_bool (inject_Z (10 ^ 21)) (Qabs q)
       then number_to_string (Qabs q)
       else fixed_digits f (round_scaled f (Qabs q)))
  end.

(** The value a number renders to as a JSX child: Number::toString. *)
Definition number_text `{NumberToString} (x : number) : string :=
  match x with
  | Fin q => number_to_string q
  | PosInf => "Infinity"
  | NegInf => "-Infinity"
  | NaN => "NaN"
  end.

(** ** Locale formatting for "en" *)

(** Commas every three digits from the right, on the reversed digits. *)
Fixpoint group_rev (k : nat) (l : list ascii) : list ascii :=
  match l with
  | [] => []
  | c :: r =>
      if Nat.eqb k 3 then "," :: c :: group_rev 1 r
      else c :: group_rev (S k) r
  end%char.

Definition group_thousands (s : string) : string :=
  string_of_list_ascii (List.rev (group_rev 0 (List.rev (list_ascii_of_string s)))).

(** Drop trailing zeros of a fraction-digit string while it is longer
    than [m]. *)
Definition trim_zeros (m : nat) (s : string) : string :=
  let fix go (l : list ascii) : list ascii :=
    match l with
    | [] => []
    | c :: r =>
        if Ascii.eqb c "0" && Nat.ltb m (length l) then go r else l
    end%char in
  string_of_list_ascii (List.rev (go (List.rev (list_ascii_of_string s)))).

Definition toLocaleString_en (minFD maxFD : nat) (x : number) : string :=
  match x with
  | NaN => "NaN"
  | PosInf => "∞"
  | NegInf => "-∞"
  | Fin q =>
      let n := round_scaled maxFD (Qabs q) in
      let frac := trim_zeros minFD (zero_pad maxFD (digits (Z.to_N (n mod pow10 maxFD)))) in
      (if Qltb q 0 then "-" else "") ++
      group_thousands (digits (Z.to_N (n / pow10 maxFD))) ++
      (if String.eqb frac "" then "" else "." ++ frac)
  end.

(** [value.toLocaleString()] with the runtime's default locale, taken to
    be "en": no minimum and at most three fraction digits. *)
Definition toLocaleString_default (x : number) : string :=
  toLocaleString_en 0 3 x.

Definition strip_commas (s : string) : string :=
  string_of_list_ascii
    (filter (fun c => negb (Ascii.eqb c ",")) (list_ascii_of_string s)).

(** ** Reading a fixed-point text back *)

Fixpoint split_dot (s : string) : string * option string :=
  match s with
  | EmptyString => (EmptyString, None)
  | String c r =>
      if Ascii.eqb c "." then (EmptyString, Some r)
      else let (a, b) := split_dot r in (String c a, b)
  end.

Fixpoint read_digits (acc : N) (s : string) : option N :=
  match s with
  | EmptyString => Some acc
  | String c r =>
      match char_digit c with
      | Some d => read_digits (acc * 10 + d)%N r
      | None => None
      end
  end.

(** A nonempty string of decimal digits, and its value. *)
Definition parse_digits (s : string) : option N :=
  match s with
  | EmptyString => None
  | _ => read_digits 0 s
  end.

(** An unsigned decimal with exactly [f] fraction digits (none and no
    point when [f] is zero). *)
Definition parse_fixed_unsigned (f : nat) (s : string) : option Q :=
  match split_dot s, f with
  | (ip, None), O =>
      option_map (fun a => inject_Z (Z.of_N a)) (parse_digits ip)
  | (ip, Some fp), S _ =>
      if Nat.eqb (String.length fp) f then
        match parse_digits ip, parse_digits fp with
        | Some a, Some b =>
            Some (inject_Z (Z.of_N a) + inject_Z (Z.of_N b) / inject_Z (pow10 f))
        | _, _ => None
        end
      else None
  | _, _ => None
  end.

Definition parse_fixed (f : nat) (s : string) : option Q :=
  match s with
  | String c r =>
      if Ascii.eqb c "-" then option_map Qopp (parse_fixed_unsigned f r)
      else parse_fixed_unsigned f s
  | EmptyString => None
  end.

(** The value [toFixed f] prints for a finite [q] below [10^21] in
    magnitude: [q] rounded to [f] places, half away from zero. *)
Definition rounded (f : nat) (q : Q) : Q :=
  let r := inject_Z (round_scaled f (Qabs q)) / inject_Z (pow10 f) in
  if Qltb q 0 then - r else r.

(** ** Lemmas on digits *)

Definition digits_value (acc : N) (ds : list N) : N :=
  fold_left (fun a d => a * 10 + d)%N ds acc.

Lemma pow10_N_succ (k : nat) : (10 ^ N.of_nat (S k) = 10 * 10 ^ N.of_nat k)%N.
Proof. rewrite Nat2N.inj_succ, N.pow_succ_r'. reflexivity. Qed.

Lemma digit_list_fuel_spec (fuel : nat) (n : N) :
  (n < 10 ^ N.of_nat fuel)%N ->
  digit_list_fuel fuel n <> [] /\
  Forall (fun d => d < 10)%N (digit_list_fuel fuel n) /\
  digits_value 0 (digit_list_fuel fuel n) = n /\
  (forall f, (1 <= f)%nat -> (n < 10 ^ N.of_nat f)%N ->
             (length (digit_list_fuel fuel n) <= f)%nat).
Proof.
  revert n. induction fuel as [|k IH]; intros n Hn.
  - simpl in Hn. assert (n = 0%N) by lia. subst. simpl.
    repeat split; [discriminate | repeat constructor; lia | ]. intros; lia.
  - simpl. destruct (N.ltb_spec n 10) as [Hlt|Hge].
    + repeat split; [discriminate | repeat constructor; lia | ]. simpl; intros; lia.
    + rewrite pow10_N_succ in Hn.
      assert (Hq : (n / 10 < 10 ^ N.of_nat k)%N) by (apply N.Div0.div_lt_upper_bound; lia).
      destruct (IH _ Hq) as (Hne & Hall & Hval & Hlen). repeat split.
      * destruct (digit_list_fuel k (n / 10)); [contradiction | discriminate].
      * apply Forall_app. split; [exact Hall | repeat constructor].
        apply N.mod_lt. discriminate.
      * unfold digits_value in *. rewrite fold_left_app, Hval. simpl.
        rewrite (N.div_mod n 10) at 3 by discriminate. lia.
      * intros f Hf Hnf. rewrite length_app. simpl.
        destruct f as [|[|f']]; [lia| simpl in Hnf; lia |].
        rewrite pow10_N_succ in Hnf.
        assert (Hq' : (n / 10 < 10 ^ N.of_nat (S f'))%N)
          by (apply N.Div0.div_lt_upper_bound; lia).
        specialize (Hlen (S f') ltac:(lia) Hq'). lia.
Qed.

Lemma size_pow10 (n : N) : (n < 10 ^ N.of_nat (N.to_nat (N.size n)))%N.
Proof.
  rewrite N2Nat.id. eapply N.lt_le_trans; [apply N.size_gt|].
  apply N.pow_le_mono_l. lia.
Qed.

Lemma digit_list_spec (n : N) :
  digit_list n <> [] /\
  Forall (fun d => d < 10)%N (digit_list n) /\
  digits_value 0 (digit_list n) = n /\
  (forall f, (1 <= f)%nat -> (n < 10 ^ N.of_nat f)%N -> (length (digit_list n) <= f)%nat).
Proof. apply digit_list_fuel_spec, size_pow10. Qed.

Lemma digits_nonempty (n : N) : digits n <> "".
Proof.
  destruct (digit_list_spec n) as [Hne _]. unfold digits.
  destruct (digit_list n); [contradiction | discriminate].
Qed.

Lemma char_digit_char (d : N) : (d < 10)%N -> char_digit (digit_char d) = Some d.
Proof.
  intros Hd. unfold char_digit, digit_char.
  rewrite N_ascii_embedding by lia.
  replace ((48 <=? 48 + d)%N && (48 + d <=? 57)%N) with true
    by (symmetry; apply andb_true_iff; split; apply N.leb_le; lia).
  f_equal. lia.
Qed.

Lemma digit_char_not (d : N) (c : ascii) :
  (d < 10)%N -> (N_of_ascii c < 48)%N -> Ascii.eqb (digit_char d) c = false.
Proof.
  intros Hd Hc. apply Ascii.eqb_neq. intros E.
  apply (f_equal N_of_ascii) in E. unfold digit_char in E.
  rewrite N_ascii_embedding in E by lia. lia.
Qed.

Lemma string_of_list_ascii_app (l1 l2 : list ascii) :
  string_of_list_ascii (l1 ++ l2) = (string_of_list_ascii l1 ++ string_of_list_ascii l2)%string.
Proof. induction l1 as [|c l IH]; simpl; [reflexivity | now rewrite IH]. Qed.

Lemma length_string_of_list_ascii (l : list ascii) :
  String.length (string_of_list_ascii l) = length l.
Proof. induction l as [|c l IH]; simpl; [reflexivity | now rewrite IH]. Qed.

Lemma read_digits_map (acc : N) (ds : list N) (t : string) :
  Forall (fun d => d < 10)%N ds ->
  read_digits acc (string_of_list_ascii (map digit_char ds) ++ t) =
  read_digits (digits_value acc ds) t.
Proof.
  revert acc. induction ds as [|d ds IH]; intros acc Hall; [reflexivity|].
  inversion Hall as [|? ? Hd Hrest]; subst. simpl.
  rewrite char_digit_char by exact Hd. now apply IH.
Qed.

Lemma split_dot_map (ds : list N) (t : string) :
  Forall (fun d => d < 10)%N ds ->
  split_dot (string_of_list_ascii (map digit_char ds) ++ t) =
  let (a, b) := split_dot t in (string_of_list_ascii (map digit_char ds) ++ a, b).
Proof.
  intros Hall. induction Hall as [|d ds Hd Hrest IH]; simpl.
  - now destruct (split_dot t).
  - rewrite digit_char_not by (simpl; lia). rewrite IH.
    now destruct (split_dot t).
Qed.

Lemma read_digits_zeros (k : nat) (s : string) :
  read_digits 0 (zeros k ++ s) = read_digits 0 s.
Proof. induction k as [|k IH]; simpl; [reflexivity | exact IH]. Qed.

Lemma length_digits (n : N) : String.length (digits n) = length (digit_list n).
Proof. unfold digits. now rewrite length_string_of_list_ascii, length_map. Qed.

Lemma parse_digits_digits (n : N) : parse_digits (digits n) = Some n.
Proof.
  destruct (digit_list_spec n) as (Hne & Hall & Hval & _).
  unfold parse_digits.
  assert (E := read_digits_map 0 _ "" Hall).
  rewrite string_append_empty_r in E. fold (digits n) in E.
  rewrite Hval in E. unfold digits in *.
  destruct (digit_list n); [contradiction|]. exact E.
Qed.

Lemma length_zeros (k : nat) : String.length (zeros k) = k.
Proof. induction k; simpl; auto. Qed.

Lemma zero_pad_spec (f : nat) (n : N) :
  (1 <= f)%nat -> (n < 10 ^ N.of_nat f)%N ->
  parse_digits (zero_pad f (digits n)) = Some n /\
  String.length (zero_pad f (digits n)) = f.
Proof.
  intros Hf Hn. destruct (digit_list_spec n) as (_ & _ & _ & Hlen).
  specialize (Hlen f Hf Hn). rewrite <- length_digits in Hlen. unfold zero_pad. split.
  - destruct (f - String.length (digits n))%nat eqn:E.
    + apply parse_digits_digits.
    + simpl. rewrite read_digits_zeros.
      assert (H := parse_digits_digits n). unfold parse_digits in H.
      destruct (digits n); [discriminate | exact H].
  - rewrite string_length_append, length_zeros. lia.
Qed.

(** ** The printed text parses back to the rounded value *)

Lemma pow10_pos (f : nat) : (0 < pow10 f)%Z.
Proof. unfold pow10. apply Z.pow_pos_nonneg; lia. Qed.

Lemma pow10_N (f : nat) : Z.of_N (10 ^ N.of_nat f) = pow10 f.
Proof. unfold pow10. now rewrite N2Z.inj_pow, nat_N_Z. Qed.

Lemma round_scaled_nonneg (f : nat) (x : Q) : 0 <= x -> (0 <= round_scaled f x)%Z.
Proof.
  intros Hx. unfold round_scaled. rewrite <- (Qfloor_Z 0).
  apply Qfloor_resp_le.
  assert (0 <= x * inject_Z (pow10 f)).
  { apply Qmult_le_0_compat; [exact Hx|]. change 0 with (inject_Z 0).
    rewrite <- Zle_Qle. pose proof (pow10_pos f); lia. }
  unfold inject_Z at 1. lra.
Qed.

Lemma fixed_value (f : nat) (n : Z) :
  (0 <= n)%Z ->
  inject_Z (Z.of_N (Z.to_N (n / pow10 f))) +
    inject_Z (Z.of_N (Z.to_N (n mod pow10 f))) / inject_Z (pow10 f)
  == inject_Z n / inject_Z (pow10 f).
Proof.
  intros Hn. pose proof (pow10_pos f) as Hp.
  assert (0 <= n / pow10 f)%Z by (apply Z.div_pos; lia).
  assert (0 <= n mod pow10 f)%Z by (apply Z.mod_pos_bound; lia).
  rewrite !Z2N.id by assumption.
  assert (Hnz : ~ inject_Z (pow10 f) == 0).
  { intros E. unfold Qeq in E. simpl in E. lia. }
  rewrite (Z.div_mod n (pow10 f)) at 3 by lia.
  rewrite inject_Z_plus, inject_Z_mult. field. exact Hnz.
Qed.

Lemma parse_fixed_unsigned_fixed (f : nat) (n : Z) :
  (0 <= n)%Z ->
  exists r, parse_fixed_unsigned f (fixed_digits f n) = Some r /\
            r == inject_Z n / inject_Z (pow10 f).
Proof.
  intros Hn. pose proof (pow10_pos f) as Hp.
  destruct (digit_list_spec (Z.to_N (n / pow10 f))) as (_ & Hall & _ & _).
  unfold parse_fixed_unsigned, fixed_digits. destruct f as [|k].
  - rewrite string_append_empty_r.
    pose proof (split_dot_map _ "" Hall) as E. rewrite string_append_empty_r in E.
    unfold digits. rewrite E. simpl. rewrite string_append_empty_r.
    fold (digits (Z.to_N (n / pow10 0))). rewrite parse_digits_digits. simpl.
    eexists; split; [reflexivity|].
    rewrite <- (fixed_value 0 n Hn). unfold pow10. simpl.
    rewrite Zmod_1_r. simpl. field.
  - unfold digits at 1. rewrite (split_dot_map _ _ Hall). simpl.
    rewrite string_append_empty_r. fold (digits (Z.to_N (n / pow10 (S k)))).
    assert (Hm : (Z.to_N (n mod pow10 (S k)) < 10 ^ N.of_nat (S k))%N).
    { apply N2Z.inj_lt. rewrite pow10_N, Z2N.id; apply Z.mod_pos_bound; lia. }
    destruct (zero_pad_spec (S k) _ ltac:(lia) Hm) as [Hpad Hlen].
    rewrite Hlen, Nat.eqb_refl, parse_digits_digits, Hpad.
    eexists; split; [reflexivity|]. now apply fixed_value.
Qed.

Lemma parse_fixed_fixed (f : nat) (n : Z) :
  parse_fixed f (fixed_digits f n) = parse_fixed_unsigned f (fixed_digits f n).
Proof.
  destruct (digit_list_spec (Z.to_N (n / pow10 f))) as (Hne & Hall & _ & _).
  unfold fixed_digits, digits.
  destruct (digit_list (Z.to_N (n / pow10 f))) as [|d ds]; [contradiction|].
  inversion Hall; subst. simpl. rewrite digit_char_not by (simpl; lia). reflexivity.
Qed.

Theorem toFixed_parse_rounded `{NumberToString} (f : nat) (q : Q) :
  Qabs q < inject_Z (10 ^ 21) ->
  exists r, parse_fixed f (toFixed f (Fin q)) = Some r /\ r == rounded f q.
Proof.
  intros Hq. unfold toFixed, rounded.
  destruct (Qle_bool_reflect (inject_Z (10 ^ 21)) (Qabs q)) as [Hbig|_]; [lra|].
  assert (Hn := round_scaled_nonneg f (Qabs q) (Qabs_nonneg q)).
  destruct (parse_fixed_unsigned_fixed f _ Hn) as (r & Hr & Hreq).
  destruct (Qltb q 0).
  - exists (- r). simpl. rewrite Hr. split; [reflexivity|]. now rewrite Hreq.
  - exists r. simpl. rewrite parse_fixed_fixed, Hr. split; [reflexivity | exact Hreq].
Qed.

Lemma pow10_Qpos (f : nat) : 0 < inject_Z (pow10 f).
Proof. change 0 with (inject_Z 0). rewrite <- Zlt_Qlt. apply pow10_pos. Qed.

Lemma Qdiv_le_by_pos (x y p : Q) : 0 < p -> x <= y -> x / p <= y / p.
Proof.
  intros Hp Hxy. apply Qmult_le_r with p; [exact Hp|].
  assert (~ p == 0) by (intros E; rewrite E in Hp; discriminate).
  setoid_replace (x / p * p) with x by (field; auto).
  setoid_replace (y / p * p) with y by (field; auto). exact Hxy.
Qed.

(** [round_scaled f x / 10^f] is within half a unit of the last place of
    [x]. *)
Lemma round_scaled_close (f : nat) (x : Q) :
  Qabs (inject_Z (round_scaled f x) / inject_Z (pow10 f) - x)
  <= (1 # 2) / inject_Z (pow10 f).
Proof.
  pose proof (pow10_Qpos f) as Hp. set (P := inject_Z (pow10 f)) in *.
  set (t := inject_Z (round_scaled f x)).
  assert (Hlo : t <= x * P + (1 # 2)) by apply Qfloor_le.
  assert (Hhi : x * P + (1 # 2) < t + 1).
  { unfold t. rewrite <- (inject_Z_plus _ 1). apply Qlt_floor. }
  assert (HP0 : ~ P == 0) by (intros E; rewrite E in Hp; discriminate).
  setoid_replace (t / P - x) with ((t - x * P) / P) by (field; exact HP0).
  apply Qabs_Qle_condition. split.
  - setoid_replace (- ((1 # 2) / P)) with ((- (1 # 2)) / P) by (field; exact HP0).
    apply Qdiv_le_by_pos; [exact Hp | lra].
  - apply Qdiv_le_by_pos; [exact Hp | lra].
Qed.

#[export] Instance round_scaled_Proper (f : nat) : Proper (Qeq ==> eq) (round_scaled f).
Proof. intros x y E. unfold round_scaled. apply Qfloor_comp. now rewrite E. Qed.

Lemma rounded_error (f : nat) (q : Q) :
  Qabs (rounded f q - q) <= (1 # 2) / inject_Z (pow10 f).
Proof.
  unfold rounded. destruct (Qltb_reflect q 0) as [Hneg|Hnneg].
  - assert (Er : round_scaled f (Qabs q) = round_scaled f (- q))
      by (apply round_scaled_Proper, Qabs_neg; lra).
    rewrite Er.
    setoid_replace (- (inject_Z (round_scaled f (- q)) / inject_Z (pow10 f)) - q)
      with (- (inject_Z (round_scaled f (- q)) / inject_Z (pow10 f) - - q)) by ring.
    rewrite Qabs_opp. apply round_scaled_close.
  - assert (Er : round_scaled f (Qabs q) = round_scaled f q)
      by (apply round_scaled_Proper, Qabs_pos; lra).
    rewrite Er. apply round_scaled_close.
Qed.

(** ** Locale text and fixed text agree up to the grouping commas *)

Lemma list_ascii_of_string_app (a b : string) :
  list_ascii_of_string (a ++ b) = (list_ascii_of_string a ++ list_ascii_of_string b)%list.
Proof. induction a as [|c a IH]; simpl; [reflexivity | now rewrite IH]. Qed.

Definition not_comma (c : ascii) : bool := negb (Ascii.eqb c ",").

Lemma strip_commas_app (a b : string) :
  strip_commas (a ++ b) = (strip_commas a ++ strip_commas b)%string.
Proof.
  unfold strip_commas. now rewrite list_ascii_of_string_app, filter_app, string_of_list_ascii_app.
Qed.

Lemma strip_commas_id (s : string) :
  Forall (fun c => not_comma c = true) (list_ascii_of_string s) -> strip_commas s = s.
Proof.
  intros H. unfold strip_commas. rewrite <- (string_of_list_ascii_of_string s) at 2.
  f_equal. induction H as [|c l Hc _ IH]; simpl; [reflexivity|].
  unfold not_comma in Hc. now rewrite Hc, IH.
Qed.

Lemma digits_no_comma (n : N) :
  Forall (fun c => not_comma c = true) (list_ascii_of_string (digits n)).
Proof.
  destruct (digit_list_spec n) as (_ & Hall & _ & _). unfold digits.
  rewrite list_ascii_of_string_of_list_ascii. induction Hall as [|d ds Hd _ IH]; simpl;
    constructor; [| exact IH].
  unfold not_comma. rewrite digit_char_not by (simpl; lia). reflexivity.
Qed.

Lemma zero_pad_no_comma (w : nat) (n : N) :
  Forall (fun c => not_comma c = true) (list_ascii_of_string (zero_pad w (digits n))).
Proof.
  unfold zero_pad. rewrite list_ascii_of_string_app. apply Forall_app. split.
  - induction (w - String.length (digits n))%nat; simpl; constructor; auto.
  - apply digits_no_comma.
Qed.

Lemma group_rev_filter (k : nat) (l : list ascii) :
  filter not_comma (group_rev k l) = filter not_comma l.
Proof.
  revert k. induction l as [|c l IH]; intros k; simpl; [reflexivity|].
  destruct (Nat.eqb k 3); simpl; rewrite IH; reflexivity.
Qed.

Lemma strip_group_thousands (s : string) :
  strip_commas (group_thousands s) = strip_commas s.
Proof.
  unfold strip_commas, group_thousands. rewrite list_ascii_of_string_of_list_ascii.
  fold not_comma. rewrite filter_rev, group_rev_filter, <- filter_rev, rev_involutive.
  reflexivity.
Qed.

Lemma trim_zeros_full (m : nat) (s : string) :
  String.length s = m -> trim_zeros m s = s.
Proof.
  intros Hlen. unfold trim_zeros.
  assert (Hl : length (List.rev (list_ascii_of_string s)) = m).
  { rewrite length_rev, <- Hlen. clear. induction s; simpl; auto. }
  destruct (List.rev (list_ascii_of_string s)) as [|c r] eqn:E.
  - rewrite <- E, rev_involutive. apply string_of_list_ascii_of_string.
  - rewrite Hl, Nat.ltb_irrefl, andb_false_r, <- E, rev_involutive.
    apply string_of_list_ascii_of_string.
Qed.

(** Below 10^21 in magnitude, [toLocaleString("en")] with equal
    minimum and maximum fraction digits prints the [toFixed] text with
    commas between groups of three integer digits. *)
Theorem toLocaleString_en_toFixed_eq `{NumberToString} (f : nat) (q : Q) :
  Qabs q < inject_Z (10 ^ 21) ->
  strip_commas (toLocaleString_en f f (Fin q)) = toFixed f (Fin q).
Proof.
  intros Hq. unfold toLocaleString_en, toFixed, fixed_digits.
  destruct (Qle_bool_reflect (inject_Z (10 ^ 21)) (Qabs q)) as [Hbig|_]; [lra|].
  set (n := round_scaled f (Qabs q)).
  rewrite !strip_commas_app, strip_group_thousands, (strip_commas_id (digits _))
    by apply digits_no_comma.
  assert (Hsign : strip_commas (if Qltb q 0 then "-" else "") = if Qltb q 0 then "-" else "")
    by (destruct (Qltb q 0); reflexivity).
  rewrite Hsign. f_equal. f_equal. destruct f as [|k].
  - unfold pow10. simpl Z.pow. rewrite Zmod_1_r. reflexivity.
  - assert (Hm : (Z.to_N (n mod pow10 (S k)) < 10 ^ N.of_nat (S k))%N).
    { apply N2Z.inj_lt. rewrite pow10_N. pose proof (pow10_pos (S k)).
      pose proof (Z.mod_pos_bound n (pow10 (S k)) ltac:(lia)).
      rewrite Z2N.id; lia. }
    destruct (zero_pad_spec (S k) _ ltac:(lia) Hm) as [_ Hlen].
    rewrite trim_zeros_full by exact Hlen.
    destruct (String.eqb_spec (zero_pad (S k) (digits (Z.to_N (n mod pow10 (S k))))) "")
      as [E|_].
    + rewrite E in Hlen. discriminate.
    + rewrite strip_commas_app, (strip_commas_id (zero_pad _ _)) by apply zero_pad_no_comma.
      reflexivity.
Qed.

#[export] Instance toFixed_Proper `{NumberToString} (f : nat) :
  Proper (num_eq ==> eq) (toFixed f).
Proof.
  intros [a| | |] [b| | |] E; simpl in E; try contradiction; try reflexivity.
  unfold toFixed.
  assert (E1 : Qltb a 0 = Qltb b 0) by now rewrite E.
  assert (E2 : Qle_bool (inject_Z (10 ^ 21)) (Qabs a) = Qle_bool (inject_Z (10 ^ 21)) (Qabs b))
    by now rewrite E.
  assert (E3 : number_to_string (Qabs a) = number_to_string (Qabs b))
    by (apply number_to_string_Proper; now rewrite E).
  assert (E4 : round_scaled f (Qabs a) = round_scaled f (Qabs b))
    by (apply round_scaled_Proper; now rewrite E).
  now rewrite E1, E2, E3, E4.
Qed.

(** A runtime for the concrete examples: the exact decimal expansion with
    at most twenty fraction digits, which is what Number::toString
    prints for the short decimals the examples use. *)
#[refine] Definition decimal_runtime : NumberToString := {|
  number_to_string q := strip_commas (toLocaleString_en 0 20 (Fin q))
|}.
Proof.
  - intros a b E. unfold toLocaleString_en.
    assert (E1 : Qltb a 0 = Qltb b 0) by now rewrite E.
    assert (E4 : round_scaled 20 (Qabs a) = round_scaled 20 (Qabs b))
      by (apply round_scaled_Proper; now rewrite E).
    now rewrite E1, E4.
  - intros q. unfold toLocaleString_en.
    rewrite !strip_commas_app, strip_group_thousands, (strip_commas_id (digits _))
      by apply digits_no_comma.
    apply append_nonempty_r. destruct (digits _) eqn:E; [|discriminate].
    exfalso. exact (digits_nonempty _ E).
Defined.

(** [toFixed] never prints the empty string. *)
Lemma toFixed_nonempty `{NumberToString} (f : nat) (x : number) : toFixed f x <> "".
Proof.
  destruct x as [q| | |]; try discriminate. unfold toFixed. apply append_nonempty_r.
  destruct (Qle_bool _ _); [apply number_to_string_nonempty|].
  unfold fixed_digits. destruct (digits _) eqn:E; [|discriminate].
  exfalso. exact (digits_nonempty _ E).
Qed.

(** A nonnegative value below 0.005 prints as ["0.00"] with two places. *)
Lemma toFixed_2_small `{NumberToString} (q : Q) :
  0 <= q -> q < 1 # 200 -> toFixed 2 (Fin q) = "0.00".
Proof.
  intros H0 H1. unfold toFixed.
  destruct (Qltb_reflect q 0); [lra|].
  assert (Ea : Qabs q == q) by (apply Qabs_pos; exact H0).
  assert (Eb : Qle_bool (inject_Z (10 ^ 21)) (Qabs q) = false).
  { rewrite Ea. destruct (Qle_bool_reflect (inject_Z (10 ^ 21)) q); [|reflexivity].
    exfalso. assert (inject_Z (10 ^ 21) == 1000000000000000000000) by reflexivity. lra. }
  rewrite Eb. rewrite (round_scaled_Proper 2 _ _ Ea).
  assert (Er : round_scaled 2 q = 0%Z).
  { unfold round_scaled. apply Z.le_antisymm.
    - apply Z.lt_succ_r. rewrite Zlt_Qlt.
      eapply Qle_lt_trans; [apply Qfloor_le|].
      change (inject_Z (Z.succ 0)) with 1.
      assert (inject_Z (pow10 2) == 100) by reflexivity. rewrite H2. lra.
    - rewrite <- (Qfloor_Z 0). apply Qfloor_resp_le.
      assert (inject_Z (pow10 2) == 100) by reflexivity. rewrite H2.
      change (inject_Z 0) with 0. lra. }
  rewrite Er. reflexivity.
Qed.

(** ** The formatting contracts *)

(** Below 10^21 in magnitude, the text [toFixed f] prints for a
    finite number reads back, as a decimal with exactly [f] fraction
    digits, to a value within half a unit of the last place of it. *)
Theorem toFixed_roundtrip `{NumberToString} (f : nat) (q : Q) :
  Qabs q < inject_Z (10 ^ 21) ->
  exists r, parse_fixed f (toFixed f (Fin q)) = Some r /\
            Qabs (r - q) <= (1 # 2) / inject_Z (pow10 f).
Proof.
  intros Hq. destruct (toFixed_parse_rounded f q Hq) as (r & Hp & Hr).
  exists r. split; [exact Hp|]. rewrite Hr. apply rounded_error.
Qed.

