(* ===== verification/JsParse.v ===== *)
(** * Reading numbers from text, and Math.pow

    The runtime operations the FVIFA calculator applies to its text
    inputs, following ECMAScript:
    - [trim]: String.prototype.trim removes leading and trailing
      WhiteSpace and LineTerminator code points.  Strings are byte
      strings holding UTF-8, so each of these code points is a byte
      sequence ([ws_seqs]): the six ASCII ones and the UTF-8 encodings of
      U+00A0, U+FEFF, U+1680, U+2000-U+200A, U+2028, U+2029, U+202F,
      U+205F and U+3000.
    - [parseFloat]: skips leading whitespace, then reads the longest
      prefix that is a StrDecimalLiteral (an optional sign, then
      [Infinity] or digits with an optional point and fraction and an
      optional exponent whose digits must be present), NaN when there is
      none.  A value at or above the binary64 overflow threshold (as
      [1e400]) reads as an infinity; below it the value is kept exact:
      the rounding to the nearest double is not modelled, nor is [-0].
    - [math_pow]: Number::exponentiate, exact on integer exponents; a
      finite positive base with a non-integer exponent has in general an
      irrational power, which the runtime approximates: that value is an
      operation of the interface [PowRuntime].  A finite result whose
      magnitude reaches the binary64 overflow threshold is an infinity
      of its sign ([to_number]). *)

From Stdlib Require Import String Ascii List QArith Qround Qpower Qabs Lqa ZArith NArith Lia Bool.
From S2P Require Import Prelude JsNumber.
Import ListNotations.
Local Open Scope string_scope.

Definition byte (n : nat) : ascii := ascii_of_nat n.
Arguments byte n%_nat_scope.

(** WhiteSpace and LineTerminator code points, as UTF-8 byte sequences. *)
Definition ws_seqs : list (list ascii) :=
  [[byte 9]; [byte 10]; [byte 11]; [byte 12]; [byte 13]; [byte 32];
   [byte 194; byte 160];
   [byte 239; byte 187; byte 191];
   [byte 225; byte 154; byte 128]] ++
  map (fun k => [byte 226; byte 128; byte k]) [128; 129; 130; 131; 132; 133; 134; 135; 136; 137; 138]%nat ++
  [[byte 226; byte 128; byte 168]; [byte 226; byte 128; byte 169];
   [byte 226; byte 128; byte 175]; [byte 226; byte 129; byte 159];
   [byte 227; byte 128; byte 128]].

Fixpoint strip_prefix (p l : list ascii) : option (list ascii) :=
  match p, l with
  | [], _ => Some l
  | c :: p', d :: l' => if Ascii.eqb c d then strip_prefix p' l' else None
  | _ :: _, [] => None
  end.

(** The rest of [l] after one leading code point of [seqs], if any. *)
Fixpoint strip_one (seqs : list (list ascii)) (l : list ascii) : option (list ascii) :=
  match seqs with
  | [] => None
  | p :: ps => match strip_prefix p l with Some r => Some r | None => strip_one ps l end
  end.

Fixpoint strip_all (seqs : list (list ascii)) (fuel : nat) (l : list ascii) : list ascii :=
  match fuel with
  | O => l
  | S fuel => match strip_one seqs l with Some r => strip_all seqs fuel r | None => l end
  end.

(** Each step removes at least one byte, so [length l] steps suffice. *)
Definition trim_start_list (l : list ascii) : list ascii := strip_all ws_seqs (length l) l.

Definition trim_end_list (l : list ascii) : list ascii :=
  List.rev (strip_all (map (@List.rev ascii) ws_seqs) (length l) (List.rev l)).

Definition trim (s : string) : string :=
  string_of_list_ascii (trim_end_list (trim_start_list (list_ascii_of_string s))).

(** ** parseFloat *)

Definition digit_value (c : ascii) : option N :=
  let n := N_of_ascii c in
  if (48 <=? n)%N && (n <=? 57)%N then Some (n - 48)%N else None.

(** The longest prefix of decimal digits, as a value and a count. *)
Fixpoint take_digits (acc : N) (count : nat) (l : list ascii) : N * nat * list ascii :=
  match l with
  | c :: r =>
      match digit_value c with
      | Some d => take_digits (acc * 10 + d)%N (S count) r
      | None => (acc, count, l)
      end
  | [] => (acc, count, l)
  end.

Definition infinity_text : list ascii := list_ascii_of_string "Infinity".

(** The exponent part [e]/[E] SignedInteger; [0] when it is absent or has
    no digits (the longest prefix then ends before the [e]). *)
Definition exponent_part (l : list ascii) : Z :=
  match l with
  | c :: r =>
      if Ascii.eqb c "e" || Ascii.eqb c "E" then
        let '(sgn, r') :=
          match r with
          | s :: r'' => if Ascii.eqb s "+" then (1%Z, r'')
                        else if Ascii.eqb s "-" then ((-1)%Z, r'') else (1%Z, r)
          | [] => (1%Z, r)
          end in
        let '(v, k, _) := take_digits 0 0 r' in
        if Nat.eqb k 0 then 0%Z else (sgn * Z.of_N v)%Z
      else 0%Z
  | [] => 0%Z
  end%char.

(** StrUnsignedDecimalLiteral without [Infinity]: digits, an optional
    point and digits, at least one digit in all, then the exponent. *)
Definition unsigned_decimal (l : list ascii) : option Q :=
  let '(iv, ik, l1) := take_digits 0 0 l in
  let '(fv, fk, l2) :=
    match l1 with
    | c :: r => if Ascii.eqb c "." then take_digits 0 0 r else (0%N, 0%nat, l1)
    | [] => (0%N, 0%nat, l1)
    end in
  if Nat.eqb (ik + fk) 0 then None
  else Some ((inject_Z (Z.of_N iv) + inject_Z (Z.of_N fv) / inject_Z (10 ^ Z.of_nat fk))
             * Qpower 10 (exponent_part l2)).

(** The least magnitude that rounds to Infinity in binary64: halfway
    between [Number.MAX_VALUE], [2^1024 - 2^971], and [2^1024]; the tie
    goes to the even significand, that is to [2^1024], which overflows. *)
Definition overflow_threshold : Q := inject_Z (2 ^ 1024 - 2 ^ 970).

(** The number a nonnegative exact value [v] denotes, negated when
    [negative]: an infinity when it overflows; the rounding of a value
    in range to the nearest double is not modelled. *)
Definition round_binary64 (negative : bool) (v : Q) : number :=
  if Qle_bool overflow_threshold v then (if negative then NegInf else PosInf)
  else Fin (if negative then - v else v).

Definition parseFloat (s : string) : number :=
  let l := trim_start_list (list_ascii_of_string s) in
  let '(negative, l1) :=
    match l with
    | c :: r => if Ascii.eqb c "-" then (true, r)
                else if Ascii.eqb c "+" then (false, r) else (false, l)
    | [] => (false, l)
    end%char in
  match strip_prefix infinity_text l1 with
  | Some _ => if negative then NegInf else PosInf
  | None =>
      match unsigned_decimal l1 with
      | Some v => round_binary64 negative v
      | None => NaN
      end
  end.

(** ** Math.pow *)

(** The runtime's approximation of [b ^ e] for a finite positive base and
    a finite non-integer exponent. *)
Class PowRuntime := real_pow : Q -> Q -> Q.

(** A runtime for the concrete examples, which only raise to integer
    exponents: [math_pow] consults the runtime only for non-integer
    exponents, so the examples do not depend on this choice. *)
Definition integer_examples_pow : PowRuntime := fun b e => Qpower b (Qfloor e).

Definition Qis_integer (e : Q) : bool := Qeq_bool (inject_Z (Qfloor e)) e.

Definition Qodd_integer (e : Q) : bool := Qis_integer e && Z.odd (Qfloor e).

(** A finite result as a number: an infinity of its sign when its
    magnitude reaches the overflow threshold. *)
Definition to_number (q : Q) : number :=
  if Qle_bool overflow_threshold (Qabs q) then (if Qltb q 0 then NegInf else PosInf)
  else Fin q.

Definition math_pow `{PowRuntime} (base exponent : number) : number :=
  match exponent with
  | NaN => NaN
  | Fin e =>
      if Qeq_bool e 0 then Fin 1 else
      match base with
      | NaN => NaN
      | PosInf => if Qltb 0 e then PosInf else Fin 0
      | NegInf =>
          if Qltb 0 e then (if Qodd_integer e then NegInf else PosInf) else Fin 0
      | Fin b =>
          if Qeq_bool b 0 then (if Qltb 0 e then Fin 0 else PosInf)
          else if Qis_integer e then to_number (Qpower b (Qfloor e))
          else if Qltb b 0 then NaN
          else to_number (real_pow b e)
      end
  | PosInf =>
      match base with
      | NaN => NaN
      | PosInf | NegInf => PosInf
      | Fin b =>
          if Qltb 1 (Qabs b) then PosInf else if Qeq_bool (Qabs b) 1 then NaN else Fin 0
      end
  | NegInf =>
      match base with
      | NaN => NaN
      | PosInf | NegInf => Fin 0
      | Fin b =>
          if Qltb 1 (Qabs b) then Fin 0 else if Qeq_bool (Qabs b) 1 then NaN else PosInf
      end
  end.

(** ** Lemmas on trimming *)

Local Open Scope list_scope.

Lemma strip_prefix_spec (p l r : list ascii) : strip_prefix p l = Some r -> l = p ++ r.
Proof.
  revert l. induction p as [|c p IH]; intros [|d l] H; simpl in *; try congruence.
  destruct (Ascii.eqb_spec c d) as [->|]; [|discriminate]. simpl. f_equal. now apply IH.
Qed.

Lemma strip_prefix_app (p r : list ascii) : strip_prefix p (p ++ r) = Some r.
Proof. induction p as [|c p IH]; simpl; [reflexivity|]. now rewrite Ascii.eqb_refl. Qed.

Lemma strip_one_spec (seqs : list (list ascii)) (l r : list ascii) :
  strip_one seqs l = Some r -> exists p, In p seqs /\ l = p ++ r.
Proof.
  induction seqs as [|p ps IH]; simpl; [discriminate|].
  destruct (strip_prefix p l) eqn:E; intros H.
  - injection H as <-. exists p. split; [now left | now apply strip_prefix_spec].
  - destruct (IH H) as (q & Hq & ->). exists q. split; [now right | reflexivity].
Qed.

Lemma strip_one_complete (seqs : list (list ascii)) (p r : list ascii) :
  In p seqs -> strip_one seqs (p ++ r) <> None.
Proof.
  induction seqs as [|q qs IH]; simpl; [contradiction|]. intros [->|Hin].
  - now rewrite strip_prefix_app.
  - destruct (strip_prefix q (p ++ r)); [discriminate | now apply IH].
Qed.

Lemma strip_all_stops (seqs : list (list ascii)) (fuel : nat) (l : list ascii) :
  Forall (fun p => p <> []) seqs -> (length l <= fuel)%nat ->
  strip_one seqs (strip_all seqs fuel l) = None.
Proof.
  intros Hne. revert l. induction fuel as [|fuel IH]; intros l Hl; simpl.
  - destruct l; [|simpl in Hl; lia].
    clear -Hne. induction Hne as [|[|c p] ps Hp _ IH]; simpl; [reflexivity | congruence | exact IH].
  - destruct (strip_one seqs l) eqn:E; [|exact E].
    destruct (strip_one_spec _ _ _ E) as (p & Hin & ->). apply IH.
    rewrite Forall_forall in Hne. specialize (Hne p Hin).
    destruct p; [contradiction|]. simpl in Hl. rewrite length_app in Hl. lia.
Qed.

(** When everything is stripped, the list ends with one of the sequences. *)
Lemma strip_all_empty (seqs : list (list ascii)) (fuel : nat) (l : list ascii) :
  strip_all seqs fuel l = [] -> l = [] \/ exists p r, In p seqs /\ l = r ++ p.
Proof.
  revert l. induction fuel as [|fuel IH]; intros l H; simpl in H; [now left|].
  destruct (strip_one seqs l) eqn:E; [|now left].
  destruct (strip_one_spec _ _ _ E) as (p & Hin & ->). right.
  destruct (IH _ H) as [->|(q & r & Hq & ->)].
  - exists p, []. rewrite app_nil_r. now split.
  - exists q, (p ++ r). split; [exact Hq | now rewrite app_assoc].
Qed.

Lemma ws_seqs_nonempty : Forall (fun p => p <> []) ws_seqs.
Proof. repeat constructor; discriminate. Qed.

Lemma rev_ws_seqs_nonempty : Forall (fun p => p <> []) (map (@List.rev ascii) ws_seqs).
Proof. repeat constructor; discriminate. Qed.

Lemma string_of_list_ascii_nil (l : list ascii) : string_of_list_ascii l = "" -> l = [].
Proof. destruct l; [reflexivity | discriminate]. Qed.

(** [s.trim() === ""] exactly when stripping leading whitespace leaves
    nothing: a text that is not all whitespace keeps its first
    non-whitespace code point. *)
Lemma trim_empty_iff (s : string) :
  trim s = "" <-> trim_start_list (list_ascii_of_string s) = [].
Proof.
  unfold trim. set (l := trim_start_list _). split; [|intros ->; reflexivity].
  intros H. apply string_of_list_ascii_nil in H. unfold trim_end_list in H.
  assert (Hs : strip_all (map (@List.rev ascii) ws_seqs) (length l) (List.rev l) = []).
  { rewrite <- (rev_involutive (strip_all _ _ _)), H. reflexivity. }
  destruct (strip_all_empty _ _ _ Hs) as [Hr|(p & r & Hin & Hr)].
  - rewrite <- (rev_involutive l), Hr. reflexivity.
  - exfalso. apply in_map_iff in Hin as (q & <- & Hq).
    assert (El : l = q ++ List.rev r).
    { rewrite <- (rev_involutive l), Hr, rev_app_distr, rev_involutive. reflexivity. }
    apply (strip_one_complete ws_seqs q (List.rev r) Hq). rewrite <- El.
    apply strip_all_stops; [exact ws_seqs_nonempty | lia].
Qed.

(** ** Lemmas on parseFloat and Math.pow *)

Lemma round_binary64_not_NaN (negative : bool) (v : Q) : isNaN (round_binary64 negative v) = false.
Proof. unfold round_binary64. now destruct (Qle_bool _ _), negative. Qed.

(** A value below the threshold is kept exactly. *)
Lemma round_binary64_Fin (negative : bool) (v : Q) :
  v < overflow_threshold -> round_binary64 negative v = Fin (if negative then - v else v).
Proof.
  intros H. unfold round_binary64.
  destruct (Qle_bool_reflect overflow_threshold v); [lra | reflexivity].
Qed.

(** A text that trims to nothing reads as NaN. *)
Lemma parseFloat_blank (s : string) : trim s = ""%string -> parseFloat s = NaN.
Proof. intros H. apply trim_empty_iff in H. unfold parseFloat. now rewrite H. Qed.

Lemma Qis_integer_Z (z : Z) : Qis_integer (inject_Z z) = true.
Proof. unfold Qis_integer. rewrite Qfloor_Z. apply Qeq_bool_refl. Qed.

(** On a nonzero finite base and an integer exponent, Math.pow is the
    exact power. *)
Lemma to_number_Fin (q : Q) : Qabs q < overflow_threshold -> to_number q = Fin q.
Proof.
  intros H. unfold to_number.
  destruct (Qle_bool_reflect overflow_threshold (Qabs q)); [lra | reflexivity].
Qed.

Lemma to_number_PosInf (q : Q) : overflow_threshold <= q -> to_number q = PosInf.
Proof.
  intros H. assert (Hq : 0 < q) by (eapply Qlt_le_trans; [|exact H]; reflexivity).
  unfold to_number. rewrite Qabs_pos by lra.
  destruct (Qle_bool_reflect overflow_threshold q); [|lra].
  destruct (Qltb_reflect q 0); [lra | reflexivity].
Qed.

Lemma math_pow_Z `{PowRuntime} (b : Q) (z : Z) :
  ~ b == 0 -> math_pow (Fin b) (Fin (inject_Z z)) = to_number (Qpower b z).
Proof.
  intros Hb. unfold math_pow.
  destruct (Qeq_bool_reflect (inject_Z z) 0) as [Hz|Hz].
  - assert (z = 0%Z) as -> by (apply inject_Z_injective; exact Hz).
    symmetry. apply to_number_Fin. cbn. unfold Qlt; cbn. lia.
  - destruct (Qeq_bool_reflect b 0) as [|_]; [contradiction|].
    now rewrite Qis_integer_Z, Qfloor_Z.
Qed.

(** ** Which texts trim to nothing *)

(** A text of WhiteSpace and LineTerminator code points only. *)
Inductive whitespace_only : list ascii -> Prop :=
| ws_nil : whitespace_only []
| ws_cons (p r : list ascii) : In p ws_seqs -> whitespace_only r -> whitespace_only (p ++ r).

(** The UTF-8 encodings of the whitespace code points are prefix-free:
    no one is a proper prefix of another. *)
Definition ws_prefix_free : bool :=
  forallb (fun p => forallb (fun q =>
    match strip_prefix q p with Some t => match t with [] => true | _ => false end
                               | None => true end) ws_seqs) ws_seqs.

Lemma ws_prefix_free_true : ws_prefix_free = true.
Proof. vm_compute. reflexivity. Qed.

Lemma ws_prefix_free_spec (p q t : list ascii) :
  In p ws_seqs -> In q ws_seqs -> p = q ++ t -> t = [].
Proof.
  intros Hp Hq ->. pose proof ws_prefix_free_true as H. unfold ws_prefix_free in H.
  rewrite forallb_forall in H. specialize (H _ Hp). rewrite forallb_forall in H.
  specialize (H _ Hq). rewrite strip_prefix_app in H. destruct t; [reflexivity | discriminate].
Qed.

(** A leading whitespace code point is the one [strip_one] removes. *)
Lemma strip_one_ws (p r : list ascii) : In p ws_seqs -> strip_one ws_seqs (p ++ r) = Some r.
Proof.
  intros Hp. destruct (strip_one ws_seqs (p ++ r)) as [r'|] eqn:E.
  - destruct (strip_one_spec _ _ _ E) as (q & Hq & Heq).
    destruct (app_eq_app _ _ _ _ Heq) as (t & [[Ep Et]|[Eq Et]]).
    + rewrite (ws_prefix_free_spec p q t Hp Hq Ep), app_nil_r in Ep. subst p.
      apply app_inv_head in Heq. now subst.
    + rewrite (ws_prefix_free_spec q p t Hq Hp Eq), app_nil_r in Eq. subst q.
      apply app_inv_head in Heq. now subst.
  - exfalso. exact (strip_one_complete _ _ _ Hp E).
Qed.

Lemma strip_all_whitespace (fuel : nat) (l : list ascii) :
  strip_all ws_seqs fuel l = [] -> whitespace_only l.
Proof.
  revert l. induction fuel as [|fuel IH]; intros l H; cbn [strip_all] in H; [subst; constructor|].
  destruct (strip_one ws_seqs l) eqn:E; [|subst; constructor].
  destruct (strip_one_spec _ _ _ E) as (p & Hp & ->). constructor; [exact Hp | now apply IH].
Qed.

Lemma whitespace_strip_all (fuel : nat) (l : list ascii) :
  whitespace_only l -> (length l <= fuel)%nat -> strip_all ws_seqs fuel l = [].
Proof.
  intros Hw. revert fuel. induction Hw as [|p r Hp _ IH]; intros fuel Hf.
  - destruct fuel; reflexivity.
  - assert (Hne : p <> []).
    { pose proof ws_seqs_nonempty as Hn. rewrite Forall_forall in Hn. exact (Hn p Hp). }
    destruct fuel as [|fuel]; [destruct p; [contradiction | simpl in Hf; lia]|].
    cbn [strip_all]. rewrite strip_one_ws by exact Hp. apply IH.
    rewrite length_app in Hf. destruct p; [contradiction | simpl in Hf; lia].
Qed.

(** [s.trim() === ""] exactly when [s] is whitespace only: the loop of
    [trim], with the length of the text as fuel, strips all of it. *)
Theorem trim_empty_whitespace (s : string) :
  trim s = ""%string <-> whitespace_only (list_ascii_of_string s).
Proof.
  rewrite trim_empty_iff. unfold trim_start_list. split.
  - apply strip_all_whitespace.
  - intros H. now apply whitespace_strip_all.
Qed.

(** ** parseFloat on a text that starts with its numeral *)

(** The bytes that begin a whitespace code point. *)
Definition ws_lead (c : ascii) : bool :=
  existsb (fun p => match p with d :: _ => Ascii.eqb d c | [] => true end) ws_seqs.

Lemma strip_one_not_lead (c : ascii) (r : list ascii) :
  ws_lead c = false -> strip_one ws_seqs (c :: r) = None.
Proof.
  unfold ws_lead. generalize ws_seqs as seqs.
  induction seqs as [|[|d p] ps IH]; cbn; [reflexivity | discriminate|].
  intros H. apply orb_false_iff in H as [Hd Hps].
  rewrite Hd. now apply IH.
Qed.

Lemma trim_start_not_lead (c : ascii) (r : list ascii) :
  ws_lead c = false -> trim_start_list (c :: r) = c :: r.
Proof.
  intros H. unfold trim_start_list. cbn [length strip_all].
  now rewrite strip_one_not_lead.
Qed.

(** A decimal digit, a sign or a point never begins whitespace. *)
Lemma digit_not_lead (c : ascii) :
  digit_value c <> None -> ws_lead c = false /\ c <> "I"%char /\ c <> "-"%char /\ c <> "+"%char.
Proof.
  destruct c as [[] [] [] [] [] [] [] []]; vm_compute; intros H;
    first [contradiction H; reflexivity | repeat split; discriminate].
Qed.

(** [take_digits] takes nothing, or the text starts with a digit. *)
Lemma take_digits_head (acc : N) (k : nat) (l : list ascii) :
  let '(_, k', r) := take_digits acc k l in
  (k' = k /\ r = l) \/ (exists d l', l = d :: l' /\ digit_value d <> None).
Proof.
  destruct l as [|c l]; cbn; [now left|].
  destruct (digit_value c) eqn:E; [|now left].
  destruct (take_digits _ _ l) as [[? ?] ?]. right. exists c, l. split; congruence.
Qed.
