(* ===== verification/RatioClassifier.v ===== *)
(** * Ratio classification of two metrics

    [generateMarketCapComparisonCommentary] and
    [generateBetaComparisonCommentary]
    (src/app/en/stock-comparisons/[slug]/components/CompanyOverviewSection.tsx)
    both compute [ratio = one / two] and branch on
    [ratio > 1.5] (stock one dominates), else [ratio < 0.67] (stock two
    dominates), else comparable.  This file states that rule once, over an
    interface [RatioThresholds] (the pair of bounds a classifier uses), so
    that what holds of every threshold pair is proved once and the two
    instances can be compared:
    - [code_thresholds]: the literals of the source, 1.5 and 0.67 (the
      latter at its binary64 value);
    - [spec_thresholds]: the bounds the design asks for, 1.5 and its
      reciprocal.
    The theorems: a threshold pair (with [lower <= 1 <= upper]) classifies
    every swapped pair as the mirror category exactly when
    [lower == 1 / upper]; the code's pair therefore does not, and the
    ratios on which it fails are exactly [[2/3, 0.67)] and
    [(1/0.67, 1.5]]; the code's classifier refines the design's one
    except on [[2/3, 0.67)]. *)

From Stdlib Require Import QArith Qround Lqa Bool Setoid Morphisms.
From S2P Require Import Prelude JsNumber.

Inductive comparison_category : Type :=
| ADominant
| BDominant
| Comparable.

Definition comparison_category_eq_dec (x y : comparison_category) : {x = y} + {x <> y}.
Proof. decide equality. Defined.

(** The category of the swapped pair that a swap-consistent rule gives. *)
Definition mirror (c : comparison_category) : comparison_category :=
  match c with
  | ADominant => BDominant
  | BDominant => ADominant
  | Comparable => Comparable
  end.

(** The interface: the two bounds of the rule. *)
Class RatioThresholds := {
  upper : Q;
  lower : Q
}.

(** [if (ratio > upper) ... else if (ratio < lower) ... else ...] *)
Definition classify_ratio `{RatioThresholds} (ratio : number) : comparison_category :=
  if num_gt ratio (Fin upper) then ADominant
  else if num_lt ratio (Fin lower) then BDominant
  else Comparable.

(** The classification of a pair of metric values: the ratio is
    [one / two], JavaScript division. *)
Definition classify_pair `{RatioThresholds} (one two : number) : comparison_category :=
  classify_ratio (num_div one two).

Definition code_thresholds : RatioThresholds := {| upper := 3 # 2; lower := q_0_67 |}.
Definition spec_thresholds : RatioThresholds := {| upper := 3 # 2; lower := / (3 # 2) |}.

(** ** Lemmas *)

#[export] Instance classify_ratio_Proper `{RatioThresholds} :
  Proper (num_eq ==> eq) classify_ratio.
Proof.
  intros x y E. unfold classify_ratio.
  assert (Ecmp : forall z, num_gt x z = num_gt y z /\ num_ge x z = num_ge y z /\
                           num_lt x z = num_lt y z /\ num_le x z = num_le y z)
    by (intros z; repeat split; now rewrite E).
  destruct (Ecmp (Fin upper)) as (U1 & U2 & U3 & U4).
  destruct (Ecmp (Fin lower)) as (L1 & L2 & L3 & L4).
  now rewrite ?U1, ?U2, ?U3, ?U4, ?L1, ?L2, ?L3, ?L4.
Qed.

Lemma classify_ratio_Fin `{RatioThresholds} (x : Q) :
  classify_ratio (Fin x) =
  if Qltb upper x then ADominant else if Qltb x lower then BDominant else Comparable.
Proof. reflexivity. Qed.

Lemma mirror_involutive (c : comparison_category) : mirror (mirror c) = c.
Proof. now destruct c. Qed.

Lemma Qinv_lt_swap (u x : Q) : 0 < u -> 0 < x -> (u < / x <-> x < / u).
Proof.
  intros Hu Hx. rewrite (Qinv_lt_contravar u (/ x) Hu) by (apply Qinv_lt_0_compat; exact Hx).
  now rewrite Qinv_involutive.
Qed.

Lemma Qinv_gt_swap (p y : Q) : 0 < p -> 0 < y -> (/ y < p <-> / p < y).
Proof.
  intros Hp Hy. rewrite (Qinv_lt_contravar (/ y) p) by (try apply Qinv_lt_0_compat; assumption).
  now rewrite Qinv_involutive.
Qed.

Lemma Qltb_iff_eq (a b c d : Q) : (a < b <-> c < d) -> Qltb a b = Qltb c d.
Proof.
  intros E. destruct (Qltb_reflect a b), (Qltb_reflect c d); try reflexivity; exfalso; tauto.
Qed.

Lemma Qdiv_swap (a b : Q) : 0 < a -> 0 < b -> b / a == / (a / b).
Proof.
  intros Ha Hb. field. split; intros E; rewrite E in *; discriminate.
Qed.

Lemma Qlt_div_iff_l (c a b : Q) : 0 < b -> (c < a / b <-> c * b < a).
Proof.
  intros Hb. rewrite <- (Qmult_lt_r c (a / b) b Hb).
  setoid_replace (a / b * b) with a; [reflexivity|].
  field. intros E. rewrite E in Hb. discriminate.
Qed.

Lemma Qlt_div_iff_r (a b c : Q) : 0 < b -> (a / b < c <-> a < c * b).
Proof.
  intros Hb. rewrite <- (Qmult_lt_r (a / b) c b Hb).
  setoid_replace (a / b * b) with a; [reflexivity|].
  field. intros E. rewrite E in Hb. discriminate.
Qed.

(** The two tests of the rule on the ratio of positive finite values,
    without division. *)
Lemma ratio_tests (a b u l : Q) :
  0 < b ->
  num_gt (num_div (Fin a) (Fin b)) (Fin u) = Qltb (u * b) a /\
  num_lt (num_div (Fin a) (Fin b)) (Fin l) = Qltb a (l * b).
Proof.
  intros Hb. rewrite num_div_Fin by (intros E; rewrite E in Hb; discriminate).
  split; apply Qltb_iff_eq; [apply Qlt_div_iff_l | apply Qlt_div_iff_r]; exact Hb.
Qed.

(** Classification of the reciprocal [1 / x] of a positive ratio, in
    terms of [x] and the bounds. *)
Lemma classify_inv_Fin `{RatioThresholds} (x : Q) :
  0 < x -> 0 < upper -> 0 < lower ->
  classify_ratio (Fin (/ x)) =
  if Qltb x (/ upper) then ADominant
  else if Qltb (/ lower) x then BDominant else Comparable.
Proof.
  intros Hx Hu Hl. rewrite classify_ratio_Fin.
  rewrite (Qltb_iff_eq _ _ _ _ (Qinv_lt_swap _ _ Hu Hx)).
  rewrite (Qltb_iff_eq _ _ _ _ (Qinv_gt_swap _ _ Hl Hx)).
  reflexivity.
Qed.

Lemma Qinv_le_1 (u : Q) : 1 <= u -> / u <= 1.
Proof.
  intros Hu. apply Qle_shift_inv_r; lra.
Qed.

Lemma Qinv_ge_1 (l : Q) : 0 < l -> l <= 1 -> 1 <= / l.
Proof.
  intros Hl Hl1. apply Qle_shift_inv_l; lra.
Qed.

Lemma classify_pair_Fin `{RatioThresholds} (a b : Q) :
  0 < b -> classify_pair (Fin a) (Fin b) = classify_ratio (Fin (a / b)).
Proof.
  intros Hb. unfold classify_pair. rewrite num_div_Fin; [reflexivity|].
  intros E. rewrite E in Hb. discriminate.
Qed.

(** The classification of the swapped pair, through the reciprocal of
    the ratio. *)
Lemma classify_pair_swap `{RatioThresholds} (a b : Q) :
  0 < a -> 0 < b -> 0 < upper -> 0 < lower ->
  classify_pair (Fin b) (Fin a) =
  let x := a / b in
  if Qltb x (/ upper) then ADominant
  else if Qltb (/ lower) x then BDominant else Comparable.
Proof.
  intros Ha Hb Hu Hl. rewrite classify_pair_Fin by exact Ha.
  rewrite (Qdiv_swap a b Ha Hb). apply classify_inv_Fin; [|exact Hu|exact Hl].
  apply Qlt_shift_div_l; [exact Hb | lra].
Qed.

(** [Fin x / Fin 1] and [Fin 1 / Fin x] are [x] and [/ x]. *)
Lemma classify_pair_unit `{RatioThresholds} (x : Q) :
  0 < x -> classify_pair (Fin x) (Fin 1) = classify_ratio (Fin x).
Proof.
  intros Hx. rewrite classify_pair_Fin by reflexivity.
  apply classify_ratio_Proper. simpl. field.
Qed.

(** A threshold pair classifies swapped pairs of positive values as
    mirror categories. *)
Definition swap_consistent `{RatioThresholds} : Prop :=
  forall a b : Q, 0 < a -> 0 < b ->
    classify_pair (Fin b) (Fin a) = mirror (classify_pair (Fin a) (Fin b)).

Ltac qcases := repeat (qcase; cbn [mirror]); try reflexivity.

Lemma classify_pair_inv_unit `{RatioThresholds} (x : Q) :
  0 < x -> 0 < upper -> 0 < lower ->
  classify_pair (Fin 1) (Fin x) =
  if Qltb x (/ upper) then ADominant
  else if Qltb (/ lower) x then BDominant else Comparable.
Proof.
  intros Hx Hu Hl. rewrite classify_pair_Fin by exact Hx.
  rewrite <- classify_inv_Fin by assumption.
  apply classify_ratio_Proper. simpl. field. intros E. rewrite E in Hx. discriminate.
Qed.

(** ** The swap law of a threshold pair *)

(** C4: for bounds with [0 < lower <= 1 <= upper], the rule classifies
    every swapped pair of positive values as the mirror category if and
    only if the lower bound is the reciprocal of the upper one. *)
Theorem swap_consistent_iff `{RatioThresholds} :
  0 < lower -> lower <= 1 -> 1 <= upper ->
  (swap_consistent <-> lower == / upper).
Proof.
  intros Hl Hl1 Hu1. assert (Hu : 0 < upper) by lra.
  pose proof (Qinv_le_1 _ Hu1). pose proof (Qinv_ge_1 _ Hl Hl1).
  pose proof (Qinv_lt_0_compat _ Hu). split.
  - intros Hsc.
    destruct (Q_dec lower (/ upper)) as [[Hlt|Hgt]|Heq]; [exfalso..|exact Heq].
    + set (x := (lower + / upper) * (1 # 2)).
      assert (Hx : 0 < x) by (unfold x; lra).
      specialize (Hsc x 1 Hx ltac:(reflexivity)).
      rewrite classify_pair_inv_unit, classify_pair_unit, classify_ratio_Fin in Hsc
        by assumption.
      revert Hsc. unfold x. qcases; intros Hsc; try discriminate; lra.
    + set (x := (/ upper + lower) * (1 # 2)).
      assert (Hx : 0 < x) by (unfold x; lra).
      specialize (Hsc x 1 Hx ltac:(reflexivity)).
      rewrite classify_pair_inv_unit, classify_pair_unit, classify_ratio_Fin in Hsc
        by assumption.
      revert Hsc. unfold x. qcases; intros Hsc; try discriminate; lra.
  - intros Heq a b Ha Hb.
    rewrite classify_pair_swap, classify_pair_Fin, classify_ratio_Fin by assumption.
    cbv zeta. assert (Hx : 0 < a / b) by (apply Qlt_shift_div_l; lra).
    assert (E : / lower == upper) by (rewrite Heq; apply Qinv_involutive).
    assert (E1 : Qltb (/ lower) (a / b) = Qltb upper (a / b)) by now rewrite E.
    assert (E2 : Qltb (a / b) (/ upper) = Qltb (a / b) lower) by now rewrite Heq.
    rewrite E1, E2. qcases; lra.
Qed.

(** ** The source's thresholds *)

Lemma code_bounds :
  0 < @lower code_thresholds /\ @lower code_thresholds <= 1 /\ 1 <= @upper code_thresholds.
Proof. cbn. unfold q_0_67. repeat split; lra. Qed.

(** The reciprocal of the binary64 value of [0.67]. *)
Lemma inv_q_0_67 : / q_0_67 == 9007199254740992 # 6034823500676465.
Proof. reflexivity. Qed.

(** C5: with the source's bounds 1.5 and 0.67, a pair of positive values
    and the swapped pair get mirror categories exactly when the ratio
    lies outside [[2/3, 0.67)] and [(1/0.67, 1.5]]. *)
Theorem code_swap_failure_region (a b : Q) :
  0 < a -> 0 < b ->
  (@classify_pair code_thresholds (Fin b) (Fin a) =
     mirror (@classify_pair code_thresholds (Fin a) (Fin b))
   <-> ~ ((2 # 3 <= a / b /\ a / b < q_0_67) \/
          (/ q_0_67 < a / b /\ a / b <= 3 # 2))).
Proof.
  intros Ha Hb. destruct code_bounds as (Hl & _ & Hu).
  rewrite classify_pair_swap, classify_pair_Fin, classify_ratio_Fin by (auto; lra).
  cbv zeta. cbn [upper lower code_thresholds mirror].
  pose proof inv_q_0_67 as Hi. assert (Hi' : / (3 # 2) == 2 # 3) by reflexivity.
  unfold q_0_67 in *.
  qcases; split; intros H; try discriminate; try reflexivity;
    try (intros [[? ?]|[? ?]]; lra); exfalso; apply H; lra.
Qed.

(** C3: the source's classifier agrees with the design's one (lower bound
    [1 / 1.5]) on every JavaScript number except the finite ratios in
    [[2/3, 0.67)], which the source calls "stock two dominant" and the
    design "comparable". *)
Theorem code_refines_spec (r : number) :
  @classify_ratio code_thresholds r = @classify_ratio spec_thresholds r <->
  ~ (exists x, r = Fin x /\ 2 # 3 <= x /\ x < q_0_67).
Proof.
  destruct r as [x| | |];
    [| split; [intros _ [x [E _]]; discriminate | reflexivity] ..].
  rewrite !classify_ratio_Fin. cbn [upper lower code_thresholds spec_thresholds].
  assert (Hi' : / (3 # 2) == 2 # 3) by reflexivity. unfold q_0_67 in *.
  qcases; split; intros H; try discriminate; try reflexivity;
    try (intros (y & E & ? & ?); injection E as <-; lra);
    exfalso; apply H; exists x; repeat split; lra.
Qed.

(** ** Concrete instances *)

(** The design's bounds 1.5 and 1/1.5 are swap consistent. *)
Lemma swap_consistent_iff_witness : @swap_consistent spec_thresholds.
Proof.
  apply (proj2 (@swap_consistent_iff spec_thresholds
                  ltac:(vm_compute; reflexivity) ltac:(vm_compute; discriminate)
                  ltac:(vm_compute; discriminate))).
  reflexivity.
Defined.

(** Market caps 669 and 1000 (ratio 0.669): stock two is called dominant,
    and with the stocks swapped (ratio 1.4948) the pair is comparable. *)
Lemma code_swap_failure_region_witness :
  @classify_pair code_thresholds (Fin 1000) (Fin 669) <>
    mirror (@classify_pair code_thresholds (Fin 669) (Fin 1000)).
Proof.
  intros E.
  apply (proj1 (code_swap_failure_region 669 1000
                  ltac:(vm_compute; reflexivity) ltac:(vm_compute; reflexivity)) E).
  left. split; vm_compute; discriminate.
Defined.
