(* ===== verification/Markup.v ===== *)
(** * Rendered markup

    The section components return JSX built from the article components
    [Section], [H2], [P] and [Table] (imported from
    src/app/components/{en,zh}/content/page/main/article/, which are not
    part of the sources).  A rendered section is modelled as a tree of
    these elements with their text; a table is its header row (the
    header cells after the row label) and its body rows, each a row
    label and its data cells.  CSS classes and ARIA attributes other
    than the section's [ariaLabelledby] are not modelled. *)

From Stdlib Require Import String List.
From S2P Require Import Prelude.
Import ListNotations.
Set Warnings "-register-all".

Inductive node : Type :=
| Section (ariaLabelledby : string) (children : list node)
| H2 (id : string) (text : string)
| P (text : string)
| Table (headLabel : string) (headCells : list string)
        (rows : list (string * list string)).

(** The paragraphs of a section, in order. *)
Definition paragraphs (n : node) : list string :=
  match n with
  | Section _ children =>
      flat_map (fun c => match c with P t => [t] | _ => [] end) children
  | _ => []
  end.

(** The tables of a section. *)
Definition tables (n : node) : list node :=
  match n with
  | Section _ children =>
      filter (fun c => match c with Table _ _ _ => true | _ => false end) children
  | _ => []
  end.

(** [{text && <P>{text}</P>}]: a paragraph rendered only for a nonempty
    string (the empty string is falsy). *)
Definition optional_paragraph (text : string) : list node :=
  if String.eqb text "" then [] else [P text].
