(* ===== verification/Fetch.v ===== *)
(** * Fetching JSON from the market-data API

    The fetch helpers of the sources ([fetchCompanyProfileData],
    [fetchDividendData], [fetchPriceSeriesData]) run
    [await (await fetch(endpoint)).json()] inside a [try], read the
    parsed value, and in the [catch] log with [console.error] and return
    [null].  They are effectful: the model threads an explicit state, the
    log of requested URLs and of console errors, through a small state
    monad [io], so that the order of the requests of a section and the
    errors it logs are part of what is proved.

    The HTTP server is a function from URL to the JSON value the body
    parses to ([response]): an array of records of the shape the source
    declares, any other object, [null], or a failure (network error or a
    body that is not JSON, both of which reject and reach the [catch]).
    A body that parses to a string, number or boolean, and records of
    another shape than the declared type, are not modelled.

    [process.env.FINANCIAL_MODELING_PREP_API_KEY] is an [option string];
    interpolated into the URL template, an unset key is the text
    ["undefined"]. *)

From Stdlib Require Import String List.
From S2P Require Import Prelude.
Import ListNotations.
Local Open Scope string_scope.

Inductive response (A : Type) : Type :=
| RespArray (rows : list A)
| RespObject
| RespNull
| RespFailure.
Arguments RespArray {A} rows.
Arguments RespObject {A}.
Arguments RespNull {A}.
Arguments RespFailure {A}.

(** What the section components' effects leave behind. *)
Record io_state : Type := {
  requests : list string;
  console_errors : list (string * string)
}.

Definition io (A : Type) : Type := io_state -> A * io_state.

Definition ret {A : Type} (x : A) : io A := fun st => (x, st).

Definition bind {A B : Type} (m : io A) (k : A -> io B) : io B :=
  fun st => let (x, st') := m st in k x st'.

Declare Scope io_scope.
Delimit Scope io_scope with io.
Notation "x <- m ;; k" := (bind m (fun x => k))
  (at level 61, m at next level, right associativity) : io_scope.
Notation "m ;; k" := (bind m (fun _ => k))
  (at level 61, right associativity) : io_scope.
Local Open Scope io_scope.

(** [fetch(url)] followed by [.json()], against the server [server]. *)
Definition fetch_json {A : Type} (server : string -> response A) (url : string)
  : io (response A) :=
  fun st => (server url, {| requests := requests st ++ [url];
                            console_errors := console_errors st |}).

(** [console.error(message, symbol, error)]: the message and the symbol
    (the error object is not modelled). *)
Definition console_error (message symbol : string) : io unit :=
  fun st => (tt, {| requests := requests st;
                    console_errors := console_errors st ++ [(message, symbol)] |}).

(** A template literal's [${value}] of an optional string. *)
Definition template_value (v : option string) : string :=
  match v with Some s => s | None => "undefined" end.

Definition empty_state : io_state := {| requests := []; console_errors := [] |}.

(** Running a computation from a state. *)
Definition run {A : Type} (m : io A) (st : io_state) : A * io_state := m st.

(** ** Monad laws and the effects of the primitives *)

Lemma bind_ret_l {A B : Type} (x : A) (k : A -> io B) : bind (ret x) k = k x.
Proof. reflexivity. Qed.

Lemma bind_assoc {A B C : Type} (m : io A) (k : A -> io B) (h : B -> io C) st :
  bind (bind m k) h st = bind m (fun x => bind (k x) h) st.
Proof. unfold bind. now destruct (m st). Qed.

Lemma fetch_json_run {A : Type} (server : string -> response A) url st :
  fetch_json server url st =
  (server url, {| requests := requests st ++ [url]; console_errors := console_errors st |}).
Proof. reflexivity. Qed.
