(* ===== verification/CompanyOverview.v ===== *)
(** * The company overview section (English stock comparison page)

    Models src/app/en/stock-comparisons/[slug]/components/CompanyOverviewSection.tsx:
    - [CompanyProfileData], the record the profile endpoint returns;
    - [fetchCompanyProfileData], the fetch helper ([rawData[0]], or
      [null] after logging in the [catch]);
    - the three commentary generators
      [generateMarketCapComparisonCommentary],
      [generateBetaComparisonCommentary] and [generateAdrCommentary],
      transcribed branch by branch with JavaScript numbers and the
      runtime's formatting;
    - [CompanyOverviewSection], which fetches both profiles one after the
      other and renders either the "unavailable" section or the
      commentary paragraphs and the comparison table. *)

From Stdlib Require Import String List QArith Qround Qabs Lqa Bool Setoid Morphisms.
From S2P Require Import Prelude JsNumber NumberFormat RatioClassifier Markup Fetch.
Import ListNotations.
Local Open Scope string_scope.
Local Open Scope io_scope.

(** [new Date(ipoDate).toLocaleDateString("en", {year, month: "long",
    day})], supplied by the runtime. *)
Class DateToLocale := ipo_date_text : string -> string.

Record CompanyProfileData : Type := {
  companyName : string;
  country : string;
  sector : string;
  industry : string;
  ceo : string;
  price : number;
  marketCap : number;
  beta : number;
  exchange : string;
  ipoDate : string;
  isAdr : bool;
  currency : string
}.

Section CompanyOverview.

Context `{NumberToString} `{DateToLocale}.

Definition profile_endpoint (apiKey : option string) (symbol : string) : string :=
  "https://financialmodelingprep.com/stable/profile?symbol=" ++ symbol ++
  "&apikey=" ++ template_value apiKey.

Definition fetchCompanyProfileData (apiKey : option string)
    (server : string -> response CompanyProfileData) (symbol : string)
  : io (option CompanyProfileData) :=
  rawData <- fetch_json server (profile_endpoint apiKey symbol) ;;
  match rawData with
  | RespArray (first :: _) => ret (Some first)
  | RespArray [] | RespObject => ret None
  | RespNull | RespFailure =>
      console_error "Error fetching company profile data for" symbol ;; ret None
  end.

(** [(marketCap / 1000000000).toLocaleString("en", {2, 2})] *)
Definition billions (marketCap : number) : string :=
  toLocaleString_en 2 2 (num_div marketCap lit_1e9).

Definition generateMarketCapComparisonCommentary
    (stockOneSymbol : string) (stockOneMarketCap : number) (stockOneCurrency : string)
    (stockTwoSymbol : string) (stockTwoMarketCap : number) (stockTwoCurrency : string)
  : string :=
  let marketCapRatio := num_div stockOneMarketCap stockTwoMarketCap in
  let stockOneFormattedMarketCap := billions stockOneMarketCap in
  let stockTwoFormattedMarketCap := billions stockTwoMarketCap in
  if num_gt marketCapRatio lit_1_5 then
    "For market capitalization, " ++ stockOneSymbol ++
    " is notably larger with a market cap of approximately " ++
    stockOneFormattedMarketCap ++ " billion " ++ stockOneCurrency ++ ", roughly " ++
    toFixed 2 marketCapRatio ++ " times that of " ++ stockTwoSymbol ++ " (" ++
    stockTwoFormattedMarketCap ++ " billion " ++ stockTwoCurrency ++ ")."
  else if num_lt marketCapRatio lit_0_67 then
    let inverseRatio := num_div (Fin 1) marketCapRatio in
    "In terms of market cap, " ++ stockTwoSymbol ++
    " stands out with a value of approximately " ++ stockTwoFormattedMarketCap ++
    " billion " ++ stockTwoCurrency ++ ", roughly " ++ toFixed 2 inverseRatio ++
    " times that of " ++ stockOneSymbol ++ " (" ++ stockOneFormattedMarketCap ++
    " billion " ++ stockOneCurrency ++ ")."
  else
    "Both " ++ stockOneSymbol ++ " and " ++ stockTwoSymbol ++
    " have comparable market capitalizations, at " ++ stockOneFormattedMarketCap ++
    " billion " ++ stockOneCurrency ++ " and " ++ stockTwoFormattedMarketCap ++
    " billion " ++ stockTwoCurrency ++ ", respectively.".

Definition generateBetaComparisonCommentary
    (stockOneSymbol : string) (stockOneBeta : number)
    (stockTwoSymbol : string) (stockTwoBeta : number) : string :=
  let betaRatio := num_div stockOneBeta stockTwoBeta in
  if num_gt betaRatio lit_1_5 then
    "Regarding volatility, " ++ stockOneSymbol ++ " has a higher beta of " ++
    toFixed 2 stockOneBeta ++
    " (suggesting potentially higher volatility relative to the market), compared to " ++
    stockTwoSymbol ++ "'s beta of " ++ toFixed 2 stockTwoBeta ++ "."
  else if num_lt betaRatio lit_0_67 then
    "Looking at volatility, " ++ stockTwoSymbol ++ " shows a higher beta of " ++
    toFixed 2 stockTwoBeta ++
    " (suggesting potentially higher volatility relative to the market), while " ++
    stockOneSymbol ++ " has a beta of " ++ toFixed 2 stockOneBeta ++ "."
  else
    "Both stocks exhibit similar volatility characteristics based on their beta values, with " ++
    stockOneSymbol ++ " at " ++ toFixed 2 stockOneBeta ++ " and " ++ stockTwoSymbol ++
    " at " ++ toFixed 2 stockTwoBeta ++ ".".

Definition generateAdrCommentary
    (stockOneSymbol : string) (stockOneIsAdr : bool)
    (stockTwoSymbol : string) (stockTwoIsAdr : bool) : string :=
  if stockOneIsAdr && stockTwoIsAdr then
    "Also, please note: both " ++ stockOneSymbol ++ " and " ++ stockTwoSymbol ++
    " are ADRs. This means they represent ownership in shares of foreign companies, made available for trading on U.S. stock exchanges, offering investors exposure to international markets."
  else if stockOneIsAdr then
    "Also, please note: " ++ stockOneSymbol ++
    " operates as an ADR, meaning it’s a foreign company’s stock listed on U.S. exchanges, while " ++
    stockTwoSymbol ++ " is a standard U.S.-listed stock, not tied to the ADR structure."
  else if stockTwoIsAdr then
    "Also, please note: " ++ stockTwoSymbol ++
    " is structured as an ADR, indicating it’s a foreign entity traded on U.S. markets, whereas " ++
    stockOneSymbol ++ " is a regular U.S.-based stock without ADR designation."
  else "".

Definition overview_unavailable : node :=
  Section "company-overview"
    [H2 "company-overview" "Company Overview";
     P "Company overview data is currently unavailable."].

Definition overview_table (stockOneSymbol stockTwoSymbol : string)
    (one two : CompanyProfileData) : node :=
  Table "Symbol" [stockOneSymbol; stockTwoSymbol]
    [("Company Name", [companyName one; companyName two]);
     ("Country", [country one; country two]);
     ("Sector", [sector one; sector two]);
     ("Industry", [industry one; industry two]);
     ("CEO", [ceo one; ceo two]);
     ("Price", [toLocaleString_default (price one) ++ " " ++ currency one;
                toLocaleString_default (price two) ++ " " ++ currency two]);
     ("Market Cap", [billions (marketCap one) ++ " billion " ++ currency one;
                     billions (marketCap two) ++ " billion " ++ currency two]);
     ("Beta", [number_text (beta one); number_text (beta two)]);
     ("Exchange", [exchange one; exchange two]);
     ("IPO Date", [ipo_date_text (ipoDate one); ipo_date_text (ipoDate two)]);
     ("ADR", [if isAdr one then "Yes" else "No"; if isAdr two then "Yes" else "No"])].

(** The section rendered from two profiles. *)
Definition overview_page (stockOneSymbol stockTwoSymbol : string)
    (one two : CompanyProfileData) : node :=
  let marketCapComparisonCommentary :=
    generateMarketCapComparisonCommentary stockOneSymbol (marketCap one) (currency one)
      stockTwoSymbol (marketCap two) (currency two) in
  let betaComparisonCommentary :=
    generateBetaComparisonCommentary stockOneSymbol (beta one) stockTwoSymbol (beta two) in
  let adrCommentary :=
    generateAdrCommentary stockOneSymbol (isAdr one) stockTwoSymbol (isAdr two) in
  Section "company-overview"
    ([H2 "company-overview" "Company Overview";
      P marketCapComparisonCommentary;
      P betaComparisonCommentary] ++
     optional_paragraph adrCommentary ++
     [P "For a detailed comparison, please refer to the table below.";
      overview_table stockOneSymbol stockTwoSymbol one two]).

Definition CompanyOverviewSection (apiKey : option string)
    (server : string -> response CompanyProfileData)
    (stockOneSymbol stockTwoSymbol : string) : io node :=
  stockOneCompanyProfileData <- fetchCompanyProfileData apiKey server stockOneSymbol ;;
  stockTwoCompanyProfileData <- fetchCompanyProfileData apiKey server stockTwoSymbol ;;
  match stockOneCompanyProfileData, stockTwoCompanyProfileData with
  | Some one, Some two => ret (overview_page stockOneSymbol stockTwoSymbol one two)
  | _, _ => ret overview_unavailable
  end.

(** ** What a fetch of the profile yields and logs *)

(** The record [rawData[0]] that the helper returns, if any. *)
Definition profile_of (r : response CompanyProfileData) : option CompanyProfileData :=
  match r with
  | RespArray (first :: _) => Some first
  | _ => None
  end.

(** The console errors the helper logs for a response. *)
Definition profile_fetch_errors (symbol : string) (r : response CompanyProfileData)
  : list (string * string) :=
  match r with
  | RespNull | RespFailure => [("Error fetching company profile data for", symbol)]
  | _ => []
  end.

Lemma fetchCompanyProfileData_run apiKey server symbol st :
  fetchCompanyProfileData apiKey server symbol st =
  (profile_of (server (profile_endpoint apiKey symbol)),
   {| requests := requests st ++ [profile_endpoint apiKey symbol];
      console_errors := console_errors st ++
        profile_fetch_errors symbol (server (profile_endpoint apiKey symbol)) |}).
Proof.
  unfold fetchCompanyProfileData, bind, fetch_json.
  destruct (server (profile_endpoint apiKey symbol)) as [[|first rest]| | |];
    simpl; rewrite ?app_nil_r; reflexivity.
Qed.

(** The section as a function of the two responses. *)
Lemma CompanyOverviewSection_run apiKey server one two st :
  CompanyOverviewSection apiKey server one two st =
  (match profile_of (server (profile_endpoint apiKey one)),
         profile_of (server (profile_endpoint apiKey two)) with
   | Some p1, Some p2 => overview_page one two p1 p2
   | _, _ => overview_unavailable
   end,
   {| requests := requests st ++ [profile_endpoint apiKey one; profile_endpoint apiKey two];
      console_errors := console_errors st ++
        profile_fetch_errors one (server (profile_endpoint apiKey one)) ++
        profile_fetch_errors two (server (profile_endpoint apiKey two)) |}).
Proof.
  unfold CompanyOverviewSection. unfold bind at 1.
  rewrite fetchCompanyProfileData_run. unfold bind.
  rewrite fetchCompanyProfileData_run. simpl. rewrite <- !app_assoc.
  destruct (profile_of (server (profile_endpoint apiKey one))),
           (profile_of (server (profile_endpoint apiKey two))); reflexivity.
Qed.

End CompanyOverview.

Section CompanyOverviewProofs.

Context `{NumberToString} `{DateToLocale}.

(** C1: the company overview section requests the profile of stock one
    and then of stock two (always both, in this order), logs a console
    error for each response that is [null] or a failure, and renders the
    commentary and table when both responses carry a record, the fixed
    "unavailable" section otherwise. *)
Theorem CompanyOverviewSection_spec apiKey server one two st :
  CompanyOverviewSection apiKey server one two st =
  (match profile_of (server (profile_endpoint apiKey one)),
         profile_of (server (profile_endpoint apiKey two)) with
   | Some p1, Some p2 => overview_page one two p1 p2
   | _, _ => overview_unavailable
   end,
   {| requests := requests st ++ [profile_endpoint apiKey one; profile_endpoint apiKey two];
      console_errors := console_errors st ++
        profile_fetch_errors one (server (profile_endpoint apiKey one)) ++
        profile_fetch_errors two (server (profile_endpoint apiKey two)) |}).
Proof. exact (CompanyOverviewSection_run apiKey server one two st). Qed.

Lemma overview_page_not_unavailable one two p1 p2 :
  overview_page one two p1 p2 <> overview_unavailable.
Proof.
  unfold overview_page, overview_unavailable, optional_paragraph.
  destruct (String.eqb _ ""); discriminate.
Qed.

(** The rendered node alone. *)
Lemma CompanyOverviewSection_result apiKey server one two st :
  fst (CompanyOverviewSection apiKey server one two st) =
  match profile_of (server (profile_endpoint apiKey one)),
        profile_of (server (profile_endpoint apiKey two)) with
  | Some p1, Some p2 => overview_page one two p1 p2
  | _, _ => overview_unavailable
  end.
Proof.
  unfold CompanyOverviewSection, bind.
  rewrite !fetchCompanyProfileData_run. simpl.
  destruct (profile_of (server (profile_endpoint apiKey one))),
           (profile_of (server (profile_endpoint apiKey two))); reflexivity.
Qed.

(** C21: the section renders exactly the "unavailable" message when the
    response for one of the two symbols carries no record; there is no
    partial commentary and no partial table. *)
Theorem overview_unavailable_iff apiKey server one two st :
  fst (CompanyOverviewSection apiKey server one two st) = overview_unavailable <->
  profile_of (server (profile_endpoint apiKey one)) = None \/
  profile_of (server (profile_endpoint apiKey two)) = None.
Proof.
  rewrite CompanyOverviewSection_result.
  destruct (profile_of (server (profile_endpoint apiKey one))),
           (profile_of (server (profile_endpoint apiKey two)));
    split; intros Hu; try (left; reflexivity); try (right; reflexivity);
    try reflexivity; try (destruct Hu; discriminate).
  exfalso. eapply overview_page_not_unavailable. exact Hu.
Qed.

(** The ADR note is empty exactly when neither stock is an ADR. *)
Lemma generateAdrCommentary_empty one a1 two a2 :
  generateAdrCommentary one a1 two a2 = "" <-> a1 = false /\ a2 = false.
Proof.
  unfold generateAdrCommentary.
  destruct a1, a2; simpl; split; intros E; try discriminate;
    try (destruct E; discriminate); auto.
Qed.

(** C27: the rendered overview has four paragraphs before the table (the
    market-cap, beta and closing sentences and the ADR note) when one of
    the stocks is an ADR, and three otherwise. *)
Theorem overview_paragraph_count one two p1 p2 :
  length (paragraphs (overview_page one two p1 p2)) =
  (if isAdr p1 || isAdr p2 then 4 else 3)%nat.
Proof.
  unfold overview_page, optional_paragraph. simpl paragraphs.
  destruct (String.eqb_spec (generateAdrCommentary one (isAdr p1) two (isAdr p2)) "")
    as [E|E].
  - apply generateAdrCommentary_empty in E as [-> ->]. reflexivity.
  - destruct (isAdr p1) eqn:E1, (isAdr p2) eqn:E2; try reflexivity.
    exfalso. apply E. now apply generateAdrCommentary_empty.
Qed.

(** ** The market-cap and beta commentaries *)

(** C6: for positive finite market caps [a] and [b], the market-cap
    sentence calls stock one "notably larger" exactly when [a] exceeds
    1.5 times [b], says stock two "stands out" exactly when [a] is below
    0.67 times [b], and is the "comparable" sentence exactly when
    [0.67 * b <= a <= 1.5 * b]. *)
Theorem marketcap_commentary_branch one c1 two c2 (a b : Q) :
  0 < a -> 0 < b ->
  let s := generateMarketCapComparisonCommentary one (Fin a) c1 two (Fin b) c2 in
  (starts_with "For market capitalization, " s = true <-> (3 # 2) * b < a) /\
  (starts_with "In terms of market cap, " s = true <-> a < q_0_67 * b) /\
  (starts_with "Both " s = true <-> q_0_67 * b <= a /\ a <= (3 # 2) * b).
Proof.
  intros Ha Hb s. subst s. unfold generateMarketCapComparisonCommentary.
  destruct (ratio_tests a b (3 # 2) q_0_67 Hb) as [E1 E2].
  unfold lit_1_5, lit_0_67. rewrite E1, E2.
  qcases; unfold q_0_67 in *; (split; [|split]); split; intros Hs;
    first [reflexivity | lra | (destruct Hs; lra) | (cbn in Hs; discriminate Hs)
          | (split; lra)].
Qed.

(** C26: in every branch the market-cap sentence quotes both market caps
    exactly as the "Market Cap" cells of the table print them. *)
Theorem marketcap_commentary_quotes_table one m1 c1 two m2 c2 :
  contains (billions m1 ++ " billion " ++ c1)
    (generateMarketCapComparisonCommentary one m1 c1 two m2 c2) = true /\
  contains (billions m2 ++ " billion " ++ c2)
    (generateMarketCapComparisonCommentary one m1 c1 two m2 c2) = true.
Proof.
  unfold generateMarketCapComparisonCommentary. cbv zeta.
  destruct (num_gt (num_div m1 m2) lit_1_5), (num_lt (num_div m1 m2) lit_0_67);
    split; contains_tac.
Qed.

(** C22: a market cap of zero for stock two is not guarded against: for any
    positive market cap of stock one the ratio is [Infinity], stock one
    is called notably larger, "roughly Infinity times" that of stock
    two. *)
Theorem marketcap_zero_denominator one c1 two c2 (a : Q) :
  0 < a ->
  contains (", roughly Infinity times that of " ++ two)
    (generateMarketCapComparisonCommentary one (Fin a) c1 two (Fin 0) c2) = true.
Proof.
  intros Ha. unfold generateMarketCapComparisonCommentary. cbv zeta.
  rewrite (num_div_zero_pos a 0) by (reflexivity || exact Ha).
  change (num_gt PosInf lit_1_5) with true. cbv iota.
  change (toFixed 2 PosInf) with "Infinity". contains_tac.
Qed.

(** C24: for positive betas, the sentence saying stock one "has a higher
    beta" is produced only when its beta is the larger one, and the
    sentence saying stock two "shows a higher beta" only when stock
    two's is. *)
Theorem beta_commentary_higher_positive one two (b1 b2 : Q) :
  0 < b1 -> 0 < b2 ->
  let s := generateBetaComparisonCommentary one (Fin b1) two (Fin b2) in
  (starts_with "Regarding volatility, " s = true -> b2 < b1) /\
  (starts_with "Looking at volatility, " s = true -> b1 < b2).
Proof.
  intros H1 H2 s. subst s. unfold generateBetaComparisonCommentary.
  destruct (ratio_tests b1 b2 (3 # 2) q_0_67 H2) as [E1 E2].
  unfold lit_1_5, lit_0_67. rewrite E1, E2. unfold q_0_67.
  qcases; split; intros Hs; try discriminate; lra.
Qed.

(** C29: the market cap printed in billions (the figure of the commentary
    and of the table) reads back, commas removed, as a decimal with two
    places within 0.005 of the market cap in billions. *)
Theorem billions_roundtrip (m : Q) :
  Qabs (m / 1000000000) < inject_Z (10 ^ 21) ->
  exists r, parse_fixed 2 (strip_commas (billions (Fin m))) = Some r /\
            Qabs (r - m / 1000000000) <= 1 # 200.
Proof.
  intros Hm. unfold billions, lit_1e9.
  rewrite num_div_Fin by discriminate.
  rewrite toLocaleString_en_toFixed_eq by exact Hm.
  exact (toFixed_roundtrip 2 _ Hm).
Qed.

(** The two tests of the if-chain on [a / b] for a negative [b]: the
    inequalities turn around. *)
Lemma ratio_tests_neg (a b u l : Q) :
  b < 0 ->
  num_gt (num_div (Fin a) (Fin b)) (Fin u) = Qltb a (u * b) /\
  num_lt (num_div (Fin a) (Fin b)) (Fin l) = Qltb (l * b) a.
Proof.
  intros Hb. rewrite num_div_Fin by (intros E; rewrite E in Hb; discriminate).
  assert (Hb' : 0 < - b) by lra.
  assert (E : a / b == (- a) / (- b)) by (field; intros E; rewrite E in Hb; discriminate).
  cbn [num_gt num_lt]. split; apply Qltb_iff_eq; rewrite E.
  - rewrite Qlt_div_iff_l by exact Hb'. lra.
  - rewrite Qlt_div_iff_r by exact Hb'. lra.
Qed.

Lemma starts_with_app3 (p t q r : string) : starts_with (p ++ t ++ q) (p ++ t ++ q ++ r) = true.
Proof. rewrite <- (string_append_assoc t q r), <- (string_append_assoc p (t ++ q) r). apply starts_with_append. Qed.

(** C36: with a negative beta for stock two the commentary misstates
    which beta is higher: against any positive beta of stock one it
    says that stock two "shows a higher beta", and when stock one's
    beta is below 1.5 times stock two's (so lower still) it says that
    stock one "has a higher beta". *)
Theorem beta_commentary_negative_beta one two (b1 b2 : Q) :
  b2 < 0 ->
  (0 < b1 -> starts_with ("Looking at volatility, " ++ two ++ " shows a higher beta of ")
               (generateBetaComparisonCommentary one (Fin b1) two (Fin b2)) = true) /\
  (b1 < (3 # 2) * b2 -> b1 < b2 /\
     starts_with ("Regarding volatility, " ++ one ++ " has a higher beta of ")
       (generateBetaComparisonCommentary one (Fin b1) two (Fin b2)) = true).
Proof.
  intros H2. unfold generateBetaComparisonCommentary.
  destruct (ratio_tests_neg b1 b2 (3 # 2) q_0_67 H2) as [E1 E2].
  unfold lit_1_5, lit_0_67. rewrite E1, E2. unfold q_0_67.
  split; [intros H1 | intros H1; split; [lra|]]; qcase; try lra;
    first [apply starts_with_app3 | qcase; [apply starts_with_app3 | lra]].
Qed.

(** C37: the market-cap commentary depends on the order of the two
    stocks: whenever stock one's cap [a] and stock two's cap [b] satisfy
    [b <= 1.5 * a] and [a < 0.67 * b] (a band of ratios [a / b] in
    [[2/3, 0.67)]), the sentence says that stock two "stands out", and
    for the same stocks in the other order it calls them comparable. *)
Theorem marketcap_commentary_order_dependent one c1 two c2 (a b : Q) :
  0 < a -> 0 < b -> b <= (3 # 2) * a -> a < q_0_67 * b ->
  starts_with "In terms of market cap, "
    (generateMarketCapComparisonCommentary one (Fin a) c1 two (Fin b) c2) = true /\
  starts_with "Both "
    (generateMarketCapComparisonCommentary two (Fin b) c2 one (Fin a) c1) = true.
Proof.
  intros Ha Hb H1 H2. unfold generateMarketCapComparisonCommentary.
  destruct (ratio_tests a b (3 # 2) q_0_67 Hb) as [E1 E2].
  destruct (ratio_tests b a (3 # 2) q_0_67 Ha) as [F1 F2].
  unfold lit_1_5, lit_0_67. rewrite E1, E2, F1, F2. unfold q_0_67 in *.
  split; repeat qcase; first [reflexivity | lra].
Qed.

End CompanyOverviewProofs.

(** ** Concrete runs

    The runtime for these runs prints numbers with [decimal_runtime] and
    IPO dates as given. *)

Definition date_as_given : DateToLocale := fun s => s.
#[local] Existing Instance decimal_runtime.
#[local] Existing Instance date_as_given.

(** Market caps of 3 and 1 billion: stock one is "notably larger". *)
(** Caps of 3 and 1 billion give the "notably larger" sentence. *)
Lemma marketcap_commentary_branch_witness :
  starts_with "For market capitalization, "
    (generateMarketCapComparisonCommentary "AAA" (Fin 3000000000) "USD"
       "BBB" (Fin 1000000000) "USD") = true.
Proof.
  apply (proj2 (proj1 (marketcap_commentary_branch "AAA" "USD" "BBB" "USD" 3000000000 1000000000
                  ltac:(vm_compute; reflexivity) ltac:(vm_compute; reflexivity)))).
  vm_compute. reflexivity.
Defined.

Lemma marketcap_zero_denominator_witness :
  contains (", roughly Infinity times that of " ++ "BBB")
    (generateMarketCapComparisonCommentary "AAA" (Fin 3000000000) "USD" "BBB" (Fin 0) "USD")
  = true.
Proof.
  apply (marketcap_zero_denominator "AAA" "USD" "BBB" "USD" 3000000000).
  vm_compute. reflexivity.
Defined.

Lemma beta_commentary_higher_positive_witness : 1 < 2.
Proof.
  apply (proj1 (beta_commentary_higher_positive "AAA" "BBB" 2 1
                  ltac:(vm_compute; reflexivity) ltac:(vm_compute; reflexivity))).
  vm_compute. reflexivity.
Defined.

Lemma billions_roundtrip_witness :
  exists r, parse_fixed 2 (strip_commas (billions (Fin 1234567890123))) = Some r /\
            Qabs (r - 1234567890123 / 1000000000) <= 1 # 200.
Proof. apply billions_roundtrip. vm_compute. reflexivity. Defined.

Lemma beta_commentary_negative_beta_witness :
  starts_with ("Looking at volatility, " ++ "BBB" ++ " shows a higher beta of ")
    (generateBetaComparisonCommentary "AAA" (Fin 1) "BBB" (Fin (-1 # 2))) = true /\
  starts_with ("Regarding volatility, " ++ "AAA" ++ " has a higher beta of ")
    (generateBetaComparisonCommentary "AAA" (Fin (-1)) "BBB" (Fin (-1 # 2))) = true.
Proof.
  split.
  - apply (proj1 (beta_commentary_negative_beta "AAA" "BBB" 1 (-1 # 2)
                    ltac:(vm_compute; reflexivity))). vm_compute. reflexivity.
  - apply (proj2 (proj2 (beta_commentary_negative_beta "AAA" "BBB" (-1) (-1 # 2)
                    ltac:(vm_compute; reflexivity)) ltac:(vm_compute; reflexivity))).
Defined.

(** Caps of 669 and 1000 billion lie in the band. *)
Lemma marketcap_commentary_order_dependent_witness :
  starts_with "In terms of market cap, "
    (generateMarketCapComparisonCommentary "AAA" (Fin 669000000000) "USD"
       "BBB" (Fin 1000000000000) "USD") = true /\
  starts_with "Both "
    (generateMarketCapComparisonCommentary "BBB" (Fin 1000000000000) "USD"
       "AAA" (Fin 669000000000) "USD") = true.
Proof.
  apply marketcap_commentary_order_dependent; vm_compute; first [reflexivity | discriminate].
Defined.
