(* ===== verification/DividendComparison.v ===== *)
(** * The dividend comparison section (Chinese stock comparison page)

    Models src/app/zh/stock-comparisons/[slug]/components/DividendComparisonSection.tsx:
    - [RatiosTTM], the two fields the helper reads from a row of the
      ratios-ttm endpoint, and [DividendData], the record it builds;
    - [fetchDividendData]: [null] for a [null] body or an empty array,
      the first row's symbol and yield otherwise, and [null] after a
      logged error when the body is another object ([rawData[0]] is
      undefined and reading [.symbol] of it throws) or the fetch fails;
    - [generateDividendYieldCommentary], with its local
      [getDividendYieldCategory] ([yield <= 0] is "None"), the four
      category combinations, and in the "Has"/"Has" case the relative
      gap [(max - min) / min] against the threshold 0.5;
    - [DividendComparisonSection], which fetches both rows one after the
      other and renders the unavailable message or the commentary and a
      one-row table of [(yield * 100).toFixed(2)]%.

    The sentence templates are the Chinese text of the source, kept as
    UTF-8 byte strings. *)

From Stdlib Require Import String List QArith Qround Qabs Qminmax Lqa Bool Setoid Morphisms.
From S2P Require Import Prelude JsNumber NumberFormat RatioClassifier Markup Fetch.
Import ListNotations.
Local Open Scope string_scope.
Local Open Scope io_scope.

Record RatiosTTM : Type := {
  ratios_symbol : string;
  ratios_dividendYieldTTM : number
}.

Record DividendData : Type := {
  symbol : string;
  dividendYieldTTM : number
}.

Inductive DividendYieldCategory : Type :=
| CategoryNone
| CategoryHas.

Definition category_eqb (x y : DividendYieldCategory) : bool :=
  match x, y with
  | CategoryNone, CategoryNone | CategoryHas, CategoryHas => true
  | _, _ => false
  end.

Section Dividend.

Context `{NumberToString}.

Definition dividend_endpoint (apiKey : option string) (sym : string) : string :=
  "https://financialmodelingprep.com/stable/ratios-ttm?symbol=" ++ sym ++
  "&apikey=" ++ template_value apiKey.

Definition fetchDividendData (apiKey : option string)
    (server : string -> response RatiosTTM) (sym : string) : io (option DividendData) :=
  dividendRawData <- fetch_json server (dividend_endpoint apiKey sym) ;;
  match dividendRawData with
  | RespNull | RespArray [] => ret None
  | RespArray (dividendData :: _) =>
      ret (Some {| symbol := ratios_symbol dividendData;
                   dividendYieldTTM := ratios_dividendYieldTTM dividendData |})
  | RespObject | RespFailure =>
      console_error "Error fetching dividend data for" sym ;; ret None
  end.

(** [DIVIDEND_YIELD_THRESHOLD_NONE] and
    [DIVIDEND_THRESHOLD_SIGNIFICANT_RELATIVE_GAP] *)
Definition DIVIDEND_YIELD_THRESHOLD_NONE : number := Fin 0.
Definition DIVIDEND_THRESHOLD_SIGNIFICANT_RELATIVE_GAP : number := lit_0_5.

Definition getDividendYieldCategory (dividendYield : number) : DividendYieldCategory :=
  if num_le dividendYield DIVIDEND_YIELD_THRESHOLD_NONE then CategoryNone else CategoryHas.

(** [baseCommentary] of the "Has"/"Has" case. *)
Definition dividend_base (stockOneSymbol : string) (stockOneDividendYield : number)
    (stockTwoSymbol : string) (stockTwoDividendYield : number) : string :=
  stockOneSymbol ++ " 的股息率为 " ++ toFixed 2 stockOneDividendYield ++ "%，" ++
  stockTwoSymbol ++ " 为 " ++ toFixed 2 stockTwoDividendYield ++
  "%，两者均在股东回报与公司发展之间取得平衡。".

Definition generateDividendYieldCommentary
    (stockOneSymbol : string) (stockOneDividendYield : number)
    (stockTwoSymbol : string) (stockTwoDividendYield : number) : string :=
  let stockOneCategory := getDividendYieldCategory stockOneDividendYield in
  let stockTwoCategory := getDividendYieldCategory stockTwoDividendYield in
  if category_eqb stockOneCategory CategoryNone && category_eqb stockTwoCategory CategoryNone then
    stockOneSymbol ++ " 和 " ++ stockTwoSymbol ++
    " 均不支付股息，利润主要用于再投资，可能优先考虑业务扩展或长期增长而非短期股东回报。"
  else if category_eqb stockOneCategory CategoryNone && category_eqb stockTwoCategory CategoryHas then
    stockOneSymbol ++
    " 不支付股息，利润更多用于支持公司发展，适合追求资本增值的投资者。而 " ++
    stockTwoSymbol ++ " 的股息率为 " ++ toFixed 2 stockTwoDividendYield ++
    "%，通过分红直接回报股东，反映出较稳定的盈利能力，两者策略形成对比。"
  else if category_eqb stockOneCategory CategoryHas && category_eqb stockTwoCategory CategoryNone then
    stockOneSymbol ++ " 的股息率为 " ++ toFixed 2 stockOneDividendYield ++
    "%，在回报股东的同时兼顾增长；而 " ++ stockTwoSymbol ++
    " 不支付股息，利润主要投入未来发展，如业务扩展或研发，体现出不同的经营策略。"
  else if category_eqb stockOneCategory CategoryHas && category_eqb stockTwoCategory CategoryHas then
    let baseCommentary :=
      dividend_base stockOneSymbol stockOneDividendYield stockTwoSymbol stockTwoDividendYield in
    let higherYield := math_max stockOneDividendYield stockTwoDividendYield in
    let lowerYield := math_min stockOneDividendYield stockTwoDividendYield in
    let relativeDifference := num_div (num_sub higherYield lowerYield) lowerYield in
    let percentageDifference := toFixed 0 (num_mul relativeDifference lit_100) in
    if num_gt relativeDifference DIVIDEND_THRESHOLD_SIGNIFICANT_RELATIVE_GAP then
      let higherStock :=
        if num_gt stockOneDividendYield stockTwoDividendYield
        then stockOneSymbol else stockTwoSymbol in
      let lowerStock :=
        if num_gt stockOneDividendYield stockTwoDividendYield
        then stockTwoSymbol else stockOneSymbol in
      let higherYieldValue := toFixed 2 higherYield in
      baseCommentary ++ " 其中，" ++ higherStock ++ " 的股息率达 " ++ higherYieldValue ++
      "%，高出 " ++ lowerStock ++ " 约 " ++ percentageDifference ++
      "%，显示其更倾向于回报股东，而 " ++ lowerStock ++ " 则更多保留利润用于发展。"
    else
      baseCommentary ++ " 两者的股息率差距较小，显示出相似的分红与增长策略。"
  else "".

Definition dividend_unavailable : node :=
  Section "dividend-comparison"
    [H2 "dividend-comparison" "股息比较"; P "暂时无法加载股息数据。"].

(** [{(dividendYieldTTM * 100).toFixed(2)}%] *)
Definition yield_cell (dividendYieldTTM : number) : string :=
  toFixed 2 (num_mul dividendYieldTTM lit_100) ++ "%".

Definition dividend_page (stockOneSymbol stockTwoSymbol : string)
    (one two : DividendData) : node :=
  Section "dividend-comparison"
    [H2 "dividend-comparison" "股息比较";
     P (generateDividendYieldCommentary stockOneSymbol (dividendYieldTTM one)
          stockTwoSymbol (dividendYieldTTM two));
     Table "代码" [stockOneSymbol; stockTwoSymbol]
       [("股息率 (TTM)", [yield_cell (dividendYieldTTM one); yield_cell (dividendYieldTTM two)])]].

Definition DividendComparisonSection (apiKey : option string)
    (server : string -> response RatiosTTM) (stockOneSymbol stockTwoSymbol : string)
  : io node :=
  stockOneDividendData <- fetchDividendData apiKey server stockOneSymbol ;;
  stockTwoDividendData <- fetchDividendData apiKey server stockTwoSymbol ;;
  match stockOneDividendData, stockTwoDividendData with
  | Some one, Some two => ret (dividend_page stockOneSymbol stockTwoSymbol one two)
  | _, _ => ret dividend_unavailable
  end.

End Dividend.

Section DividendProofs.

Context `{NumberToString}.

Definition dividend_of (r : response RatiosTTM) : option DividendData :=
  match r with
  | RespArray (d :: _) =>
      Some {| symbol := ratios_symbol d; dividendYieldTTM := ratios_dividendYieldTTM d |}
  | _ => None
  end.

Definition dividend_fetch_errors (sym : string) (r : response RatiosTTM)
  : list (string * string) :=
  match r with
  | RespObject | RespFailure => [("Error fetching dividend data for", sym)]
  | _ => []
  end.

Lemma fetchDividendData_run apiKey server sym st :
  fetchDividendData apiKey server sym st =
  (dividend_of (server (dividend_endpoint apiKey sym)),
   {| requests := requests st ++ [dividend_endpoint apiKey sym];
      console_errors := console_errors st ++
        dividend_fetch_errors sym (server (dividend_endpoint apiKey sym)) |}).
Proof.
  unfold fetchDividendData, bind, fetch_json.
  destruct (server (dividend_endpoint apiKey sym)) as [[|d rest]| | |];
    simpl; rewrite ?app_nil_r; reflexivity.
Qed.

(** C2: the dividend section requests the ratios of stock one and then
    of stock two, logs an error for each response that is a non-array
    object or a failure, and renders the commentary and the table when
    both responses carry a row, the unavailable message otherwise. *)
Theorem DividendComparisonSection_spec apiKey server one two st :
  DividendComparisonSection apiKey server one two st =
  (match dividend_of (server (dividend_endpoint apiKey one)),
         dividend_of (server (dividend_endpoint apiKey two)) with
   | Some d1, Some d2 => dividend_page one two d1 d2
   | _, _ => dividend_unavailable
   end,
   {| requests := requests st ++ [dividend_endpoint apiKey one; dividend_endpoint apiKey two];
      console_errors := console_errors st ++
        dividend_fetch_errors one (server (dividend_endpoint apiKey one)) ++
        dividend_fetch_errors two (server (dividend_endpoint apiKey two)) |}).
Proof.
  unfold DividendComparisonSection. unfold bind at 1.
  rewrite fetchDividendData_run. unfold bind.
  rewrite fetchDividendData_run. simpl. rewrite <- !app_assoc.
  destruct (dividend_of (server (dividend_endpoint apiKey one))),
           (dividend_of (server (dividend_endpoint apiKey two))); reflexivity.
Qed.

(** C7: a yield is in the "None" category exactly when it is at most
    zero (so zero and negative yields are "None"); a NaN yield, for
    which [NaN <= 0] is false, is in the "Has" category. *)
Theorem getDividendYieldCategory_spec (y : Q) :
  (getDividendYieldCategory (Fin y) = CategoryNone <-> y <= 0) /\
  getDividendYieldCategory NaN = CategoryHas.
Proof.
  split; [|reflexivity]. unfold getDividendYieldCategory, num_le. simpl.
  destruct (Qltb_reflect 0 y); simpl; split; intros E; try discriminate; try reflexivity; lra.
Qed.

(** C8: the commentary is never empty: the four category combinations
    are all handled, and the final [return ""] is unreachable, for every
    pair of yields, NaN and infinities included. *)
Theorem generateDividendYieldCommentary_nonempty one y1 two y2 :
  generateDividendYieldCommentary one y1 two y2 <> "".
Proof.
  unfold generateDividendYieldCommentary. cbv zeta.
  destruct (getDividendYieldCategory y1), (getDividendYieldCategory y2); cbn [category_eqb andb];
    [..|destruct (num_gt _ DIVIDEND_THRESHOLD_SIGNIFICANT_RELATIVE_GAP)];
    apply append_nonempty_r; discriminate.
Qed.

Lemma category_Fin_pos (y : Q) : 0 < y -> getDividendYieldCategory (Fin y) = CategoryHas.
Proof.
  intros Hy. unfold getDividendYieldCategory, num_le. simpl.
  destruct (Qltb_reflect 0 y); [reflexivity | lra].
Qed.

(** [(hi - lo) / lo > 0.5] for a positive [lo], without division. *)
Lemma relative_gap_test (hi lo : Q) :
  0 < lo ->
  num_gt (num_div (num_sub (Fin hi) (Fin lo)) (Fin lo)) DIVIDEND_THRESHOLD_SIGNIFICANT_RELATIVE_GAP
  = Qltb ((3 # 2) * lo) hi.
Proof.
  intros Hlo. unfold num_sub. simpl num_add.
  rewrite num_div_Fin by (intros E; rewrite E in Hlo; discriminate).
  apply Qltb_iff_eq. rewrite Qlt_div_iff_l by exact Hlo. split; intros; lra.
Qed.

(** The "Has"/"Has" commentary for positive finite yields, with the
    larger and smaller yields resolved. *)
Lemma commentary_has_has one two (y1 y2 : Q) :
  0 < y1 -> 0 < y2 ->
  generateDividendYieldCommentary one (Fin y1) two (Fin y2) =
  let hi := if Qltb y1 y2 then y2 else y1 in
  let lo := if Qltb y2 y1 then y2 else y1 in
  if Qltb ((3 # 2) * lo) hi then
    dividend_base one (Fin y1) two (Fin y2) ++ " 其中，" ++
    (if Qltb y2 y1 then one else two) ++ " 的股息率达 " ++ toFixed 2 (Fin hi) ++
    "%，高出 " ++ (if Qltb y2 y1 then two else one) ++ " 约 " ++
    toFixed 0 (num_mul (num_div (num_sub (Fin hi) (Fin lo)) (Fin lo)) lit_100) ++
    "%，显示其更倾向于回报股东，而 " ++ (if Qltb y2 y1 then two else one) ++
    " 则更多保留利润用于发展。"
  else dividend_base one (Fin y1) two (Fin y2) ++ " 两者的股息率差距较小，显示出相似的分红与增长策略。".
Proof.
  intros H1 H2. unfold generateDividendYieldCommentary. cbv zeta.
  rewrite !category_Fin_pos by assumption. cbn [category_eqb andb].
  rewrite math_max_Fin, math_min_Fin.
  assert (Hlo : 0 < (if Qltb y2 y1 then y2 else y1)) by (destruct (Qltb y2 y1); assumption).
  rewrite (relative_gap_test _ _ Hlo). reflexivity.
Qed.

(** C9: for positive finite yields, the commentary goes on from the
    common sentence to the "其中，" sentence that calls out a markedly
    higher yield exactly when one yield is more than 1.5 times the other
    (a relative gap above 0.5; a gap of exactly 0.5 is not called out). *)
Theorem dividend_gap_callout_iff one two (y1 y2 : Q) :
  0 < y1 -> 0 < y2 ->
  starts_with (dividend_base one (Fin y1) two (Fin y2) ++ " 其中，")
    (generateDividendYieldCommentary one (Fin y1) two (Fin y2)) = true <->
  (3 # 2) * y2 < y1 \/ (3 # 2) * y1 < y2.
Proof.
  intros H1 H2. rewrite commentary_has_has by assumption. cbv zeta.
  destruct (Qltb_reflect y1 y2), (Qltb_reflect y2 y1); qcases;
    autorewrite with js; rewrite starts_with_app_cancel;
    split; intros Hs; try (left; lra); try (right; lra);
    try (apply starts_with_append); try (exfalso; lra);
    vm_compute in Hs; discriminate.
Qed.

Lemma percent_text (hi lo : Q) :
  0 < lo ->
  toFixed 0 (num_mul (num_div (num_sub (Fin hi) (Fin lo)) (Fin lo)) lit_100) =
  toFixed 0 (Fin ((hi - lo) / lo * 100)).
Proof.
  intros Hlo. unfold num_sub. simpl num_add.
  rewrite num_div_Fin by (intros E; rewrite E in Hlo; discriminate). reflexivity.
Qed.

(** C25: when one yield is more than 1.5 times the other, the callout
    names the stock with the higher yield, quotes that yield, names the
    other stock, and gives the relative difference
    [100 * (higher - lower) / lower] rounded to a whole percent. *)
Theorem dividend_callout_names_higher one two (y1 y2 : Q) :
  0 < y1 -> 0 < y2 ->
  ((3 # 2) * y2 < y1 ->
   contains (" 其中，" ++ one ++ " 的股息率达 " ++ toFixed 2 (Fin y1) ++ "%，高出 " ++ two ++
             " 约 " ++ toFixed 0 (Fin ((y1 - y2) / y2 * 100)) ++ "%")
     (generateDividendYieldCommentary one (Fin y1) two (Fin y2)) = true) /\
  ((3 # 2) * y1 < y2 ->
   contains (" 其中，" ++ two ++ " 的股息率达 " ++ toFixed 2 (Fin y2) ++ "%，高出 " ++ one ++
             " 约 " ++ toFixed 0 (Fin ((y2 - y1) / y1 * 100)) ++ "%")
     (generateDividendYieldCommentary one (Fin y1) two (Fin y2)) = true).
Proof.
  intros H1 H2. rewrite commentary_has_has by assumption. cbv zeta.
  split; intros Hgt.
  - destruct (Qltb_reflect y1 y2); [lra|]. destruct (Qltb_reflect y2 y1); [|lra].
    destruct (Qltb_reflect ((3 # 2) * y2) y1); [|lra].
    rewrite percent_text by exact H2. contains_tac.
  - destruct (Qltb_reflect y1 y2); [|lra]. destruct (Qltb_reflect y2 y1); [lra|].
    destruct (Qltb_reflect ((3 # 2) * y1) y2); [|lra].
    rewrite percent_text by exact H1. contains_tac.
Qed.

(** C23: the commentary prints the API's yield, a fraction, followed by a
    percent sign without scaling it by 100, while the table scales it:
    every stock with a positive yield below 0.005 (0.5%) is said to have
    a dividend yield of "0.00%" although it is in the "Has" category. *)
Theorem dividend_commentary_unscaled_yield one two (y1 y2 : Q) :
  0 < y1 -> y1 < 1 # 200 -> 0 < y2 ->
  contains (one ++ " 的股息率为 0.00%")
    (generateDividendYieldCommentary one (Fin y1) two (Fin y2)) = true.
Proof.
  intros H1 H1' H2. rewrite commentary_has_has by assumption. cbv zeta.
  unfold dividend_base. rewrite (toFixed_2_small y1) by lra.
  destruct (Qltb ((3 # 2) * _) _); contains_tac.
Qed.

(** C30: the table cell of a finite yield is a decimal with exactly two
    places followed by "%", which reads back to the yield times 100
    within 0.005. *)
Theorem yield_cell_roundtrip (y : Q) :
  Qabs (y * 100) < inject_Z (10 ^ 21) ->
  exists t r, yield_cell (Fin y) = t ++ "%" /\ parse_fixed 2 t = Some r /\
              Qabs (r - y * 100) <= 1 # 200.
Proof.
  intros Hy. destruct (toFixed_roundtrip 2 (y * 100) Hy) as (r & Hp & Hr).
  exists (toFixed 2 (Fin (y * 100))), r. repeat split; assumption.
Qed.

End DividendProofs.

(** ** Concrete runs *)

#[local] Existing Instance decimal_runtime.

(** Yields 1.51 and 1.00 (a relative gap of 0.51) are called out. *)
Lemma dividend_gap_callout_iff_witness :
  starts_with (dividend_base "AAA" (Fin (151 # 100)) "BBB" (Fin 1) ++ " 其中，")
    (generateDividendYieldCommentary "AAA" (Fin (151 # 100)) "BBB" (Fin 1)) = true.
Proof.
  apply (proj2 (dividend_gap_callout_iff "AAA" "BBB" (151 # 100) 1
                  ltac:(vm_compute; reflexivity) ltac:(vm_compute; reflexivity))).
  left. vm_compute. reflexivity.
Defined.

(** Yields 3.0 and 1.0: stock one is called higher by about 200%. *)
Lemma dividend_callout_names_higher_witness :
  contains (" 其中，" ++ "AAA" ++ " 的股息率达 " ++ toFixed 2 (Fin 3) ++ "%，高出 " ++ "BBB" ++
            " 约 " ++ toFixed 0 (Fin ((3 - 1) / 1 * 100)) ++ "%")
    (generateDividendYieldCommentary "AAA" (Fin 3) "BBB" (Fin 1)) = true.
Proof.
  apply (proj1 (dividend_callout_names_higher "AAA" "BBB" 3 1
                  ltac:(vm_compute; reflexivity) ltac:(vm_compute; reflexivity))).
  vm_compute. reflexivity.
Defined.

(** A yield of 0.0044 (0.44%, printed "0.44%" in the table) is described
    as "0.00%". *)
Lemma dividend_commentary_unscaled_yield_witness :
  contains ("AAA" ++ " 的股息率为 0.00%")
    (generateDividendYieldCommentary "AAA" (Fin (44 # 10000)) "BBB" (Fin (1 # 100))) = true
  /\ yield_cell (Fin (44 # 10000)) = "0.44%".
Proof.
  split.
  - apply (dividend_commentary_unscaled_yield "AAA" "BBB" (44 # 10000) (1 # 100));
      vm_compute; reflexivity.
  - vm_compute. reflexivity.
Defined.

Lemma yield_cell_roundtrip_witness :
  exists t r, yield_cell (Fin (44 # 10000)) = t ++ "%" /\ parse_fixed 2 t = Some r /\
              Qabs (r - (44 # 10000) * 100) <= 1 # 200.
Proof. apply yield_cell_roundtrip. vm_compute. reflexivity. Defined.

(** The scenarios of the design's testable properties: yields of 0
    and 0 give the "neither pays dividends" sentence with no percentage;
    yields of 3.0 and 1.0 give the base sentence followed by the callout
    naming stock one as higher by about 200%. *)
Example dividend_design_scenarios :
  generateDividendYieldCommentary "AAA" (Fin 0) "BBB" (Fin 0) =
  "AAA 和 BBB 均不支付股息，利润主要用于再投资，可能优先考虑业务扩展或长期增长而非短期股东回报。" /\
  generateDividendYieldCommentary "AAA" (Fin 3) "BBB" (Fin 1) =
  "AAA 的股息率为 3.00%，BBB 为 1.00%，两者均在股东回报与公司发展之间取得平衡。 其中，AAA 的股息率达 3.00%，高出 BBB 约 200%，显示其更倾向于回报股东，而 BBB 则更多保留利润用于发展。".
Proof. split; vm_compute; reflexivity. Qed.
