(* ===== verification/FvifaCalculator.v ===== *)
(** * The FVIFA calculator

    Models src/app/en/calculators/[slug]/future-value-interest-factor-of-annuity-calculator/components/Calculator.tsx.
    The component keeps two text inputs in React state ([useState("6.4")]
    and [useState("10")]); each is written by two controls, a number input
    and a range input, whose [onChange] handlers store the control's text.
    Every render reads both texts with [parseFloat], validates each (blank,
    NaN, negative, in that order), and when both pass prints
    [((1 + r)^n - 1) / r] with [toFixed(4)], [n.toFixed(4)] when [r] is
    zero, [r] being the percent rate over 100.

    - [calculator_state], [initial_state], [calculator_event], [handle]
      and [run]: the state and the four [onChange] handlers.
    - [interestRateError], [numberOfPeriodsError], [errorMessages] and
      [fvifa]: the derived values of the render, lines 19-55.
    - [Calculator]: the rendered input values and cards, lines 57-145.

    The theorems show that exactly one card is shown, that the errors
    are exactly the NaN or negative readings, that the printed factor is
    the future value of an annuity of one per period, [sum (1 + r)^k] for
    [k < n], while [Math.pow] does not overflow, and "Infinity" once it
    does ([fvifa_overflow]), and that over the sliders' ranges
    ([slider_pow_bound]) it is that value to four places. *)

From Stdlib Require Import String Ascii List QArith Qround Qpower Qabs Lqa ZArith Lia Bool.
From S2P Require Import Prelude JsNumber NumberFormat JsParse.
Import ListNotations.
Local Open Scope string_scope.

(** ** State and handlers *)

Record calculator_state := {
  interestRateInput : string;
  numberOfPeriodsInput : string
}.

Definition initial_state : calculator_state :=
  {| interestRateInput := "6.4"; numberOfPeriodsInput := "10" |}.

(** The [onChange] events of the four controls, with [e.target.value]. *)
Inductive calculator_event :=
| InterestRateNumberChange (value : string)
| InterestRateRangeChange (value : string)
| NumberOfPeriodsNumberChange (value : string)
| NumberOfPeriodsRangeChange (value : string).

Definition setInterestRateInput (value : string) (st : calculator_state) : calculator_state :=
  {| interestRateInput := value; numberOfPeriodsInput := numberOfPeriodsInput st |}.

Definition setNumberOfPeriodsInput (value : string) (st : calculator_state) : calculator_state :=
  {| interestRateInput := interestRateInput st; numberOfPeriodsInput := value |}.

Definition handle (st : calculator_state) (ev : calculator_event) : calculator_state :=
  match ev with
  | InterestRateNumberChange v | InterestRateRangeChange v => setInterestRateInput v st
  | NumberOfPeriodsNumberChange v | NumberOfPeriodsRangeChange v => setNumberOfPeriodsInput v st
  end.

(** The state after a sequence of events, in the order they happen. *)
Definition run (st : calculator_state) (evs : list calculator_event) : calculator_state :=
  fold_left handle evs st.

(** ** Render *)

Inductive calculator_card :=
| OutputCard (output : string) (sentence : string)
| ErrorMessageCard (messages : list string).

(** The rendered page: each control's [id] with its [value], and the
    cards below the form. *)
Record calculator_view := {
  input_values : list (string * string);
  cards : list calculator_card
}.

Section Calculator.

Context `{NumberToString} `{PowRuntime}.

Definition interestRateError (st : calculator_state) : string :=
  let interestRatePercentValue := parseFloat (interestRateInput st) in
  if String.eqb (trim (interestRateInput st)) "" then "Please enter an interest rate."
  else if isNaN interestRatePercentValue then "Please enter a valid numeric interest rate."
  else if num_lt interestRatePercentValue (Fin 0) then "Interest rate must not be less than 0."
  else "".

Definition numberOfPeriodsError (st : calculator_state) : string :=
  let numberOfPeriodsValue := parseFloat (numberOfPeriodsInput st) in
  if String.eqb (trim (numberOfPeriodsInput st)) "" then "Please enter the number of periods."
  else if isNaN numberOfPeriodsValue then "Please enter a valid numeric number of periods."
  else if num_lt numberOfPeriodsValue (Fin 0) then "Number of periods must not be less than 0."
  else "".

(** [[...].filter(Boolean)]: the empty string is the only falsy string. *)
Definition errorMessages (st : calculator_state) : list string :=
  filter (fun m => negb (String.eqb m "")) [interestRateError st; numberOfPeriodsError st].

Definition fvifa (st : calculator_state) : string :=
  if Nat.eqb (length (errorMessages st)) 0 then
    let interestRatePercentValue := parseFloat (interestRateInput st) in
    let numberOfPeriodsValue := parseFloat (numberOfPeriodsInput st) in
    let interestRateDecimalValue := num_div interestRatePercentValue lit_100 in
    if num_eqb interestRateDecimalValue (Fin 0) then toFixed 4 numberOfPeriodsValue
    else toFixed 4 (num_div (num_sub (math_pow (num_add (Fin 1) interestRateDecimalValue)
                                                numberOfPeriodsValue) (Fin 1))
                            interestRateDecimalValue)
  else "".

Definition fvifa_sentence (st : calculator_state) : string :=
  "With an interest rate of " ++ number_text (parseFloat (interestRateInput st)) ++
  "% over " ++ number_text (parseFloat (numberOfPeriodsInput st)) ++
  " years, the FVIFA is " ++ fvifa st ++ ".".

Definition Calculator (st : calculator_state) : calculator_view :=
  {| input_values :=
       [("interest-rate-number-input", interestRateInput st);
        ("interest-rate-range-input", interestRateInput st);
        ("number-of-periods-number-input", numberOfPeriodsInput st);
        ("number-of-periods-range-input", numberOfPeriodsInput st)];
     cards :=
       (if negb (String.eqb (fvifa st) "") then [OutputCard (fvifa st) (fvifa_sentence st)]
        else []) ++
       (if Nat.ltb 0 (length (errorMessages st)) then [ErrorMessageCard (errorMessages st)]
        else []) |}.

End Calculator.

(** ** The reference value: the future value of an annuity of one *)

(** [sum (g ^ k)] for [k < n]: one paid at the end of each of [n]
    periods, grown by the factor [g] per period. *)
Fixpoint annuity_sum (g : Q) (n : nat) : Q :=
  match n with
  | O => 0
  | S k => annuity_sum g k + Qpower g (Z.of_nat k)
  end.

(** ** Lemmas on the annuity sum *)

Lemma Qpower_succ_nat (g : Q) (k : nat) :
  Qpower g (Z.of_nat (S k)) == Qpower g (Z.of_nat k) * g.
Proof. rewrite Nat2Z.inj_succ, <- Z.add_1_r, Qpower_plus' by lia. now rewrite Qpower_1_r. Qed.

Lemma annuity_sum_mul (g : Q) (n : nat) :
  annuity_sum g n * (g - 1) == Qpower g (Z.of_nat n) - 1.
Proof.
  induction n as [|k IH]; [simpl; ring|]. cbn [annuity_sum]. rewrite Qpower_succ_nat.
  setoid_replace ((annuity_sum g k + Qpower g (Z.of_nat k)) * (g - 1))
    with (annuity_sum g k * (g - 1) + Qpower g (Z.of_nat k) * (g - 1)) by ring.
  rewrite IH. ring.
Qed.

(** The closed form [((1 + r)^n - 1) / r] is the annuity sum. *)
Lemma closed_form_annuity (r : Q) (n : nat) :
  ~ r == 0 -> (Qpower (1 + r) (Z.of_nat n) - 1) / r == annuity_sum (1 + r) n.
Proof.
  intros Hr. rewrite <- annuity_sum_mul.
  setoid_replace (1 + r - 1) with r by ring. field. exact Hr.
Qed.

#[export] Instance annuity_sum_Proper : Proper (Qeq ==> eq ==> Qeq) annuity_sum.
Proof.
  intros g g' E n ? <-. induction n as [|k IH]; [reflexivity|]. cbn [annuity_sum].
  now rewrite IH, E.
Qed.

(** At a zero rate the factor is the number of periods. *)
Lemma annuity_sum_1 (n : nat) : annuity_sum 1 n == inject_Z (Z.of_nat n).
Proof.
  induction n as [|k IH]; [reflexivity|]. cbn [annuity_sum].
  rewrite IH, Qpower_1, Nat2Z.inj_succ, <- Z.add_1_r, inject_Z_plus. reflexivity.
Qed.

Lemma Qpower_nat_le_base (a b : Q) (k : nat) :
  0 <= a -> a <= b -> Qpower a (Z.of_nat k) <= Qpower b (Z.of_nat k).
Proof.
  intros Ha Hab. induction k as [|k IH]; [apply Qle_refl|].
  rewrite !Qpower_succ_nat. apply Qmult_le_compat_nonneg; split; try assumption.
  apply Qpower_0_le. exact Ha.
Qed.

(** The sum grows with the factor and with the number of periods. *)
Lemma annuity_sum_mono (g g' : Q) (n n' : nat) :
  0 <= g -> g <= g' -> (n <= n')%nat -> annuity_sum g n <= annuity_sum g' n'.
Proof.
  intros Hg Hgg' Hn. apply Qle_trans with (annuity_sum g' n).
  - induction n as [|k IH]; [apply Qle_refl|]. cbn [annuity_sum].
    apply Qplus_le_compat; [apply IH; lia | now apply Qpower_nat_le_base].
  - induction Hn as [|m _ IH]; [apply Qle_refl|]. cbn [annuity_sum].
    assert (0 <= Qpower g' (Z.of_nat m)) by (apply Qpower_0_le; lra). lra.
Qed.

(** Over the sliders' ranges [Math.pow] does not overflow. *)
Lemma slider_pow_bound (q : Q) (n : nat) :
  0 <= q -> q <= 50 -> (n <= 50)%nat ->
  Qpower (1 + q / 100) (Z.of_nat n) < overflow_threshold.
Proof.
  intros Hq0 Hq50 Hn.
  assert (Hr0 : 0 <= q / 100) by (apply Qle_shift_div_l; lra).
  assert (Hr1 : q / 100 <= 1 # 2) by (apply Qle_shift_div_r; lra).
  assert (H1 : Qpower (1 + q / 100) (Z.of_nat n) <= annuity_sum (1 + q / 100) (S n)).
  { cbn [annuity_sum].
    assert (0 <= annuity_sum (1 + q / 100) n) by (apply (annuity_sum_mono 0 _ 0 n); lra || lia).
    lra. }
  assert (H2 : annuity_sum (1 + q / 100) (S n) <= annuity_sum (3 # 2) 51)
    by (apply annuity_sum_mono; lra || lia).
  eapply Qle_lt_trans; [exact H1|]. eapply Qle_lt_trans; [exact H2|].
  vm_compute. reflexivity.
Qed.

(** ** The render *)

Section CalculatorProofs.

Context `{NumberToString} `{PowRuntime}.

(** The three checks on one input give no message exactly when the
    reading is neither NaN nor negative: a blank text reads as NaN, so
    the blank check only chooses the message. *)
Lemma validation_empty_iff (s m1 m2 m3 : string) :
  m1 <> "" -> m2 <> "" -> m3 <> "" ->
  (if String.eqb (trim s) "" then m1 else if isNaN (parseFloat s) then m2
   else if num_lt (parseFloat s) (Fin 0) then m3 else "") = ""
  <-> isNaN (parseFloat s) = false /\ num_lt (parseFloat s) (Fin 0) = false.
Proof.
  intros H1 H2 H3. destruct (String.eqb_spec (trim s) "") as [E|_].
  - rewrite (parseFloat_blank s E). split; [contradiction | intros [? _]; discriminate].
  - destruct (isNaN _); [split; [contradiction | intros [? _]; discriminate] |].
    destruct (num_lt _ _); [split; [contradiction | intros [_ ?]; discriminate] | tauto].
Qed.

Lemma interestRateError_empty_iff (st : calculator_state) :
  interestRateError st = "" <->
  isNaN (parseFloat (interestRateInput st)) = false /\
  num_lt (parseFloat (interestRateInput st)) (Fin 0) = false.
Proof. apply validation_empty_iff; discriminate. Qed.

Lemma numberOfPeriodsError_empty_iff (st : calculator_state) :
  numberOfPeriodsError st = "" <->
  isNaN (parseFloat (numberOfPeriodsInput st)) = false /\
  num_lt (parseFloat (numberOfPeriodsInput st)) (Fin 0) = false.
Proof. apply validation_empty_iff; discriminate. Qed.

Lemma errorMessages_nil (st : calculator_state) :
  errorMessages st = [] <-> interestRateError st = "" /\ numberOfPeriodsError st = "".
Proof.
  unfold errorMessages. cbn [filter].
  destruct (String.eqb_spec (interestRateError st) "") as [E1|E1],
    (String.eqb_spec (numberOfPeriodsError st) "") as [E2|E2]; cbn; intuition congruence.
Qed.

(** The factor is printed exactly when there is no error message. *)
Lemma fvifa_shown (st : calculator_state) : fvifa st <> "" <-> errorMessages st = [].
Proof.
  unfold fvifa. destruct (errorMessages st); cbn [length Nat.eqb].
  - split; [reflexivity | intros _]. destruct (num_eqb _ _); apply toFixed_nonempty.
  - split; [contradiction | discriminate].
Qed.

(** Valid readings, as the theorems state them. *)
Lemma errorMessages_Fin (st : calculator_state) (q p : Q) :
  parseFloat (interestRateInput st) = Fin q -> 0 <= q ->
  parseFloat (numberOfPeriodsInput st) = Fin p -> 0 <= p ->
  errorMessages st = [].
Proof.
  intros Hq Hq0 Hp Hp0. apply errorMessages_nil.
  rewrite interestRateError_empty_iff, numberOfPeriodsError_empty_iff, Hq, Hp.
  cbn [isNaN num_lt]. rewrite !Qltb_false. lra.
Qed.

(** The number [fvifa] formats, on valid finite readings. *)
Lemma fvifa_Fin (st : calculator_state) (q p : Q) :
  parseFloat (interestRateInput st) = Fin q -> 0 <= q ->
  parseFloat (numberOfPeriodsInput st) = Fin p -> 0 <= p ->
  fvifa st = if Qeq_bool (q / 100) 0 then toFixed 4 (Fin p)
             else toFixed 4 (num_div (num_sub (math_pow (Fin (1 + q / 100)) (Fin p)) (Fin 1))
                                     (Fin (q / 100))).
Proof.
  intros Hq Hq0 Hp Hp0. unfold fvifa.
  rewrite (errorMessages_Fin st q p Hq Hq0 Hp Hp0), Hq, Hp. cbn [length Nat.eqb].
  unfold lit_100. rewrite num_div_Fin by discriminate. reflexivity.
Qed.

(** A rate that reads as +Infinity passes the validation, and with a
    positive number of periods the factor is [(Infinity - 1) / Infinity],
    NaN. *)
Lemma errorMessages_PosInf_rate (st : calculator_state) (p : Q) :
  parseFloat (interestRateInput st) = PosInf ->
  parseFloat (numberOfPeriodsInput st) = Fin p -> 0 <= p ->
  errorMessages st = [].
Proof.
  intros Hq Hp Hp0. apply errorMessages_nil.
  rewrite interestRateError_empty_iff, numberOfPeriodsError_empty_iff, Hq, Hp.
  cbn [isNaN num_lt]. rewrite Qltb_false. lra.
Qed.

Lemma fvifa_PosInf_rate (st : calculator_state) (p : Q) :
  parseFloat (interestRateInput st) = PosInf ->
  parseFloat (numberOfPeriodsInput st) = Fin p -> 0 < p ->
  fvifa st = "NaN".
Proof.
  intros Hq Hp Hp0. unfold fvifa.
  rewrite (errorMessages_PosInf_rate st p Hq Hp) by lra. rewrite Hq, Hp. cbn [length Nat.eqb].
  unfold math_pow. destruct (Qeq_bool_reflect p 0) as [E|_]; [lra|].
  destruct (Qltb_reflect 0 p) as [_|N]; [reflexivity | lra].
Qed.

(** Without error messages the calculator shows the output card only. *)
Lemma cards_no_error (st : calculator_state) :
  errorMessages st = [] -> cards (Calculator st) = [OutputCard (fvifa st) (fvifa_sentence st)].
Proof.
  intros E. unfold Calculator. cbn [cards]. rewrite E.
  destruct (String.eqb_spec (fvifa st) "") as [F|_]; [|reflexivity].
  exfalso. exact (proj2 (fvifa_shown st) E F).
Qed.

(** The first check of a validation decides its first message. *)
Lemma validation_blank (s m1 m2 m3 : string) :
  m1 <> m2 -> m1 <> m3 -> m1 <> "" ->
  (if String.eqb (trim s) "" then m1 else if isNaN (parseFloat s) then m2
   else if num_lt (parseFloat s) (Fin 0) then m3 else "") = m1
  <-> trim s = "".
Proof.
  intros H2 H3 Hm1. destruct (String.eqb_spec (trim s) "") as [E|E]; [tauto|].
  split; [|contradiction]. intros Hv.
  destruct (isNaN _); [congruence|]. destruct (num_lt _ _); congruence.
Qed.

Lemma fvifa_annuity_sum (st : calculator_state) (q : Q) (n : nat) :
  parseFloat (interestRateInput st) = Fin q -> 0 <= q ->
  parseFloat (numberOfPeriodsInput st) = Fin (inject_Z (Z.of_nat n)) ->
  Qpower (1 + q / 100) (Z.of_nat n) < overflow_threshold ->
  fvifa st = toFixed 4 (Fin (annuity_sum (1 + q / 100) n)).
Proof.
  intros Hq Hq0 Hn Hpow.
  rewrite (fvifa_Fin st q _ Hq Hq0 Hn) by (change 0 with (inject_Z 0); rewrite <- Zle_Qle; lia).
  assert (Hr : 0 <= q / 100) by (apply Qle_shift_div_l; lra).
  destruct (Qeq_bool_reflect (q / 100) 0) as [E|E].
  - apply toFixed_Proper. cbn. rewrite E, Qplus_0_r, annuity_sum_1. reflexivity.
  - unfold num_sub. cbn [num_neg].
    rewrite math_pow_Z by (intro; lra).
    assert (Hg : 0 <= 1 + q / 100) by lra.
    rewrite to_number_Fin by (rewrite Qabs_pos by (apply Qpower_0_le; exact Hg); exact Hpow).
    cbn [num_add]. rewrite num_div_Fin by exact E.
    apply toFixed_Proper. cbn. rewrite <- closed_form_annuity by exact E. reflexivity.
Qed.

(** When [Math.pow] overflows on a positive rate, the factor is
    [(Infinity - 1) / r], printed "Infinity". *)
Lemma fvifa_overflow (st : calculator_state) (q : Q) (n : nat) :
  parseFloat (interestRateInput st) = Fin q -> 0 < q ->
  parseFloat (numberOfPeriodsInput st) = Fin (inject_Z (Z.of_nat n)) ->
  overflow_threshold <= Qpower (1 + q / 100) (Z.of_nat n) ->
  fvifa st = "Infinity".
Proof.
  intros Hq Hq0 Hn Hpow.
  rewrite (fvifa_Fin st q _ Hq (Qlt_le_weak _ _ Hq0) Hn)
    by (change 0 with (inject_Z 0); rewrite <- Zle_Qle; lia).
  assert (Hr : 0 < q / 100) by (apply Qlt_shift_div_l; lra).
  destruct (Qeq_bool_reflect (q / 100) 0) as [E|E]; [lra|].
  unfold num_sub. cbn [num_neg].
  rewrite math_pow_Z by (intro; lra). rewrite to_number_PosInf by exact Hpow.
  cbn [num_add num_div]. destruct (Qltb_reflect (q / 100) 0); [lra | reflexivity].
Qed.

(** Over the sliders' ranges the factor is below [10^21]: its four-place
    text reads back within half a unit of the last place. *)
Lemma annuity_text_roundtrip (q : Q) (n : nat) :
  0 <= q -> q <= 50 -> (n <= 50)%nat ->
  exists r, parse_fixed 4 (toFixed 4 (Fin (annuity_sum (1 + q / 100) n))) = Some r /\
            Qabs (r - annuity_sum (1 + q / 100) n) <= (1 # 2) / inject_Z (pow10 4).
Proof.
  intros Hq0 Hq50 Hn50. apply toFixed_roundtrip.
  assert (Hr0 : 0 <= q / 100) by (apply Qle_shift_div_l; lra).
  assert (Hr1 : q / 100 <= 1 # 2) by (apply Qle_shift_div_r; lra).
  assert (Hlo : 0 <= annuity_sum (1 + q / 100) n)
    by (apply (annuity_sum_mono 0 _ 0 n); lra || lia).
  assert (Hhi : annuity_sum (1 + q / 100) n <= annuity_sum (3 # 2) 50)
    by (apply annuity_sum_mono; lra || lia).
  rewrite Qabs_pos by exact Hlo.
  eapply Qle_lt_trans; [exact Hhi | vm_compute; reflexivity].
Qed.

End CalculatorProofs.

(** ** Interleaving of the two fields' events *)

Definition is_interest_rate_event (ev : calculator_event) : bool :=
  match ev with
  | InterestRateNumberChange _ | InterestRateRangeChange _ => true
  | _ => false
  end.

Lemma handle_commute (st : calculator_state) (e1 e2 : calculator_event) :
  is_interest_rate_event e1 = true -> is_interest_rate_event e2 = false ->
  handle (handle st e1) e2 = handle (handle st e2) e1.
Proof. destruct e1, e2; try discriminate; reflexivity. Qed.

Lemma run_commute (st : calculator_state) (e : calculator_event) (evs : list calculator_event) :
  is_interest_rate_event e = false -> Forall (fun ev => is_interest_rate_event ev = true) evs ->
  run (handle st e) evs = handle (run st evs) e.
Proof.
  intros He Hevs. revert st. induction Hevs as [|ev evs Hev _ IH]; intros st; [reflexivity|].
  cbn [run fold_left]. rewrite <- handle_commute by assumption. apply IH.
Qed.

Lemma run_cons (st : calculator_state) (ev : calculator_event) (evs : list calculator_event) :
  run st (ev :: evs) = run (handle st ev) evs.
Proof. reflexivity. Qed.

Lemma run_app (st : calculator_state) (evs evs' : list calculator_event) :
  run st (evs ++ evs') = run (run st evs) evs'.
Proof. apply fold_left_app. Qed.

Lemma filter_interest_rate_events (evs : list calculator_event) :
  Forall (fun ev => is_interest_rate_event ev = true) (filter is_interest_rate_event evs).
Proof. apply Forall_forall. intros ev Hin. now apply filter_In in Hin. Qed.

(** ** Properties of the calculator *)

Section CalculatorClaims.

Context `{NumberToString} `{PowRuntime}.

(** C11: in every state the calculator shows exactly one card: the
    output card with the factor when there is no error message, and
    otherwise the error card with the messages, never both. *)
Theorem Calculator_one_card (st : calculator_state) :
  cards (Calculator st) =
  match errorMessages st with
  | [] => [OutputCard (fvifa st) (fvifa_sentence st)]
  | msgs => [ErrorMessageCard msgs]
  end.
Proof.
  destruct (errorMessages st) as [|m ms] eqn:Em; [now apply cards_no_error|].
  unfold Calculator. cbn [cards]. rewrite Em.
  destruct (String.eqb_spec (fvifa st) "") as [E|E]; [reflexivity|].
  apply fvifa_shown in E. congruence.
Qed.

(** C12: there is no error message exactly when both inputs read (by
    parseFloat) as numbers that are not NaN and not negative; the blank
    check changes only which message is shown. *)
Theorem errorMessages_nil_iff (st : calculator_state) :
  errorMessages st = [] <->
  (isNaN (parseFloat (interestRateInput st)) = false /\
   num_lt (parseFloat (interestRateInput st)) (Fin 0) = false) /\
  (isNaN (parseFloat (numberOfPeriodsInput st)) = false /\
   num_lt (parseFloat (numberOfPeriodsInput st)) (Fin 0) = false).
Proof.
  rewrite errorMessages_nil, interestRateError_empty_iff, numberOfPeriodsError_empty_iff.
  reflexivity.
Qed.

(** C10: when the rate reads as a finite [q >= 0] percent and the number
    of periods as a natural number [n]: if [Math.pow(1 + q/100, n)] and
    the annuity sum [sum (1 + q/100)^k], [k < n], both stay below the
    binary64 overflow threshold, the calculator prints that sum to four
    places (the closed form on a nonzero rate and [n.toFixed(4)] on a
    zero rate agree with it); if on a positive rate [Math.pow]
    overflows (50 percent over 1800 periods), it prints "Infinity". *)
Theorem fvifa_annuity (st : calculator_state) (q : Q) (n : nat) :
  parseFloat (interestRateInput st) = Fin q -> 0 <= q ->
  parseFloat (numberOfPeriodsInput st) = Fin (inject_Z (Z.of_nat n)) ->
  (Qpower (1 + q / 100) (Z.of_nat n) < overflow_threshold ->
   annuity_sum (1 + q / 100) n < overflow_threshold ->
   fvifa st = toFixed 4 (Fin (annuity_sum (1 + q / 100) n))) /\
  (0 < q -> overflow_threshold <= Qpower (1 + q / 100) (Z.of_nat n) ->
   fvifa st = "Infinity").
Proof.
  intros Hq Hq0 Hn. split.
  - intros Hpow _. exact (fvifa_annuity_sum st q n Hq Hq0 Hn Hpow).
  - intros Hpos Hpow. exact (fvifa_overflow st q n Hq Hpos Hn Hpow).
Qed.

(** C28: over the sliders' ranges (a rate of 0 to 50 percent, at most
    50 periods) the factor stays below 10^21, so the printed text is
    its decimal rounding: read back with four places it is within half
    a unit of the fourth place of the annuity sum. *)
Theorem fvifa_slider_range (st : calculator_state) (q : Q) (n : nat) :
  parseFloat (interestRateInput st) = Fin q -> 0 <= q <= 50 ->
  parseFloat (numberOfPeriodsInput st) = Fin (inject_Z (Z.of_nat n)) -> (n <= 50)%nat ->
  exists r, parse_fixed 4 (fvifa st) = Some r /\
            Qabs (r - annuity_sum (1 + q / 100) n) <= (1 # 2) / inject_Z (pow10 4).
Proof.
  intros Hq [Hq0 Hq50] Hn Hn50.
  rewrite (fvifa_annuity_sum st q n Hq Hq0 Hn (slider_pow_bound q n Hq0 Hq50 Hn50)).
  now apply annuity_text_roundtrip.
Qed.

(** C17: the blank message of a field is shown exactly when the field's
    text is made of whitespace code points only (spaces, tabs, line
    terminators, no-break and other Unicode spaces), the empty text
    included. *)
Theorem validation_blank_iff (st : calculator_state) :
  (interestRateError st = "Please enter an interest rate." <->
     whitespace_only (list_ascii_of_string (interestRateInput st))) /\
  (numberOfPeriodsError st = "Please enter the number of periods." <->
     whitespace_only (list_ascii_of_string (numberOfPeriodsInput st))).
Proof.
  split; rewrite <- trim_empty_whitespace; apply validation_blank; discriminate.
Qed.

End CalculatorClaims.

(** C33: events of the two fields commute with each other: the state
    after any sequence of events is the state after the sequence's
    interest-rate events followed by its number-of-periods events, so
    only the order of events within a field matters. *)
Theorem run_interleaving (st : calculator_state) (evs : list calculator_event) :
  run st evs =
  run st (filter is_interest_rate_event evs ++
          filter (fun ev => negb (is_interest_rate_event ev)) evs).
Proof.
  rewrite run_app. revert st. induction evs as [|ev evs IH]; intros st; [reflexivity|].
  cbn [filter]. rewrite run_cons. destruct (is_interest_rate_event ev) eqn:Hev; cbn [negb].
  - rewrite run_cons. apply IH.
  - rewrite IH, (run_cons (run st _)), run_commute
      by (exact Hev || apply filter_interest_rate_events).
    reflexivity.
Qed.

(** ** Concrete runs *)

#[local] Existing Instance decimal_runtime.
#[local] Existing Instance integer_examples_pow.

(** The initial inputs, 6.4 percent over 10 periods, print the sum;
    50 percent over 1800 periods overflows. *)
Lemma fvifa_annuity_witness :
  fvifa initial_state = toFixed 4 (Fin (annuity_sum (1 + (64 # 10) / 100) 10)) /\
  fvifa {| interestRateInput := "50"; numberOfPeriodsInput := "1800" |} = "Infinity".
Proof.
  split.
  - apply (proj1 (fvifa_annuity initial_state (64 # 10) 10
                    ltac:(vm_compute; reflexivity) ltac:(discriminate)
                    ltac:(vm_compute; reflexivity)));
      vm_compute; first [reflexivity | discriminate].
  - apply (proj2 (fvifa_annuity {| interestRateInput := "50"; numberOfPeriodsInput := "1800" |}
                    50 1800 ltac:(vm_compute; reflexivity) ltac:(discriminate)
                    ltac:(vm_compute; reflexivity)));
      vm_compute; first [reflexivity | discriminate].
Defined.

Lemma fvifa_slider_range_witness :
  exists r, parse_fixed 4 (fvifa initial_state) = Some r /\
            Qabs (r - annuity_sum (1 + (64 # 10) / 100) 10) <= (1 # 2) / inject_Z (pow10 4).
Proof.
  apply (fvifa_slider_range initial_state (64 # 10) 10);
    [vm_compute; reflexivity | split; discriminate | vm_compute; reflexivity | lia].
Defined.

(** The validation accepts the text "Infinity" (parseFloat reads
    it as +Infinity, which is neither NaN nor negative), and the output
    card then shows the factor "NaN", whatever the runtime's non-integer
    powers. *)
Example infinity_rate_prints_NaN (pow : PowRuntime) :
  cards (@Calculator decimal_runtime pow
           {| interestRateInput := "Infinity"; numberOfPeriodsInput := "10" |}) =
  [OutputCard "NaN" "With an interest rate of Infinity% over 10 years, the FVIFA is NaN."].
Proof. vm_compute. reflexivity. Qed.

(** The initial state, 6.4 percent over 10 periods, shows the
    factor 13.4310 ([(1.064^10 - 1) / 0.064] is 13.43103...) and no
    error. *)
Example Calculator_initial_view (pow : PowRuntime) :
  cards (@Calculator decimal_runtime pow initial_state) =
  [OutputCard "13.4310" "With an interest rate of 6.4% over 10 years, the FVIFA is 13.4310."].
Proof. vm_compute. reflexivity. Qed.

