(* ===== verification/CalculatorInputs.v ===== *)
(** * The calculator's controls in the browser

    The four controls of src/app/en/calculators/[slug]/
    future-value-interest-factor-of-annuity-calculator/components/
    Calculator.tsx write [e.target.value] into the state; what that value
    can be is decided by the browser, not by the component.
    [InputCard.NumberInput] and [InputCard.RangeInput] are outside the
    sources; the model takes them to render [<input type="number">] and
    [<input type="range">] with the [min], [max] and [step] the
    component passes (lines 65-114).  The HTML standard then fixes the
    values:
    - a number input's value is sanitized: a text that is not a valid
      floating-point number (HTML 2.3.4.3: an optional [-], digits with
      an optional fraction or a fraction alone, an optional exponent)
      becomes the empty string;
    - a range input's value is a step of the range, [min + k * step]
      within [[min, max]], written as the shortest decimal (the browser
      steps in decimal arithmetic).

    [ui_step] is one such event; the theorems show that the states the
    page can reach keep both inputs sanitized, so the "valid numeric"
    messages of the component are never shown, and that moving the two
    sliders always shows the factor. *)

From Stdlib Require Import String Ascii List QArith Qabs Lqa ZArith NArith Lia Bool.
From S2P Require Import Prelude JsNumber NumberFormat JsParse FvifaCalculator.
Import ListNotations.
Local Open Scope string_scope.

(** ** Valid floating-point numbers *)

(** The optional exponent: [e] or [E], an optional sign, one or more
    digits, and nothing after them. *)
Definition valid_exponent (l : list ascii) : bool :=
  match l with
  | [] => true
  | c :: r =>
      (Ascii.eqb c "e" || Ascii.eqb c "E") &&
      (let r' := match r with
                 | s :: r'' => if Ascii.eqb s "+" || Ascii.eqb s "-" then r'' else r
                 | [] => r
                 end in
       let '(_, k, rest) := take_digits 0 0 r' in
       Nat.ltb 0 k && match rest with [] => true | _ => false end)
  end%char.

(** The part of a valid floating-point number after its sign. *)
Definition valid_body (body : list ascii) : bool :=
  let '(_, ik, r1) := take_digits 0 0 body in
  match r1 with
  | c :: r =>
      if Ascii.eqb c "." then
        let '(_, fk, r2) := take_digits 0 0 r in Nat.ltb 0 fk && valid_exponent r2
      else Nat.ltb 0 ik && valid_exponent r1
  | [] => Nat.ltb 0 ik
  end%char.

(** HTML's valid floating-point number: an optional [-], then the body. *)
Definition valid_float_list (l : list ascii) : bool :=
  valid_body (match l with c :: r => if Ascii.eqb c "-" then r else l | [] => l end)%char.

Definition valid_float (s : string) : bool := valid_float_list (list_ascii_of_string s).

(** ** The values of the controls *)

(** [<input type="number">]: the value sanitization algorithm. *)
Definition number_input_value (typed : string) : string :=
  if valid_float typed then typed else "".

(** The attributes of a range input, in units of its step: the value
    [k] stands for [k * 10^-places]. *)
Record range_attributes : Type := {
  range_min : N;
  range_max : N;
  range_places : nat
}.

(** [min="0" max="50" step="0.01"] *)
Definition interest_rate_range : range_attributes :=
  {| range_min := 0; range_max := 5000; range_places := 2 |}.

(** [min="1" max="50" step="1"] *)
Definition number_of_periods_range : range_attributes :=
  {| range_min := 1; range_max := 50; range_places := 0 |}.

(** The shortest decimal text of [k * 10^-places]. *)
Definition range_text (places : nat) (k : N) : string :=
  let d := (10 ^ N.of_nat places)%N in
  if (k mod d =? 0)%N then digits (k / d)
  else digits (k / d) ++ "." ++ trim_zeros 0 (zero_pad places (digits (k mod d))).

Definition in_range (a : range_attributes) (k : N) : bool :=
  (range_min a <=? k)%N && (k <=? range_max a)%N.

Lemma in_range_spec (a : range_attributes) (k : N) :
  in_range a k = true <-> (range_min a <= k <= range_max a)%N.
Proof. unfold in_range. now rewrite andb_true_iff, !N.leb_le. Qed.

(** One event the browser can deliver to the calculator: a text typed
    into a number input, or a slider moved to a step of its range. *)
Inductive ui_step : calculator_state -> calculator_state -> Prop :=
| ui_rate_typed (st : calculator_state) (typed : string) :
    ui_step st (handle st (InterestRateNumberChange (number_input_value typed)))
| ui_rate_slid (st : calculator_state) (k : N) :
    in_range interest_rate_range k = true ->
    ui_step st (handle st (InterestRateRangeChange
                             (range_text (range_places interest_rate_range) k)))
| ui_periods_typed (st : calculator_state) (typed : string) :
    ui_step st (handle st (NumberOfPeriodsNumberChange (number_input_value typed)))
| ui_periods_slid (st : calculator_state) (k : N) :
    in_range number_of_periods_range k = true ->
    ui_step st (handle st (NumberOfPeriodsRangeChange
                             (range_text (range_places number_of_periods_range) k))).

(** The input texts the browser can leave in the state. *)
Definition sanitized (s : string) : bool := String.eqb s "" || valid_float s.

Definition inputs_sanitized (st : calculator_state) : bool :=
  sanitized (interestRateInput st) && sanitized (numberOfPeriodsInput st).

(** ** Sanitized texts read as finite numbers *)

(** A valid body starts with a digit or a point, and is a decimal
    literal of [parseFloat]. *)
Lemma valid_body_decimal (body : list ascii) :
  valid_body body = true ->
  (exists c r, body = c :: r /\ (digit_value c <> None \/ c = "."%char)) /\
  exists v, unsigned_decimal body = Some v.
Proof.
  unfold valid_body, unsigned_decimal. intros H.
  pose proof (take_digits_head 0 0 body) as Hh.
  destruct (take_digits 0 0 body) as [[iv ik] r1].
  destruct r1 as [|c r].
  - apply Nat.ltb_lt in H. destruct Hh as [[-> _]|Hd]; [lia|].
    split; [destruct Hd as (d & l' & -> & Hd); eauto|].
    destruct (Nat.eqb_spec (ik + 0) 0); [lia|eauto].
  - destruct (Ascii.eqb_spec c ".") as [->|Hc].
    + destruct (take_digits 0 0 r) as [[fv fk] r2].
      apply andb_prop in H as [Hf _]. apply Nat.ltb_lt in Hf.
      split.
      * destruct Hh as [[_ <-]|(d & l' & -> & Hd)]; eauto.
      * destruct (Nat.eqb_spec (ik + fk) 0); [lia|eauto].
    + apply andb_prop in H as [Hi _]. apply Nat.ltb_lt in Hi.
      destruct Hh as [[-> _]|Hd]; [lia|].
      split; [destruct Hd as (d & l' & -> & Hd); eauto|].
      destruct (Nat.eqb_spec (ik + 0) 0); [lia|eauto].
Qed.

(** The first character of a body: not whitespace, not a sign, and not
    the [I] of [Infinity]. *)
Lemma body_head (d : ascii) (r : list ascii) :
  digit_value d <> None \/ d = "."%char ->
  ws_lead d = false /\ d <> "-"%char /\ d <> "+"%char /\
  strip_prefix infinity_text (d :: r) = None.
Proof.
  intros [Hd| ->]; [|repeat split; first [discriminate | reflexivity]].
  destruct (digit_not_lead d Hd) as (Hw & HI & Hm & Hp). repeat split; try assumption.
  change infinity_text with ("I"%char :: list_ascii_of_string "nfinity"). cbn [strip_prefix].
  destruct (Ascii.eqb_spec "I" d) as [E|_]; [now subst|reflexivity].
Qed.

(** A valid floating-point number reads as its value, rounded to
    binary64 (an infinity when it overflows), never as NaN. *)
Lemma valid_float_value (s : string) :
  valid_float s = true -> exists negative v, parseFloat s = round_binary64 negative v.
Proof.
  unfold valid_float, valid_float_list, parseFloat.
  generalize (list_ascii_of_string s) as l. intros [|c r] H; [discriminate|].
  destruct (Ascii.eqb_spec c "-") as [->|Hc].
  - destruct (valid_body_decimal r H) as [(d & r' & -> & Hd) [v Hv]].
    destruct (body_head d r' Hd) as (_ & _ & _ & Hi).
    rewrite trim_start_not_lead by reflexivity. cbn [Ascii.eqb Bool.eqb]. rewrite Hi, Hv. eauto.
  - destruct (valid_body_decimal (c :: r) H) as [(d & r' & E & Hd) [v Hv]].
    injection E as <- <-. destruct (body_head c r Hd) as (Hw & Hm & Hp & Hi).
    rewrite trim_start_not_lead by exact Hw.
    apply Ascii.eqb_neq in Hm, Hp. rewrite Hm, Hp, Hi, Hv. eauto.
Qed.

(** ** The slider texts *)

(** A property of every step of a range, checked by evaluation. *)
Lemma check_steps (f : N -> bool) (hi : N) :
  forallb (fun k => f (N.of_nat k)) (seq 0 (S (N.to_nat hi))) = true ->
  forall k, (k <= hi)%N -> f k = true.
Proof.
  intros H k Hk. rewrite forallb_forall in H. rewrite <- (N2Nat.id k).
  apply H, in_seq. lia.
Qed.

(** The rate slider's text reads as its value, [k] hundredths. *)
Definition rate_step_ok (k : N) : bool :=
  valid_float (range_text 2 k) &&
  match parseFloat (range_text 2 k) with
  | Fin q => Qeq_bool q (Z.of_N k # 100)
  | _ => false
  end.

(** The periods slider's text reads as the integer [k] itself. *)
Definition periods_step_ok (k : N) : bool :=
  valid_float (range_text 0 k) &&
  match parseFloat (range_text 0 k) with
  | Fin q => Z.eqb (Qnum q) (Z.of_N k) && Pos.eqb (Qden q) 1
  | _ => false
  end.

Lemma rate_steps_ok : forall k, (k <= 5000)%N -> rate_step_ok k = true.
Proof. apply check_steps. vm_compute. reflexivity. Qed.

Lemma periods_steps_ok : forall k, (k <= 50)%N -> periods_step_ok k = true.
Proof. apply check_steps. vm_compute. reflexivity. Qed.

Lemma rate_slider_text (k : N) :
  in_range interest_rate_range k = true ->
  valid_float (range_text 2 k) = true /\
  exists q, parseFloat (range_text 2 k) = Fin q /\ q == Z.of_N k # 100.
Proof.
  intros Hk. apply in_range_spec in Hk as [_ Hk]. cbn in Hk.
  pose proof (rate_steps_ok k Hk) as H. unfold rate_step_ok in H.
  apply andb_prop in H as [Hv H]. split; [exact Hv|].
  destruct (parseFloat _) as [q| | |]; try discriminate.
  exists q. split; [reflexivity | now apply Qeq_bool_iff].
Qed.

Lemma periods_slider_text (k : N) :
  in_range number_of_periods_range k = true ->
  valid_float (range_text 0 k) = true /\
  parseFloat (range_text 0 k) = Fin (inject_Z (Z.of_nat (N.to_nat k))).
Proof.
  intros Hk. apply in_range_spec in Hk as [_ Hk]. cbn in Hk.
  pose proof (periods_steps_ok k Hk) as H. unfold periods_step_ok in H.
  apply andb_prop in H as [Hv H]. split; [exact Hv|].
  destruct (parseFloat _) as [[num den]| | |]; try discriminate.
  apply andb_prop in H as [Hn Hd]. apply Z.eqb_eq in Hn. apply Pos.eqb_eq in Hd.
  cbn in Hn, Hd. subst. unfold inject_Z. now rewrite N_nat_Z.
Qed.

(** ** Every event keeps the inputs sanitized *)

Lemma number_input_sanitized (typed : string) : sanitized (number_input_value typed) = true.
Proof.
  unfold number_input_value, sanitized.
  destruct (valid_float typed) eqn:E; [now rewrite E, orb_true_r | reflexivity].
Qed.

Lemma ui_step_sanitized (st st' : calculator_state) :
  ui_step st st' -> inputs_sanitized st = true -> inputs_sanitized st' = true.
Proof.
  unfold inputs_sanitized. intros Hs Hi. apply andb_prop in Hi as [Hr Hp].
  destruct Hs as [st typed|st k Hk|st typed|st k Hk]; cbn.
  - now rewrite number_input_sanitized, Hp.
  - apply rate_slider_text in Hk as [Hv _]. unfold sanitized at 1. now rewrite Hv, orb_true_r, Hp.
  - now rewrite number_input_sanitized, Hr.
  - apply periods_slider_text in Hk as [Hv _]. unfold sanitized at 2. now rewrite Hv, orb_true_r, Hr.
Qed.

Lemma star_ui_sanitized (st st' : calculator_state) :
  star ui_step st st' -> inputs_sanitized st = true -> inputs_sanitized st' = true.
Proof. induction 1; eauto using ui_step_sanitized. Qed.

(** The checks of one input never give the "valid numeric" message
    [m2] on a sanitized text. *)
Lemma sanitized_not_numeric (s m1 m2 m3 : string) :
  sanitized s = true -> m1 <> m2 -> m3 <> m2 -> "" <> m2 ->
  (if String.eqb (trim s) "" then m1
   else if isNaN (parseFloat s) then m2
   else if num_lt (parseFloat s) (Fin 0) then m3 else "") <> m2.
Proof.
  unfold sanitized. intros Hs H1 H3 H0. apply orb_true_iff in Hs as [E|Hv].
  - apply String.eqb_eq in E as ->. exact H1.
  - destruct (valid_float_value s Hv) as (neg & v & ->). rewrite round_binary64_not_NaN.
    destruct (String.eqb _ _); [exact H1|]. now destruct (num_lt _ _).
Qed.

#[export] Instance annuity_sum_Proper : Proper (Qeq ==> eq ==> Qeq) annuity_sum.
Proof.
  intros g g' Hg n ? <-. induction n as [|n IH]; cbn; [reflexivity|].
  now rewrite IH, Hg.
Qed.

(** ** Properties of the controls *)

(** C19: in every state the page can reach from its initial state by
    the browser's events (texts typed into the number inputs, steps of
    the sliders), both inputs are empty or valid floating-point numbers,
    so neither "valid numeric" message of the component is ever shown:
    the [isNaN] branches only guard texts the browser never delivers. *)
Theorem reachable_inputs_sanitized (st : calculator_state) :
  star ui_step initial_state st ->
  inputs_sanitized st = true /\
  interestRateError st <> "Please enter a valid numeric interest rate." /\
  numberOfPeriodsError st <> "Please enter a valid numeric number of periods.".
Proof.
  intros Hst. assert (Hs : inputs_sanitized st = true)
    by (apply (star_ui_sanitized _ _ Hst); reflexivity).
  split; [exact Hs|]. unfold inputs_sanitized in Hs. apply andb_prop in Hs as [Hr Hp].
  split; apply sanitized_not_numeric; first [assumption | discriminate].
Qed.

Section ControlClaims.
Context `{NumberToString} `{PowRuntime}.

(** C20: whatever the state, moving the rate slider to any step [k] of
    [0..50] percent and the periods slider to any step [n] of [1..50]
    clears every error and shows the factor: its four-place text reads
    back within half a unit of the last place of the annuity sum at
    the rate [k / 100] percent over [n] periods. *)
Theorem sliders_show_factor (st : calculator_state) (k n : N) :
  in_range interest_rate_range k = true -> in_range number_of_periods_range n = true ->
  let st' := handle (handle st (InterestRateRangeChange (range_text 2 k)))
                    (NumberOfPeriodsRangeChange (range_text 0 n)) in
  errorMessages st' = [] /\
  exists r, parse_fixed 4 (fvifa st') = Some r /\
            Qabs (r - annuity_sum (1 + (Z.of_N k # 10000)) (N.to_nat n))
              <= (1 # 2) / inject_Z (pow10 4).
Proof.
  intros Hk Hn st'.
  pose proof Hk as Hk'. apply in_range_spec in Hk' as [_ Hk5]. cbn in Hk5.
  destruct (rate_slider_text k Hk) as [_ (q & Hq & Eq)].
  destruct (periods_slider_text n Hn) as [_ Hp].
  assert (Hq0 : 0 <= q) by (rewrite Eq; unfold Qle; cbn [Qnum Qden]; lia).
  assert (Hq50 : q <= 50) by (rewrite Eq; unfold Qle; cbn [Qnum Qden]; lia).
  split.
  - apply (errorMessages_Fin st' q _ Hq Hq0 Hp). unfold Qle; cbn; lia.
  - assert (Hn50 : (N.to_nat n <= 50)%nat)
      by (apply in_range_spec in Hn as [_ Hn]; cbn in Hn; lia).
    rewrite (fvifa_annuity_sum st' q _ Hq Hq0 Hp (slider_pow_bound q _ Hq0 Hq50 Hn50)).
    destruct (annuity_text_roundtrip q _ Hq0 Hq50 Hn50) as (r & Hr & Hb).
    exists r. split; [exact Hr|].
    assert (Eg : q / 100 == Z.of_N k # 10000).
    { rewrite Eq. unfold Qdiv. change (Qinv 100) with (1 # 100).
      unfold Qmult; cbn [Qnum Qden Pos.mul]. now rewrite Z.mul_1_r. }
    now rewrite <- Eg.
Qed.

(** C35: the rate's number input keeps a valid floating-point number
    however large, and [parseFloat] reads one of [2^1024 - 2^970] or
    more (such as "1e400") as +Infinity; the validation lets it through
    (it is neither NaN nor negative), so with a positive number of
    periods the calculator shows the output card with the factor
    "NaN", [(Infinity - 1) / Infinity], and no error. *)
Theorem overflowing_rate_prints_NaN (st : calculator_state) (t : string) (p : Q) :
  valid_float t = true -> parseFloat t = PosInf ->
  parseFloat (numberOfPeriodsInput st) = Fin p -> 0 < p ->
  let st' := handle st (InterestRateNumberChange (number_input_value t)) in
  ui_step st st' /\ cards (Calculator st') = [OutputCard "NaN" (fvifa_sentence st')].
Proof.
  intros Hv Hi Hp Hp0. cbv zeta. split; [constructor|].
  unfold number_input_value. rewrite Hv.
  rewrite cards_no_error by (apply (errorMessages_PosInf_rate _ p); auto; lra).
  now rewrite (fvifa_PosInf_rate _ p).
Qed.

End ControlClaims.

(** ** Concrete runs *)

#[local] Existing Instance decimal_runtime.
#[local] Existing Instance integer_examples_pow.

(** Typing "abc" into the rate's number input leaves it empty: the
    blank message, not the "valid numeric" one, is shown. *)
Lemma reachable_inputs_sanitized_witness :
  star ui_step initial_state {| interestRateInput := ""; numberOfPeriodsInput := "10" |} /\
  interestRateError {| interestRateInput := ""; numberOfPeriodsInput := "10" |} <>
    "Please enter a valid numeric interest rate.".
Proof.
  assert (H : star ui_step initial_state {| interestRateInput := ""; numberOfPeriodsInput := "10" |}).
  { eapply star_step; [apply (ui_rate_typed initial_state "abc")|]. vm_compute. apply star_refl. }
  split; [exact H | exact (proj1 (proj2 (reachable_inputs_sanitized _ H)))].
Defined.

(** The sliders at 6.4 percent and 10 periods. *)
Lemma sliders_show_factor_witness :
  errorMessages (handle (handle initial_state (InterestRateRangeChange "6.4"))
                        (NumberOfPeriodsRangeChange "10")) = [] /\
  exists r, parse_fixed 4 (fvifa (handle (handle initial_state (InterestRateRangeChange "6.4"))
                                         (NumberOfPeriodsRangeChange "10"))) = Some r /\
            Qabs (r - annuity_sum (1 + (640 # 10000)) 10) <= (1 # 2) / inject_Z (pow10 4).
Proof.
  exact (sliders_show_factor initial_state 640 10 eq_refl eq_refl).
Defined.

(** "1e400" typed into the rate's number input, with 10 periods. *)
Lemma overflowing_rate_prints_NaN_witness :
  ui_step initial_state (handle initial_state (InterestRateNumberChange (number_input_value "1e400"))) /\
  cards (Calculator (handle initial_state (InterestRateNumberChange (number_input_value "1e400")))) =
  [OutputCard "NaN" "With an interest rate of Infinity% over 10 years, the FVIFA is NaN."].
Proof.
  destruct (overflowing_rate_prints_NaN initial_state "1e400" 10) as [Hs Hc];
    [vm_compute; reflexivity | vm_compute; reflexivity | vm_compute; reflexivity
    | unfold Qlt; cbn; lia |].
  split; [exact Hs|]. rewrite Hc. vm_compute. reflexivity.
Defined.
