(* ===== verification/StaticMarkup.v ===== *)
(** * Static components

    The components of the sources that take no data but a class name and
    children:
    - [Logo] (src/app/components/en-US/content/page/header/Logo.tsx): a
      link to [/en-US] around the logo image;
    - [HeroSection] (src/app/en/components/HeroSection.tsx): the
      heading, the tagline and the animated image;
    - [Footer] (src/app/components/en-US/root/layout/footer/Footer.tsx)
      and [Article] (src/app/components/zh/content/page/main/article/
      Article.tsx): a [footer] or [article] element around the children.

    A React element is a tree of tags with their string props and
    children; [next/link]'s [Link] and [next/image]'s [Image] are kept as
    elements of their own, since their rendering belongs to Next.js.  The
    class names of a CSS module are abstract ([CssModules]): [styles.x] is
    the class the build generated for [x], or [undefined].  [clsx] keeps
    its nonempty string arguments and joins them with one space; a prop
    whose value is [undefined] is not rendered. *)

From Stdlib Require Import String Ascii List.
From S2P Require Import Prelude.
Import ListNotations.
Local Open Scope string_scope.
Set Warnings "-register-all".

Inductive element : Type :=
| Element (tag : string) (props : list (string * string)) (children : list element)
| Text (text : string).

(** [styles.key] of the CSS module [module]. *)
Class CssModules := css_class : string -> string -> option string.

(** [clsx(...)] on strings and [undefined]s. *)
Definition clsx (classes : list (option string)) : string :=
  String.concat " " (filter (fun c => negb (String.eqb c "")) (flat_map (fun c => match c with Some v => [v] | None => [] end) classes)).

(** A prop is rendered unless its value is [undefined]. *)
Definition opt_prop (name : string) (value : option string) : list (string * string) :=
  match value with Some v => [(name, v)] | None => [] end.

Section Components.
Context `{CssModules}.

Definition Logo (className : option string) : element :=
  Element "Link" [("href", "/en-US");
                  ("className", clsx [css_class "Logo.module.css" "logo"; className])]
    [Element "Image" ([("src", "/public/cannytrading-logo.png");
                       ("alt", "Canny Trading logo")] ++
                      opt_prop "className" (css_class "Logo.module.css" "image")) []].

Definition HeroSection (className : option string) : element :=
  Element "section" [("className", clsx [css_class "HeroSection.module.css" "heroSection"; className])]
    [Element "div" []
       [Element "h1" (opt_prop "className" (css_class "HeroSection.module.css" "h1"))
          [Element "span" [] [Text "Seek Returns."];
           Element "span" [] [Text "Strategically."]];
        Element "p" (opt_prop "className" (css_class "HeroSection.module.css" "p"))
          [Text "Combining essential knowledge and practical tools for smarter investment decisions."]];
     Element "Image" ([("src", "/app/en/images/seek-returns-strategically.gif");
                       ("alt", "Seek returns strategically")] ++
                      opt_prop "className" (css_class "HeroSection.module.css" "image")) []].

End Components.

Definition Footer (children : list element) (className : option string) : element :=
  Element "footer" (opt_prop "className" className) children.

Definition Article (children : list element) (className : option string) : element :=
  Element "article" (opt_prop "className" className) children.

(** ** The class names [clsx] renders *)

(** The words of a space-separated class attribute. *)
Fixpoint split_words_acc (s : string) (w : string) : list string :=
  match s with
  | EmptyString => if String.eqb w "" then [] else [w]
  | String c s' =>
      if Ascii.eqb c " "%char then (if String.eqb w "" then [] else [w]) ++ split_words_acc s' ""
      else split_words_acc s' (w ++ String c "")
  end.

Definition class_words (s : string) : list string := split_words_acc s "".

(** A class name holds no space. *)
Definition no_space (s : string) : bool :=
  forallb (fun c => negb (Ascii.eqb c " "%char)) (list_ascii_of_string s).

Lemma split_words_no_space (s r w : string) :
  no_space s = true -> split_words_acc (s ++ r) w = split_words_acc r (w ++ s).
Proof.
  revert w. induction s as [|c s IH]; intros w Hs; cbn.
  - now rewrite string_append_empty_r.
  - cbn in Hs. apply andb_prop in Hs as [Hc Hs].
    destruct (Ascii.eqb_spec c " "%char) as [->|_]; [discriminate|].
    now rewrite IH, string_append_assoc.
Qed.

Lemma split_words_concat (x : string) (xs : list string) :
  x <> "" -> no_space x = true -> Forall (fun y => y <> "" /\ no_space y = true) xs ->
  class_words (String.concat " " (x :: xs)) = x :: xs.
Proof.
  revert x. induction xs as [|y ys IH]; intros x Hx Hs Hys; unfold class_words.
  - cbn. rewrite <- (string_append_empty_r x) at 1. rewrite split_words_no_space by exact Hs.
    cbn. apply String.eqb_neq in Hx. now rewrite Hx.
  - inversion Hys as [|? ? [Hy Hys'] Hrest]; subst.
    change (String.concat " " (x :: y :: ys)) with (x ++ String " " (String.concat " " (y :: ys))).
    rewrite split_words_no_space by exact Hs. cbn.
    apply String.eqb_neq in Hx. rewrite Hx. cbn. f_equal. now apply IH.
Qed.

(** The defined arguments of [clsx]. *)
Definition defined_classes (classes : list (option string)) : list string :=
  flat_map (fun c => match c with Some v => [v] | None => [] end) classes.

(** When no argument has a space, the words of [clsx]'s result are its
    nonempty arguments, in order. *)
Lemma clsx_words (classes : list (option string)) :
  Forall (fun c => no_space c = true) (defined_classes classes) ->
  class_words (clsx classes) = filter (fun c => negb (String.eqb c "")) (defined_classes classes).
Proof.
  unfold clsx. fold (defined_classes classes). intros Hs.
  assert (Hf : Forall (fun y => y <> "" /\ no_space y = true)
                 (filter (fun c => negb (String.eqb c "")) (defined_classes classes))).
  { apply Forall_forall. intros y Hy. apply filter_In in Hy as [Hy Hne].
    split; [intros ->; discriminate|]. rewrite Forall_forall in Hs. now apply Hs. }
  destruct (filter _ _) as [|x xs]; [reflexivity|].
  inversion Hf as [|? ? [Hx Hxs] Hrest]; subst. now apply split_words_concat.
Qed.

Lemma defined_classes_sub (P : string -> Prop) (l1 l2 : list (option string)) :
  incl l1 l2 -> Forall P (defined_classes l2) -> Forall P (defined_classes l1).
Proof.
  intros Hi. rewrite !Forall_forall. intros H x Hx. apply H.
  apply in_flat_map in Hx as [c [Hc Hx]]. apply in_flat_map. eauto.
Qed.

(** ** The root elements of [Logo] and [HeroSection] *)

Section ComponentClaims.
Context `{CssModules}.

(** The class words of the root element. *)
Definition root_class_words (e : element) : list string :=
  match e with
  | Element _ props _ =>
      match find (fun p => String.eqb (fst p) "className") props with
      | Some (_, c) => class_words c
      | None => []
      end
  | Text _ => []
  end.

(** [Logo] is a link to [/en-US], and the classes of its link and of
    [HeroSection]'s [section] are the component module's own class
    followed by the caller's [className], each kept only when it is
    defined and nonempty (class names holding no space). *)
Theorem root_classes (className : option string) :
  Forall (fun c => no_space c = true)
    (defined_classes [css_class "Logo.module.css" "logo";
                      css_class "HeroSection.module.css" "heroSection"; className]) ->
  (exists children cls, Logo className = Element "Link" [("href", "/en-US"); ("className", cls)] children) /\
  root_class_words (Logo className) =
    filter (fun c => negb (String.eqb c "")) (defined_classes [css_class "Logo.module.css" "logo"; className]) /\
  root_class_words (HeroSection className) =
    filter (fun c => negb (String.eqb c ""))
      (defined_classes [css_class "HeroSection.module.css" "heroSection"; className]).
Proof.
  intros Hs. split; [eexists _, _; reflexivity|].
  split; apply clsx_words; eapply defined_classes_sub; try exact Hs; intros x; cbn; tauto.
Qed.

End ComponentClaims.

(** ** Concrete runs *)

(** Class names as a CSS-modules build generates them. *)
#[local] Instance sample_css : CssModules := fun m k => Some (k ++ "_x1Y2z")%string.

Lemma root_classes_witness :
  root_class_words (Logo (Some "siteLogo")) = ["logo_x1Y2z"; "siteLogo"] /\
  root_class_words (HeroSection None) = ["heroSection_x1Y2z"].
Proof.
  destruct (root_classes (Some "siteLogo")) as [_ [HL _]]; [vm_compute; repeat constructor|].
  destruct (root_classes None) as [_ [_ HH]]; [vm_compute; repeat constructor|].
  rewrite HL, HH. split; reflexivity.
Defined.
