(* ===== verification/PriceSeries.v ===== *)
(** * The price-series section of the Chinese home page

    Models src/app/zh/components/StockComparisonSection.tsx:
    - [fetchPriceSeriesData]: requests the dividend-adjusted end-of-day
      history of a symbol; [null] for a [null] body or an empty array;
      for another object, [.length] is undefined (so not [0]) and the
      call [.reverse()] throws, which the [catch] logs; for an array, the
      rows reversed in place and mapped to [{date, price: adjClose}];
    - [StockComparisonSection]: fetches AAPL then NVDA, renders nothing
      ([null]) unless both series are present, and otherwise the heading,
      the two paragraphs, the form and the chart of the two series.

    The API lists the history newest first; the theorems show that the
    chart receives each series oldest first, point for point the
    adjusted closes of the rows. *)

From Stdlib Require Import String List Sorted QArith.
From S2P Require Import Prelude JsNumber Fetch.
Import ListNotations.
Local Open Scope string_scope.
Local Open Scope io_scope.

(** A row of the API's [HistoricalPriceDataPoint[]]. *)
Record HistoricalPriceDataPoint : Type := {
  hp_symbol : string;
  hp_date : string;
  adjOpen : number;
  adjHigh : number;
  adjLow : number;
  adjClose : number;
  volume : number
}.

(** An element of [PriceSeriesData]. *)
Record PricePoint : Type := {
  date : string;
  price : number
}.

Definition PriceSeriesData : Type := list PricePoint.

(** The data the chart receives for one stock. *)
Record ChartSeries : Type := {
  chart_symbol : string;
  priceSeries : PriceSeriesData
}.

(** The rendered section: its [aria-labelledby] id, heading,
    paragraphs, and the chart's two series (the form has no data). *)
Record StockComparisonView : Type := {
  view_id : string;
  view_heading : string;
  view_paragraphs : list string;
  chart_stockOne : ChartSeries;
  chart_stockTwo : ChartSeries
}.

Definition price_endpoint (apiKey : option string) (sym : string) : string :=
  "https://financialmodelingprep.com/stable/historical-price-eod/dividend-adjusted?symbol=" ++
  sym ++ "&apikey=" ++ template_value apiKey.

(** The callback of [.map]. *)
Definition to_price_point (item : HistoricalPriceDataPoint) : PricePoint :=
  {| date := hp_date item; price := adjClose item |}.

Definition fetchPriceSeriesData (apiKey : option string)
    (server : string -> response HistoricalPriceDataPoint) (sym : string)
    : io (option PriceSeriesData) :=
  historicalPriceRawData <- fetch_json server (price_endpoint apiKey sym) ;;
  match historicalPriceRawData with
  | RespNull | RespArray [] => ret None
  | RespArray rows => ret (Some (map to_price_point (List.rev rows)))
  | RespObject | RespFailure =>
      console_error "Error fetching price series data for" sym ;; ret None
  end.

Definition stockOneSymbol : string := "AAPL".
Definition stockTwoSymbol : string := "NVDA".

Definition stock_comparison_heading : string := "定制图表，助力高效投资决策".

(** The two paragraphs, with JSX's joining of the source lines by one
    space. *)
Definition stock_comparison_paragraphs : list string :=
  ["通过定制化图表工具，您可以追踪并对比重点关注的股票（如 AAPL、NVDA）表现。设置初始投资金额（如 1 万元），清晰呈现不同标的随时间的回报变化。图表支持交互操作，便于深入分析数据，提升决策效率。";
   "输入股票代码，即可快速生成对比图表。"].

(** The section rendered from the two series. *)
Definition stock_comparison_view (one two : PriceSeriesData) : StockComparisonView :=
  {| view_id := "stock-comparison";
     view_heading := stock_comparison_heading;
     view_paragraphs := stock_comparison_paragraphs;
     chart_stockOne := {| chart_symbol := stockOneSymbol; priceSeries := one |};
     chart_stockTwo := {| chart_symbol := stockTwoSymbol; priceSeries := two |} |}.

Definition StockComparisonSection (apiKey : option string)
    (server : string -> response HistoricalPriceDataPoint)
    : io (option StockComparisonView) :=
  stockOnePriceSeriesData <- fetchPriceSeriesData apiKey server stockOneSymbol ;;
  stockTwoPriceSeriesData <- fetchPriceSeriesData apiKey server stockTwoSymbol ;;
  match stockOnePriceSeriesData, stockTwoPriceSeriesData with
  | Some one, Some two => ret (Some (stock_comparison_view one two))
  | _, _ => ret None
  end.

(** ** The fetch as a function of the response *)

Definition price_series_of (r : response HistoricalPriceDataPoint) : option PriceSeriesData :=
  match r with
  | RespArray (row :: rows) => Some (map to_price_point (List.rev (row :: rows)))
  | _ => None
  end.

Definition price_fetch_errors (sym : string) (r : response HistoricalPriceDataPoint)
  : list (string * string) :=
  match r with
  | RespObject | RespFailure => [("Error fetching price series data for", sym)]
  | _ => []
  end.

Lemma fetchPriceSeriesData_run apiKey server sym st :
  fetchPriceSeriesData apiKey server sym st =
  (price_series_of (server (price_endpoint apiKey sym)),
   {| requests := requests st ++ [price_endpoint apiKey sym];
      console_errors := console_errors st ++
        price_fetch_errors sym (server (price_endpoint apiKey sym)) |}).
Proof.
  unfold fetchPriceSeriesData, bind, fetch_json.
  destruct (server (price_endpoint apiKey sym)) as [[|row rows]| | |];
    simpl; rewrite ?app_nil_r; reflexivity.
Qed.

Lemma price_series_of_array (rows : list HistoricalPriceDataPoint) (series : PriceSeriesData) :
  price_series_of (RespArray rows) = Some series -> series = map to_price_point (List.rev rows).
Proof. destruct rows; [discriminate | now injection 1]. Qed.

(** ** Order of a reversed list *)

Lemma StronglySorted_app_last {A : Type} (R : A -> A -> Prop) (l : list A) (a : A) :
  StronglySorted R l -> Forall (fun x => R x a) l -> StronglySorted R (l ++ [a]).
Proof.
  induction 1 as [|x l _ IH Hx]; intros Ha; simpl.
  - repeat constructor.
  - inversion Ha as [|? ? Hxa Hl]; subst. constructor; [now apply IH|].
    apply Forall_app. split; [exact Hx | now constructor].
Qed.

Lemma StronglySorted_rev {A : Type} (R : A -> A -> Prop) (l : list A) :
  StronglySorted (fun x y => R y x) l -> StronglySorted R (List.rev l).
Proof.
  induction 1 as [|x l _ IH Hx]; simpl; [constructor|].
  apply StronglySorted_app_last; [exact IH|].
  apply Forall_forall. intros y Hy. apply in_rev in Hy.
  rewrite Forall_forall in Hx. exact (Hx y Hy).
Qed.

(** The section as a function of the two responses. *)
Lemma StockComparisonSection_run apiKey server st :
  StockComparisonSection apiKey server st =
  (match price_series_of (server (price_endpoint apiKey stockOneSymbol)),
         price_series_of (server (price_endpoint apiKey stockTwoSymbol)) with
   | Some one, Some two => Some (stock_comparison_view one two)
   | _, _ => None
   end,
   {| requests := requests st ++ [price_endpoint apiKey stockOneSymbol;
                                  price_endpoint apiKey stockTwoSymbol];
      console_errors := console_errors st ++
        price_fetch_errors stockOneSymbol (server (price_endpoint apiKey stockOneSymbol)) ++
        price_fetch_errors stockTwoSymbol (server (price_endpoint apiKey stockTwoSymbol)) |}).
Proof.
  unfold StockComparisonSection. unfold bind at 1.
  rewrite fetchPriceSeriesData_run. unfold bind.
  rewrite fetchPriceSeriesData_run. simpl. rewrite <- !app_assoc.
  destruct (price_series_of (server (price_endpoint apiKey stockOneSymbol))),
           (price_series_of (server (price_endpoint apiKey stockTwoSymbol))); reflexivity.
Qed.

(** ** Properties of the price-series section *)

(** C15: the section requests the history of AAPL and then of NVDA
    (the second request is made even when the first fails), logs an
    error for each response that is a non-array object or a failure, and
    renders the chart of both series when both responses are nonempty
    arrays, nothing otherwise. *)
Theorem StockComparisonSection_spec apiKey server st :
  StockComparisonSection apiKey server st =
  (match price_series_of (server (price_endpoint apiKey stockOneSymbol)),
         price_series_of (server (price_endpoint apiKey stockTwoSymbol)) with
   | Some one, Some two =>
       Some {| view_id := "stock-comparison";
               view_heading := stock_comparison_heading;
               view_paragraphs := stock_comparison_paragraphs;
               chart_stockOne := {| chart_symbol := stockOneSymbol; priceSeries := one |};
               chart_stockTwo := {| chart_symbol := stockTwoSymbol; priceSeries := two |} |}
   | _, _ => None
   end,
   {| requests := requests st ++ [price_endpoint apiKey stockOneSymbol;
                                  price_endpoint apiKey stockTwoSymbol];
      console_errors := console_errors st ++
        price_fetch_errors stockOneSymbol (server (price_endpoint apiKey stockOneSymbol)) ++
        price_fetch_errors stockTwoSymbol (server (price_endpoint apiKey stockTwoSymbol)) |}).
Proof. exact (StockComparisonSection_run apiKey server st). Qed.

(** C16: the API lists the history newest first; when the rows' dates
    are in decreasing order (for any order [R] on dates), the series the
    chart receives is in increasing order of date. *)
Theorem price_series_chronological apiKey server sym st (R : string -> string -> Prop) rows series :
  server (price_endpoint apiKey sym) = RespArray rows ->
  StronglySorted (fun a b => R b a) (map hp_date rows) ->
  fst (fetchPriceSeriesData apiKey server sym st) = Some series ->
  StronglySorted R (map date series).
Proof.
  intros Hr Hs Hf. rewrite fetchPriceSeriesData_run, Hr in Hf.
  apply price_series_of_array in Hf as ->. rewrite map_map. change (fun x => date (to_price_point x)) with hp_date.
  rewrite map_rev. now apply StronglySorted_rev.
Qed.

(** The series has one point per row, and its [i]-th point is the
    date and adjusted close of the [i]-th row from the end. *)
Theorem price_series_points apiKey server sym st rows series :
  server (price_endpoint apiKey sym) = RespArray rows ->
  fst (fetchPriceSeriesData apiKey server sym st) = Some series ->
  length series = length rows /\
  forall i, (i < length rows)%nat ->
    nth_error series i =
    option_map (fun row => {| date := hp_date row; price := adjClose row |})
               (nth_error rows (length rows - S i)).
Proof.
  intros Hr Hf. rewrite fetchPriceSeriesData_run, Hr in Hf.
  apply price_series_of_array in Hf as ->. rewrite length_map, length_rev. split; [reflexivity|]. intros i Hi.
  rewrite nth_error_map, nth_error_rev. apply PeanoNat.Nat.ltb_lt in Hi. now rewrite Hi.
Qed.

(** ** Concrete runs *)

Definition sample_row (d : string) (close : Q) : HistoricalPriceDataPoint :=
  {| hp_symbol := "AAPL"; hp_date := d; adjOpen := Fin close; adjHigh := Fin close;
     adjLow := Fin close; adjClose := Fin close; volume := Fin 1000 |}.

(** Two days of history, newest first as the API lists them. *)
Definition sample_server (url : string) : response HistoricalPriceDataPoint :=
  RespArray [sample_row "2024-01-03" 184; sample_row "2024-01-02" 185].

(** The series of [sample_server], oldest first. *)
Definition sample_series : PriceSeriesData :=
  [{| date := "2024-01-02"; price := Fin 185 |}; {| date := "2024-01-03"; price := Fin 184 |}].

Lemma price_series_chronological_witness :
  StronglySorted (fun a b => String.ltb a b = true) (map date sample_series).
Proof.
  apply (price_series_chronological None sample_server stockOneSymbol empty_state
           (fun a b => String.ltb a b = true)
           [sample_row "2024-01-03" 184; sample_row "2024-01-02" 185]);
    [reflexivity | repeat constructor | vm_compute; reflexivity].
Defined.

Lemma price_series_points_witness :
  length sample_series = 2%nat /\
  forall i, (i < 2)%nat ->
    nth_error sample_series i =
    option_map (fun row => {| date := hp_date row; price := adjClose row |})
               (nth_error [sample_row "2024-01-03" 184; sample_row "2024-01-02" 185] (2 - S i)).
Proof.
  apply (price_series_points None sample_server stockOneSymbol empty_state
           [sample_row "2024-01-03" 184; sample_row "2024-01-02" 185]);
    [reflexivity | vm_compute; reflexivity].
Defined.
