(* ===== verification/TableIndex.v ===== *)
(** * The table index page

    Models src/app/en/tables/page.tsx.  The page reads the list of table
    pages ([getSectionPages("en", "tables")], a database call outside
    the sources, so the list is an input here), then
    - groups them with [reduce] into an object keyed by the upper-cased
      first character of the title, creating a key's array on its first
      page and pushing each page onto it ([group_step], [groups_of]);
    - sorts [Object.keys] of the object with [localeCompare] (with
      [Object.keys] listing array-index keys first in numeric order and
      the other keys in insertion order, [object_keys]);
    - sorts each group's array in place by title ([sort_groups]);
    - renders one section per letter with a link per page ([TablesPage]).

    [Array.prototype.sort] is stable (ECMAScript 2019); on a consistent
    comparator its result is the unique stable sort, which MathComp's
    [sort] computes, so it is the model of it.  [localeCompare] is a
    runtime operation given by the interface [LocaleCompare], whose laws
    are what ECMA-402 requires of it: a consistent comparison.  The
    upper-casing of a non-ASCII first character is the runtime operation
    [CaseMapping].

    The object is an association list in insertion order: the arrays it
    holds are only reached through it, so pushing onto and sorting an
    array in place is an update of its entry.  The keys are one upper-cased
    character, never the name of a property of [Object.prototype]. *)

Set Warnings "-notation-overridden,-redundant-canonical-projection,-rewrite-rw".
From HB Require Import structures.
From mathcomp Require Import boot.
From Stdlib Require Import String Ascii NArith Lia.
From S2P Require Import Prelude.

Set Implicit Arguments.
Unset Strict Implicit.
Unset Printing Implicit Defensive.

HB.instance Definition _ := hasDecEq.Build string String.eqb_spec.

Record PageData : Type := { title : string; path : string }.

Definition page_to_pair (p : PageData) : string * string := (title p, path p).
Definition pair_to_page (x : string * string) : PageData := {| title := x.1; path := x.2 |}.
Lemma page_pairK : cancel page_to_pair pair_to_page. Proof. by case. Qed.
HB.instance Definition _ := Equality.copy PageData (can_type page_pairK).

(** ** Runtime operations *)

(** [a.localeCompare(b, "en")], as the sign of its result. *)
Class LocaleCompare := {
  localeCompare : string -> string -> comparison;
  localeCompare_antisym : forall a b, localeCompare b a = CompOpp (localeCompare a b);
  localeCompare_trans : forall a b c,
    localeCompare a b <> Gt -> localeCompare b c <> Gt -> localeCompare a c <> Gt
}.

(** [toUpperCase] of one non-ASCII character (its UTF-8 bytes). *)
Class CaseMapping := upper_code_point : string -> string.

(** ** The first character, upper-cased *)

(** The number of bytes of the UTF-8 sequence a lead byte starts. *)
Definition utf8_width (c : ascii) : nat :=
  let n := nat_of_ascii c in
  if n < 128 then 1 else if n < 224 then 2 else if n < 240 then 3 else 4.

(** [s.charAt(0)]: the first character, [""] for an empty title. *)
Definition charAt0 (s : string) : string :=
  match s with
  | EmptyString => EmptyString
  | String c _ => substring 0 (utf8_width c) s
  end.

Definition ascii_upper (c : ascii) : ascii :=
  let n := nat_of_ascii c in
  if (97 <= n) && (n <= 122) then ascii_of_nat (n - 32) else c.

(** [.toUpperCase()] of a string of at most one character. *)
Definition toUpperCase_char `{CaseMapping} (s : string) : string :=
  match s with
  | EmptyString => EmptyString
  | String c EmptyString => if nat_of_ascii c < 128 then String (ascii_upper c) EmptyString
                            else upper_code_point s
  | _ => upper_code_point s
  end.

Definition page_letter `{CaseMapping} (page : PageData) : string :=
  toUpperCase_char (charAt0 (title page)).

(** ** An object used as a map, in insertion order *)

Definition js_object (V : Type) : Type := seq (string * V).

Fixpoint obj_get {V : Type} (o : js_object V) (k : string) : option V :=
  match o with
  | [::] => None
  | (k', v) :: o' => if k' == k then Some v else obj_get o' k
  end.

(** [o[k] = v]: replaces the value of an existing key in place, or adds
    the key last. *)
Fixpoint obj_set {V : Type} (o : js_object V) (k : string) (v : V) : js_object V :=
  match o with
  | [::] => [:: (k, v)]
  | (k', v') :: o' => if k' == k then (k', v) :: o' else (k', v') :: obj_set o' k v
  end.

Definition digit_value (c : ascii) : option N :=
  let n := N_of_ascii c in
  if ((48 <=? n) && (n <=? 57))%N then Some (n - 48)%N else None.

Fixpoint digits_value (acc : N) (s : string) : option N :=
  match s with
  | EmptyString => Some acc
  | String c s' =>
      match digit_value c with
      | Some d => digits_value (acc * 10 + d)%N s'
      | None => None
      end
  end.

(** An array index: the canonical decimal text of an integer below
    [2^32 - 1] ("0", or digits without a leading zero). *)
Definition array_index (k : string) : option N :=
  match k with
  | EmptyString => None
  | String c s =>
      if Ascii.eqb c "0"%char && (s != EmptyString) then None
      else match digits_value 0 k with
           | Some n => if (n <? 4294967295)%N then Some n else None
           | None => None
           end
  end.

Definition is_array_index (k : string) : bool := isSome (array_index k).

Definition index_le (a b : string) : bool :=
  (odflt 0 (array_index a) <=? odflt 0 (array_index b))%N.

(** [Object.keys(o)]: array-index keys in ascending numeric order, then
    the other keys in insertion order. *)
Definition object_keys {V : Type} (o : js_object V) : seq string :=
  sort index_le [seq k <- map fst o | is_array_index k] ++
  [seq k <- map fst o | ~~ is_array_index k].

(** ** The page *)

Section TableIndex.

Context `{LocaleCompare} `{CaseMapping}.

(** The comparators [(a, b) => a.localeCompare(b, "en")] and
    [(a, b) => a.title.localeCompare(b.title, "en")], as "may come
    first" relations. *)
Definition locale_le (a b : string) : bool :=
  if localeCompare a b is Gt then false else true.

Definition title_le (p q : PageData) : bool := locale_le (title p) (title q).

(** [a.localeCompare(b, "en") === 0] *)
Definition locale_eq (a b : string) : bool :=
  if localeCompare a b is Eq then true else false.

(** The [reduce] callback. *)
Definition group_step (acc : js_object (seq PageData)) (page : PageData)
    : js_object (seq PageData) :=
  let letter := page_letter page in
  let acc := if obj_get acc letter is None then obj_set acc letter [::] else acc in
  obj_set acc letter (rcons (odflt [::] (obj_get acc letter)) page).

Definition groups_of (pages : seq PageData) : js_object (seq PageData) :=
  foldl group_step [::] pages.

Definition sortedLetters (groups : js_object (seq PageData)) : seq string :=
  sort locale_le (object_keys groups).

(** [sortedLetters.forEach(letter => groups[letter].sort(...))] *)
Definition sort_groups (groups : js_object (seq PageData)) (letters : seq string)
    : js_object (seq PageData) :=
  foldl (fun g letter => obj_set g letter (sort title_le (odflt [::] (obj_get g letter))))
        groups letters.

Record IndexSection : Type := {
  section_letter : string;
  links : seq (string * string)   (* [href], text *)
}.

Definition section_to_pair (sec : IndexSection) := (section_letter sec, links sec).
Definition pair_to_section (x : string * seq (string * string)) : IndexSection :=
  {| section_letter := x.1; links := x.2 |}.
Lemma section_pairK : cancel section_to_pair pair_to_section. Proof. by case. Qed.
HB.instance Definition _ := Equality.copy IndexSection (can_type section_pairK).

Definition TablesPage (pages : seq PageData) : seq IndexSection :=
  let groups := groups_of pages in
  let letters := sortedLetters groups in
  let groups := sort_groups groups letters in
  [seq {| section_letter := letter;
          links := [seq (path page, title page) | page <- odflt [::] (obj_get groups letter)] |}
  | letter <- letters].

End TableIndex.

(** ** Lemmas on the object *)

Section ObjectLemmas.

Variable V : Type.

Lemma obj_get_set (o : js_object V) (k k' : string) (v : V) :
  obj_get (obj_set o k v) k' = if k == k' then Some v else obj_get o k'.
Proof.
  elim: o => [|[k0 v0] o IH] /=; first by [].
  case: (k0 =P k) => [->|Hne] /=; first by case: (k == k').
  rewrite IH. case: (k0 =P k') => [Ek'|//]. subst k'.
  by move/eqP: Hne; rewrite eq_sym => /negPf ->.
Qed.

Lemma obj_get_keys (o : js_object V) (k : string) :
  isSome (obj_get o k) = (k \in map fst o).
Proof.
  elim: o => [|[k0 v0] o IH] //=. rewrite in_cons.
  case: (k0 =P k) => [->|Hne]; first by rewrite eqxx.
  rewrite IH. suff -> : (k == k0) = false by [].
  by apply/eqP => E; apply: Hne.
Qed.

Lemma keys_set (o : js_object V) (k : string) (v : V) :
  map fst (obj_set o k v) = if k \in map fst o then map fst o else rcons (map fst o) k.
Proof.
  elim: o => [|[k0 v0] o IH] //=. rewrite in_cons.
  case: (k0 =P k) => [->|Hne]; first by rewrite eqxx.
  have -> : (k == k0) = false by apply/eqP => E; apply: Hne.
  rewrite /= IH. by case: (k \in map fst o).
Qed.

End ObjectLemmas.

(** [Object.keys] lists each key once, in some order. *)
Lemma object_keys_perm (V : Type) (o : js_object V) : perm_eq (object_keys o) (map fst o).
Proof.
  rewrite /object_keys. set s := map fst o.
  have Hs : perm_eq ([seq k <- s | is_array_index k] ++ [seq k <- s | ~~ is_array_index k]) s
    by rewrite perm_filterC.
  apply: perm_trans Hs. by rewrite perm_cat2r perm_sort.
Qed.

(** ** The grouping *)

Section Grouping.

Context `{LocaleCompare} `{CaseMapping}.

Lemma group_step_get (acc : js_object (seq PageData)) (page : PageData) (k : string) :
  obj_get (group_step acc page) k =
  if page_letter page == k then Some (rcons (odflt [::] (obj_get acc k)) page)
  else obj_get acc k.
Proof.
  rewrite /group_step obj_get_set. case: (page_letter page =P k) => [<-|Hne].
  - case E: (obj_get acc (page_letter page)) => [v|] /=; first by rewrite E.
    by rewrite obj_get_set eqxx.
  - case: (obj_get acc (page_letter page)) => [v|] //=. rewrite obj_get_set.
    by have /negPf -> : page_letter page != k by apply/eqP.
Qed.

Lemma group_step_keys (acc : js_object (seq PageData)) (page : PageData) :
  map fst (group_step acc page) =
  if page_letter page \in map fst acc then map fst acc else rcons (map fst acc) (page_letter page).
Proof.
  rewrite /group_step -obj_get_keys.
  case E: (obj_get acc (page_letter page)) => [v|] /=.
  - by rewrite keys_set -obj_get_keys E.
  - rewrite keys_set keys_set -obj_get_keys E /=.
    by rewrite mem_rcons in_cons eqxx.
Qed.

Lemma filter_letter_nil (pages : seq PageData) (k : string) :
  k \notin map page_letter pages -> [seq p <- pages | page_letter p == k] = [::].
Proof.
  rewrite -has_pred1 has_map has_filter negbK => /eqP E. exact: E.
Qed.

(** After [reduce], the array of a letter holds the pages with that
    letter, in input order, and there is no array for another letter. *)
Lemma groups_of_get (pages : seq PageData) (k : string) :
  obj_get (groups_of pages) k =
  if k \in map page_letter pages then Some [seq p <- pages | page_letter p == k] else None.
Proof.
  rewrite /groups_of. elim/last_ind: pages => [|pages p IH] //.
  rewrite foldl_rcons group_step_get IH map_rcons mem_rcons in_cons filter_rcons eq_sym.
  case: (k =P page_letter p) => [_|_] //=.
  case Hin: (k \in _) => //=. by rewrite filter_letter_nil ?Hin.
Qed.

(** The keys are the letters of the pages, each once. *)
Lemma groups_of_keys (pages : seq PageData) :
  uniq (map fst (groups_of pages)) /\ map fst (groups_of pages) =i map page_letter pages.
Proof.
  rewrite /groups_of. elim/last_ind: pages => [|pages p [IHu IHm]] //.
  rewrite foldl_rcons group_step_keys.
  case E: (page_letter p \in _).
  - split; first by []. move=> k. rewrite IHm map_rcons mem_rcons in_cons.
    case: (k =P page_letter p) => [->|//]. by rewrite -IHm E.
  - split; first by rewrite rcons_uniq E IHu.
    move=> k. by rewrite mem_rcons in_cons IHm map_rcons mem_rcons in_cons.
Qed.

End Grouping.

(** ** The sorts *)

Section Sorting.

Context `{LocaleCompare}.

Lemma locale_le_total : total locale_le.
Proof.
  move=> a b. rewrite /locale_le (localeCompare_antisym a b).
  by case: (localeCompare a b).
Qed.

Lemma locale_le_trans : transitive locale_le.
Proof.
  move=> b a c. rewrite /locale_le.
  case Eab: (localeCompare a b) => //; case Ebc: (localeCompare b c) => //;
    case Eac: (localeCompare a c) => // _ _;
    by exfalso; apply: (@localeCompare_trans _ a b c); rewrite ?Eab ?Ebc ?Eac.
Qed.

Lemma title_le_total : total title_le.
Proof. move=> p q. exact: locale_le_total. Qed.

Lemma title_le_trans : transitive title_le.
Proof. move=> q p r. exact: locale_le_trans. Qed.

(** Sorting each letter's array once, in the order of the letters. *)
Lemma sort_groups_get (g : js_object (seq PageData)) (ls : seq string) (k : string) :
  uniq ls ->
  obj_get (sort_groups g ls) k =
  if k \in ls then Some (sort title_le (odflt [::] (obj_get g k))) else obj_get g k.
Proof.
  rewrite /sort_groups. elim: ls g => [|l ls IH] g //= /andP [Hl Hu].
  rewrite IH // obj_get_set in_cons.
  case Hk: (k \in ls).
  - have -> : (l == k) = false by apply/eqP => E; move: Hl; rewrite E Hk.
    by rewrite orbT.
  - rewrite orbF eq_sym. by case: (k =P l) => [->|].
Qed.

(** [sortedLetters] lists each key once, in [localeCompare] order. *)
Lemma sortedLetters_spec (g : js_object (seq PageData)) :
  perm_eq (sortedLetters g) (map fst g) /\ sorted locale_le (sortedLetters g).
Proof.
  split; last exact: (sort_sorted locale_le_total).
  rewrite /sortedLetters perm_sort. exact: object_keys_perm.
Qed.

End Sorting.

(** ** Partition by letter *)

Lemma perm_flatten_map (T U : eqType) (F G : T -> seq U) (ls : seq T) :
  (forall x, perm_eq (F x) (G x)) ->
  perm_eq (flatten [seq F x | x <- ls]) (flatten [seq G x | x <- ls]).
Proof. move=> HFG. elim: ls => [|x ls IH] //=. exact: perm_cat. Qed.

Section Partition.

Context `{CaseMapping}.

(** The pages of each letter of a list holding every letter once,
    one letter after another, are a permutation of the pages. *)
Lemma flatten_filter_letters (ls : seq string) (s : seq PageData) :
  uniq ls -> {subset map page_letter s <= ls} ->
  perm_eq (flatten [seq [seq p <- s | page_letter p == L] | L <- ls]) s.
Proof.
  elim: ls s => [|L ls IH] s /=.
  - case: s => [|p s] // _ /(_ (page_letter p)). by rewrite in_cons eqxx => /(_ isT).
  - move=> /andP [HL Hu] Hsub.
    have -> : [seq [seq p <- s | page_letter p == L'] | L' <- ls] =
              [seq [seq p <- [seq q <- s | page_letter q != L] | page_letter p == L'] | L' <- ls].
    { apply/eq_in_map => L' HL'. rewrite -filter_predI. apply/eq_filter => p /=.
      case: (page_letter p =P L') => [->|] //=. apply/esym/eqP => E.
      by move: HL; rewrite -E HL'. }
    have Hs : perm_eq ([seq p <- s | page_letter p == L] ++ [seq p <- s | page_letter p != L]) s
      by apply/permPl; exact: perm_filterC.
    apply: perm_trans Hs. rewrite perm_cat2l. apply: IH => // x.
    move=> /mapP [p]. rewrite mem_filter => /andP [Hp Hin] ->.
    have := Hsub (page_letter p) (map_f _ Hin). by rewrite in_cons (negPf Hp).
Qed.

End Partition.

(** ** The rendered index *)

Section IndexProofs.

Context `{LocaleCompare} `{CaseMapping}.

Lemma sortedLetters_groups (pages : seq PageData) :
  uniq (sortedLetters (groups_of pages)) /\
  sortedLetters (groups_of pages) =i map page_letter pages.
Proof.
  have [Hperm _] := sortedLetters_spec (groups_of pages).
  have [Hu Hm] := groups_of_keys pages.
  split; first by rewrite (perm_uniq Hperm).
  move=> L. by rewrite (perm_mem Hperm) Hm.
Qed.

(** The sections, one per letter in [localeCompare] order, each listing
    the stable sort by title of the pages with that letter. *)
Lemma TablesPage_sections (pages : seq PageData) :
  TablesPage pages =
  [seq {| section_letter := L;
          links := [seq (path p, title p) | p <- sort title_le [seq p <- pages | page_letter p == L]] |}
  | L <- sortedLetters (groups_of pages)].
Proof.
  have [Hu Hm] := sortedLetters_groups pages.
  rewrite /TablesPage. apply/eq_in_map => L HL /=.
  rewrite sort_groups_get // HL groups_of_get -Hm HL. by [].
Qed.

(** Two titles equal to a third under [localeCompare] may come in
    either order. *)
Lemma locale_eq_le (a b t : string) : locale_eq a t -> locale_eq b t -> locale_le a b.
Proof.
  rewrite /locale_eq. case Ea: (localeCompare a t) => // _.
  case Eb: (localeCompare b t) => // _.
  apply: (locale_le_trans (y := t)); rewrite /locale_le ?Ea //.
  by rewrite localeCompare_antisym Eb.
Qed.

Lemma sorted_locale_class (t : string) (s : seq PageData) :
  all (fun p => locale_eq (title p) t) s -> sorted title_le s.
Proof.
  case: s => [|x s] //= /andP [Hx Hs]. elim: s x Hx Hs => [|y s IH] x Hx //= /andP [Hy Hs].
  rewrite /title_le (locale_eq_le Hx Hy) /=. exact: IH.
Qed.

(** Within a group, the pages of titles equal under [localeCompare]
    keep their input order. *)
Lemma sort_title_stable (t : string) (s : seq PageData) :
  [seq p <- sort title_le s | locale_eq (title p) t] = [seq p <- s | locale_eq (title p) t].
Proof.
  rewrite (filter_sort title_le_total title_le_trans) sorted_sort //.
  - exact: title_le_trans.
  - apply: (sorted_locale_class (t := t)). exact: filter_all.
Qed.

End IndexProofs.

(** ** Properties of the table index *)

Section IndexClaims.

Context `{LocaleCompare} `{CaseMapping}.

(** C13: the index has one section per letter, in [localeCompare] order
    of the letters, and the section of a letter links, in order, the
    stable sort by title of the pages whose upper-cased first character
    is that letter. *)
Theorem TablesPage_spec (pages : seq PageData) :
  TablesPage pages =
  [seq {| section_letter := L;
          links := [seq (path p, title p) | p <- sort title_le [seq p <- pages | page_letter p == L]] |}
  | L <- sortedLetters (groups_of pages)].
Proof. exact: TablesPage_sections. Qed.

(** C31: the section headings are sorted by [localeCompare], each
    appears once, and they are exactly the letters of the pages. *)
Theorem TablesPage_letters (pages : seq PageData) :
  sorted locale_le [seq section_letter sec | sec <- TablesPage pages] /\
  uniq [seq section_letter sec | sec <- TablesPage pages] /\
  [seq section_letter sec | sec <- TablesPage pages] =i map page_letter pages.
Proof.
  have -> : [seq section_letter sec | sec <- TablesPage pages] = sortedLetters (groups_of pages).
  { rewrite TablesPage_sections -map_comp. exact: map_id. }
  have [Hu Hm] := sortedLetters_groups pages.
  have [_ Hs] := sortedLetters_spec (groups_of pages).
  by [].
Qed.

(** C14: every page is linked exactly once: the links of all sections
    together are a permutation of the pages' [(path, title)] pairs. *)
Theorem TablesPage_links_perm (pages : seq PageData) :
  perm_eq (flatten [seq links sec | sec <- TablesPage pages])
          [seq (path p, title p) | p <- pages].
Proof.
  have [Hu Hm] := sortedLetters_groups pages.
  rewrite TablesPage_sections -map_comp /=. set ls := sortedLetters (groups_of pages).
  apply: (@perm_trans _ [seq (path p, title p) | p <- flatten
            [seq sort title_le [seq p <- pages | page_letter p == L] | L <- ls]]).
  - rewrite map_flatten -map_comp. exact: perm_refl.
  - apply: perm_map. apply: perm_trans (flatten_filter_letters Hu _).
    + apply: perm_flatten_map => L. exact/permPl/perm_sort.
    + move=> L. by rewrite Hm.
Qed.

(** C32: within a section the links are in [localeCompare] order of
    their titles, and links whose titles compare equal keep the order
    of the input pages ([Array.prototype.sort] is stable). *)
Theorem TablesPage_section_order (pages : seq PageData) (sec : IndexSection) :
  sec \in TablesPage pages ->
  sorted (fun x y => locale_le x.2 y.2) (links sec) /\
  forall t, [seq x <- links sec | locale_eq x.2 t] =
            [seq (path p, title p) | p <- pages &
               (page_letter p == section_letter sec) && locale_eq (title p) t].
Proof.
  rewrite TablesPage_sections => /mapP [L _ ->] /=. split.
  - rewrite sorted_map. exact: (sort_sorted title_le_total).
  - move=> t. rewrite filter_map (sort_title_stable t) -filter_predI.
    congr map. apply: eq_filter => p /=. by rewrite andbC.
Qed.

(** C18: the [reduce] builds, from the empty object, one array per
    letter of the pages, under keys that are distinct and exactly the
    pages' letters; the array of a letter holds the pages with that
    letter, in input order, and no other letter has an array. *)
Theorem groups_of_spec (pages : seq PageData) :
  uniq (map fst (groups_of pages)) /\
  map fst (groups_of pages) =i map page_letter pages /\
  forall k, obj_get (groups_of pages) k =
    if k \in map page_letter pages then Some [seq p <- pages | page_letter p == k] else None.
Proof.
  have [Hu Hm] := groups_of_keys pages. split; [exact: Hu | split; [exact: Hm|]].
  exact: groups_of_get.
Qed.

End IndexClaims.

(** ** Concrete runs *)

(** Byte-wise lexicographic comparison is a consistent comparison; it is
    the runtime of the concrete runs (the "en" collation agrees with it
    on the titles they use). *)
Lemma string_compare_trans (a b c : string) :
  String.compare a b <> Gt -> String.compare b c <> Gt -> String.compare a c <> Gt.
Proof.
  elim: a b c => [|x a IH] [|y b] [|z c] //=.
  rewrite /Ascii.compare.
  case: (N.compare_spec (N_of_ascii x) (N_of_ascii y)) => Hxy;
  case: (N.compare_spec (N_of_ascii y) (N_of_ascii z)) => Hyz;
  case: (N.compare_spec (N_of_ascii x) (N_of_ascii z)) => Hxz //;
    try (exfalso; lia); try exact: IH.
Qed.

#[refine] Definition lexicographic_locale : LocaleCompare :=
  {| localeCompare := String.compare |}.
Proof.
  - move=> a b. exact: String.compare_antisym.
  - exact: string_compare_trans.
Defined.

(** The examples' titles begin with ASCII characters. *)
Definition ascii_titles : CaseMapping := fun s => s.

#[local] Existing Instance lexicographic_locale.
#[local] Existing Instance ascii_titles.

Definition sample_pages : seq PageData :=
  [:: {| title := "Zero-coupon bond yields"; path := "/en/tables/zero-coupon-bond-yields" |};
      {| title := "annuity factors"; path := "/en/tables/annuity-factors" |};
      {| title := "Bond duration"; path := "/en/tables/bond-duration" |};
      {| title := "Amortization"; path := "/en/tables/amortization" |};
      {| title := "10-year treasury yields"; path := "/en/tables/10-year-treasury-yields" |}].

(** The "A" section of the sample: two titles, upper case first. *)
Definition sample_section_A : IndexSection :=
  {| section_letter := "A";
     links := [:: ("/en/tables/amortization"%string, "Amortization"%string);
                  ("/en/tables/annuity-factors"%string, "annuity factors"%string)] |}.

Lemma TablesPage_section_order_witness :
  sample_section_A \in TablesPage sample_pages /\
  sorted (fun x y => locale_le x.2 y.2) (links sample_section_A).
Proof.
  have Hin : sample_section_A \in TablesPage sample_pages by vm_compute; reflexivity.
  split; first exact: Hin.
  exact: (proj1 (TablesPage_section_order Hin)).
Defined.

(** The sample list renders four sections, "1", "A", "B", "Z":
    the title starting with a digit first, the lower-case title grouped
    under its upper-cased letter. *)
Example TablesPage_sample :
  [seq (section_letter sec, size (links sec)) | sec <- TablesPage sample_pages] =
  [:: ("1"%string, 1); ("A"%string, 2); ("B"%string, 1); ("Z"%string, 1)].
Proof. by vm_compute. Qed.

(** A page with an empty title is listed under a section whose
    heading is empty ([""].charAt(0) is [""]). *)
Example TablesPage_empty_title :
  TablesPage [:: {| title := ""; path := "/en/tables/untitled" |}] =
  [:: {| section_letter := ""; links := [:: ("/en/tables/untitled"%string, ""%string)] |}].
Proof. by vm_compute. Qed.


