(* ===== verification/StockComparisonPage.v ===== *)
(** * The English stock-comparison page

    Models src/app/en/stock-comparisons/[slug]/page.tsx: the page of the
    dynamic route [/en/stock-comparisons/[slug]].  It reads [slug] from
    the route parameters, fixes the two symbols, and renders the page
    header (with the route's pathname), the table of contents, the
    article heading and introduction, the five comparison sections with
    the two symbols as props, the advertisement sidebar and the footer.

    Of the five sections only [CompanyOverviewSection] is part of the
    sources (modelled in [CompanyOverview]); the page runs it, as React
    does when it renders the async component, and keeps its rendered
    node.  The other four are outside the sources: they are kept as
    elements with the props the page passes, and their requests, which
    React may interleave with the overview's, are not modelled.

    The theorem shows that the slug reaches only the header's pathname:
    every slug renders, and fetches, the comparison of AAPL and TSLA. *)

From Stdlib Require Import String List.
From S2P Require Import Prelude JsNumber NumberFormat Markup Fetch CompanyOverview.
Import ListNotations.
Local Open Scope string_scope.
Local Open Scope io_scope.

Inductive page_element : Type :=
| PageHeader (pathname : string)
| TableOfContentsSidebar
| ArticleH1 (text : string)
| ModifiedDate
| ArticleP (text : string)
| ComparisonSection (component : string) (stockOneSymbol stockTwoSymbol : string)
| OverviewSection (rendered : node)
| AdvertisementSidebar
| PageFooter.

(** The heading and the introduction, with JSX's joining of the source
    lines by one space. *)
Definition page_heading (stockOneSymbol stockTwoSymbol : string) : string :=
  stockOneSymbol ++ " vs. " ++ stockTwoSymbol ++ ": A Head-to-Head Stock Comparison".

Definition page_introduction (stockOneSymbol stockTwoSymbol : string) : string :=
  "Here’s a clear look at " ++ stockOneSymbol ++ " and " ++ stockTwoSymbol ++
  ", comparing key factors like performance, valuation metrics, dividends, and financial strength. It’s built for investors or anyone curious to see how these two stocks match up.".

Section Page.
Context `{NumberToString} `{DateToLocale}.

(** The article's sections, in order, around the rendered overview. *)
Definition comparison_sections (stockOneSymbol stockTwoSymbol : string) (overview : node)
  : list page_element :=
  [ComparisonSection "PerformanceComparisonSection" stockOneSymbol stockTwoSymbol;
   OverviewSection overview;
   ComparisonSection "ValuationMetricsComparisonSection" stockOneSymbol stockTwoSymbol;
   ComparisonSection "DividendComparisonSection" stockOneSymbol stockTwoSymbol;
   ComparisonSection "FinancialStrengthMetricsComparisonSection" stockOneSymbol stockTwoSymbol].

Definition StockComparisonPage (apiKey : option string)
    (server : string -> response CompanyProfileData) (slug : string) : io (list page_element) :=
  let stockOneSymbol := "AAPL" in
  let stockTwoSymbol := "TSLA" in
  overview <- CompanyOverviewSection apiKey server stockOneSymbol stockTwoSymbol ;;
  ret ([PageHeader ("/en/stock-comparisons/" ++ slug);
        TableOfContentsSidebar;
        ArticleH1 (page_heading stockOneSymbol stockTwoSymbol);
        ModifiedDate;
        ArticleP (page_introduction stockOneSymbol stockTwoSymbol)] ++
       comparison_sections stockOneSymbol stockTwoSymbol overview ++
       [AdvertisementSidebar; PageFooter])%list.

End Page.

(** The values of Next.js's [dynamic] route segment option. *)
Inductive dynamic_option : Type :=
| DynamicAuto
| ForceDynamic
| DynamicError
| ForceStatic.

(** The route segment config the page exports. *)
Module RouteSegmentConfig.

(** [export const revalidate = 60], in seconds. *)
Definition revalidate : nat := 60.

(** [export const dynamic = "force-static"] *)
Definition dynamic : dynamic_option := ForceStatic.

End RouteSegmentConfig.

Section PageClaims.
Context `{NumberToString} `{DateToLocale}.

(** C34: the slug of the route reaches only the header's pathname: the
    pages of any two slugs agree after the header and make the same
    requests and console errors; every comparison section compares AAPL
    with TSLA, and the overview section is the overview of AAPL and
    TSLA built from their profiles (the "unavailable" section when
    either is missing), whatever the slug. *)
Theorem StockComparisonPage_slug_ignored apiKey server (slug slug' : string) st :
  tl (fst (StockComparisonPage apiKey server slug st)) =
    tl (fst (StockComparisonPage apiKey server slug' st)) /\
  snd (StockComparisonPage apiKey server slug st) =
    snd (StockComparisonPage apiKey server slug' st) /\
  hd_error (fst (StockComparisonPage apiKey server slug st)) =
    Some (PageHeader ("/en/stock-comparisons/" ++ slug)) /\
  (forall c one two, In (ComparisonSection c one two) (fst (StockComparisonPage apiKey server slug st)) ->
     one = "AAPL" /\ two = "TSLA") /\
  In (OverviewSection
        (match profile_of (server (profile_endpoint apiKey "AAPL")),
               profile_of (server (profile_endpoint apiKey "TSLA")) with
         | Some p1, Some p2 => overview_page "AAPL" "TSLA" p1 p2
         | _, _ => overview_unavailable
         end))
     (fst (StockComparisonPage apiKey server slug st)).
Proof.
  unfold StockComparisonPage, bind. cbv zeta. rewrite !CompanyOverviewSection_run.
  split; [reflexivity|]. split; [reflexivity|]. split; [reflexivity|]. split.
  - intros c one two Hin. cbn [fst] in Hin. simpl in Hin.
    repeat (destruct Hin as [Hin|Hin];
            [first [discriminate | injection Hin as <- <- <-; split; reflexivity] |]).
    contradiction.
  - cbn [fst]. simpl. tauto.
Qed.

End PageClaims.
