(* ===== verification/HomePage.v ===== *)
(** * The Chinese home page

    Models src/app/zh/page.tsx: the async server component [Page] that
    renders the header, a [main] element with the hero section, the
    price-series section ([PriceSeries.StockComparisonSection]) and the
    calculator section, and the footer; and its [revalidate] export.

    [Header], [Footer], [HeroSection] and [CalculatorSection] of the
    Chinese pages are not part of the sources: they are kept as elements
    with the class name the page passes, and whatever they fetch when
    React renders them is not modelled.  Of the page's children only
    [StockComparisonSection] is modelled as async; React renders it (its
    two requests) while rendering the page, so the page is an [io]
    computation that runs the section, and its requests are the
    section's only under that omission.  A section that returns
    [null] renders nothing, but its element stays in the tree. *)

From Stdlib Require Import String List.
From S2P Require Import Prelude Fetch StaticMarkup PriceSeries.
Import ListNotations.
Local Open Scope string_scope.
Local Open Scope io_scope.

Inductive main_child : Type :=
| MainHeroSection (className : option string)
| MainStockComparisonSection (className : option string) (rendered : option StockComparisonView)
| MainCalculatorSection (className : option string).

Inductive page_child : Type :=
| PageHeader (className : string)
| PageMain (children : list main_child)
| PageFooter (className : string).

Section Page.
Context `{CssModules}.

Definition styles (key : string) : option string := css_class "page.module.css" key.

Definition Page (apiKey : option string) (server : string -> response HistoricalPriceDataPoint)
    : io (list page_child) :=
  section <- StockComparisonSection apiKey server ;;
  ret [PageHeader (clsx [styles "header"; Some "layoutContainer"]);
       PageMain [MainHeroSection (styles "heroSection");
                 MainStockComparisonSection (styles "stockComparisonSection") section;
                 MainCalculatorSection (styles "calculatorSection")];
       PageFooter (clsx [styles "footer"; Some "layoutContainer"])].

End Page.

(** [export const revalidate = 60]: the page is regenerated at most once
    a minute, in seconds. *)
Definition revalidate : nat := 60.
